(** * Real-Debrid AI Manager: classification, corrections, grouping

    A shallow embedding of the classification engine
    ([media-organizer/modules/classifier.py], [jav_detector.py],
    [smart_cache.py], [ai_classifier.py], [correction_processor.py]) and of
    the grouping layer ([Real-debrid-Strm/app/real_debrid_processor.py]),
    followed by the properties proved about them. *)

From Stdlib Require Import ZArith NArith List Bool Ascii String Lia DecimalString.
From Stdlib Require Import Floats Uint63.
From stdpp Require Import base option list gmap.

Set Warnings "-inexact-float".
Open Scope N_scope.

(** ** Python strings

    A Python [str] is a sequence of Unicode code points; [len] counts code
    points.  Literals of this file are written as UTF-8 text and decoded. *)

Abbreviation str := (list N).

Module Utf8.

Definition is_cont (b : N) : bool := (0x80 <=? b) && (b <=? 0xBF).
Definition between (lo hi b : N) : bool := (lo <=? b) && (b <=? hi).
Definition low6 (b : N) : N := N.land b 0x3F.
Definition replacement : N := 0xFFFD.

(** [bytes.decode('utf-8', errors='replace')]: every maximal ill-formed
    prefix of a sequence is replaced by one U+FFFD. *)
Fixpoint decode (bs : list N) : str :=
  match bs with
  | [] => []
  | b0 :: r0 =>
    if b0 <? 0x80 then b0 :: decode r0
    else if between 0xC2 0xDF b0 then
      match r0 with
      | b1 :: r1 =>
        if is_cont b1
        then (N.land b0 0x1F * 64 + low6 b1) :: decode r1
        else replacement :: decode r0
      | [] => [replacement]
      end
    else if between 0xE0 0xEF b0 then
      match r0 with
      | b1 :: r1 =>
        if between (if b0 =? 0xE0 then 0xA0 else 0x80)
                   (if b0 =? 0xED then 0x9F else 0xBF) b1
        then match r1 with
             | b2 :: r2 =>
               if is_cont b2
               then (N.land b0 0x0F * 4096 + low6 b1 * 64 + low6 b2)
                      :: decode r2
               else replacement :: decode r1
             | [] => [replacement]
             end
        else replacement :: decode r0
      | [] => [replacement]
      end
    else if between 0xF0 0xF4 b0 then
      match r0 with
      | b1 :: r1 =>
        if between (if b0 =? 0xF0 then 0x90 else 0x80)
                   (if b0 =? 0xF4 then 0x8F else 0xBF) b1
        then match r1 with
             | b2 :: r2 =>
               if is_cont b2
               then match r2 with
                    | b3 :: r3 =>
                      if is_cont b3
                      then (N.land b0 0x07 * 262144 + low6 b1 * 4096
                            + low6 b2 * 64 + low6 b3) :: decode r3
                      else replacement :: decode r2
                    | [] => [replacement]
                    end
               else replacement :: decode r1
             | [] => [replacement]
             end
        else replacement :: decode r0
      | [] => [replacement]
      end
    else replacement :: decode r0
  end.

End Utf8.

(** A literal of the source, as a [str]. *)
Definition u (s : string) : str :=
  Utf8.decode (map N_of_ascii (list_ascii_of_string s)).

Definition str_eqb (a b : str) : bool := bool_decide (a = b).


(** ** The Unicode character database

    [str.lower], [str.upper], [str.isdigit], [str.isalpha] and the classes
    of the [re] module are table driven.  On the Basic Latin block the tables
    are written out below; beyond it they are those of the interpreter's
    Unicode database, an environment of the program. *)

Class UnicodeData := {
  (** simple case mappings, the ones [re.IGNORECASE] folds with *)
  uni_tolower : N -> N;
  uni_toupper : N -> N;
  (** full case mappings of [str.lower] and [str.upper], per character *)
  uni_lower : N -> str;
  uni_upper : N -> str;
  uni_isalpha : N -> bool;
  uni_isdecimal : N -> bool;
  uni_isdigit : N -> bool;
  uni_isnumeric : N -> bool
}.

Module Py.

Definition is_ascii (c : N) : bool := c <? 128.
Definition ascii_isupper (c : N) : bool := (65 <=? c) && (c <=? 90).
Definition ascii_islower (c : N) : bool := (97 <=? c) && (c <=? 122).
Definition ascii_isalpha (c : N) : bool := ascii_isupper c || ascii_islower c.
Definition ascii_isdigit (c : N) : bool := (48 <=? c) && (c <=? 57).
Definition ascii_lower (c : N) : N := if ascii_isupper c then c + 32 else c.
Definition ascii_upper (c : N) : N := if ascii_islower c then c - 32 else c.

(** [Py_UNICODE_ISSPACE]: the characters [str.strip], [str.split] and the
    class [\s] treat as white space. *)
Definition isspace (c : N) : bool :=
  ((0x09 <=? c) && (c <=? 0x0D)) || ((0x1C <=? c) && (c <=? 0x20))
  || (c =? 0x85) || (c =? 0xA0) || (c =? 0x1680)
  || ((0x2000 <=? c) && (c <=? 0x200A))
  || (c =? 0x2028) || (c =? 0x2029) || (c =? 0x202F) || (c =? 0x205F)
  || (c =? 0x3000).

Section Tables.
Context {UD : UnicodeData}.

Definition tolower (c : N) : N :=
  if is_ascii c then ascii_lower c else uni_tolower c.
Definition toupper (c : N) : N :=
  if is_ascii c then ascii_upper c else uni_toupper c.
Definition isalpha (c : N) : bool :=
  if is_ascii c then ascii_isalpha c else uni_isalpha c.
Definition isdecimal (c : N) : bool :=
  if is_ascii c then ascii_isdigit c else uni_isdecimal c.
Definition isdigit (c : N) : bool :=
  if is_ascii c then ascii_isdigit c else uni_isdigit c.
Definition isnumeric (c : N) : bool :=
  if is_ascii c then ascii_isdigit c else uni_isnumeric c.
(** [Py_UNICODE_ISALNUM] *)
Definition isalnum (c : N) : bool :=
  isalpha c || isdecimal c || isdigit c || isnumeric c.

(** [s.lower()] and [s.upper()] *)
Definition lower (s : str) : str :=
  flat_map (fun c => if is_ascii c then [ascii_lower c] else uni_lower c) s.
Definition upper (s : str) : str :=
  flat_map (fun c => if is_ascii c then [ascii_upper c] else uni_upper c) s.
End Tables.

(** Truth value of a string: [if s:] *)
Definition truthy (s : str) : bool :=
  match s with [] => false | _ => true end.

(** [s.startswith(p)] *)
Fixpoint startswith (s p : str) : bool :=
  match p, s with
  | [], _ => true
  | c :: p', d :: s' => (c =? d) && startswith s' p'
  | _ :: _, [] => false
  end.

(** [s.endswith(p)] *)
Definition endswith (s p : str) : bool := startswith (rev s) (rev p).

(** [p in s] *)
Fixpoint contains (s p : str) : bool :=
  startswith s p || match s with [] => false | _ :: s' => contains s' p end.

(** [s.lstrip()], [s.rstrip()], [s.strip()] *)
Fixpoint lstrip (s : str) : str :=
  match s with
  | c :: s' => if isspace c then lstrip s' else s
  | [] => []
  end.
Definition rstrip (s : str) : str := rev (lstrip (rev s)).
Definition strip (s : str) : str := rstrip (lstrip s).

(** [s.split()]: the maximal runs of characters that are not white space.
    [cur] is the run being read, reversed. *)
Fixpoint split_ws_aux (cur : str) (s : str) : list str :=
  match s with
  | [] => match cur with [] => [] | _ => [rev cur] end
  | c :: s' =>
    if isspace c
    then match cur with
         | [] => split_ws_aux [] s'
         | _ => rev cur :: split_ws_aux [] s'
         end
    else split_ws_aux (c :: cur) s'
  end.
Definition split_ws (s : str) : list str := split_ws_aux [] s.

(** [s.split(sep)] for a one-character separator: never empty. *)
Fixpoint split_on_aux (sep : N) (cur : str) (s : str) : list str :=
  match s with
  | [] => [rev cur]
  | c :: s' =>
    if c =? sep then rev cur :: split_on_aux sep [] s'
    else split_on_aux sep (c :: cur) s'
  end.
Definition split_on (sep : N) (s : str) : list str := split_on_aux sep [] s.

(** [s.rfind(ch)], counted from [i]; [None] for -1 *)
Fixpoint rfind (ch : N) (i : nat) (s : str) : option nat :=
  match s with
  | [] => None
  | c :: s' =>
    match rfind ch (S i) s' with
    | Some j => Some j
    | None => if c =? ch then Some i else None
    end
  end.

(** [s.rstrip(ch)] *)
Fixpoint lstrip_char (ch : N) (s : str) : str :=
  match s with
  | c :: s' => if c =? ch then lstrip_char ch s' else s
  | [] => []
  end.
Definition rstrip_char (ch : N) (s : str) : str :=
  rev (lstrip_char ch (rev s)).

(** [s[:n]] *)
Definition slice_to (n : nat) (s : str) : str := take n s.

(** [s.replace(old, new)] for a one-character [old] *)
Definition replace_char (old : N) (new : str) (s : str) : str :=
  flat_map (fun c => if c =? old then new else [c]) s.

(** [a < b] on strings: the order of the code points, a proper prefix
    before what it is a prefix of *)
Fixpoint lt (a b : str) : bool :=
  match a, b with
  | _, [] => false
  | [], _ :: _ => true
  | x :: a', y :: b' => (x <? y) || ((x =? y) && lt a' b')
  end.

End Py.

(** ** Regular expressions

    The part of Python's [re] the program uses: literals, [.], classes,
    [\d \s \w \b], [^], [$], groups, alternation and greedy repetition,
    matched by backtracking with the priorities of [re] (leftmost start,
    then the first alternative and the longest repetition that let the rest
    match).  A turn of a repetition that consumes nothing ends it; what the
    patterns of the program repeat always consumes a character. *)

Module Re.

Inductive item :=
| IChar (c : N)
| IRange (lo hi : N)
| IDigit
| ISpace
| IWord.

Inductive regex :=
| Empty
| Lit (c : N)
| Dot
| Class (neg : bool) (items : list item)
| Cat (a b : regex)
| Alt (a b : regex)
| Repeat (lo : nat) (hi : option nat) (r : regex)
| Group (i : nat) (r : regex)
| AtStart
| AtEnd
| Boundary.

(** *** Compiling a pattern *)

Definition hexval (c : N) : option N :=
  if Py.ascii_isdigit c then Some (c - 48)
  else if (97 <=? c) && (c <=? 102) then Some (c - 87)
  else if (65 <=? c) && (c <=? 70) then Some (c - 55)
  else None.

(** An escape [\c...], the backslash already read: a class item and the
    rest of the pattern. *)
Definition parse_escape (p : str) : option (item * str) :=
  match p with
  | [] => None
  | c :: p' =>
    if c =? 100 then Some (IDigit, p')            (* \d *)
    else if c =? 115 then Some (ISpace, p')       (* \s *)
    else if c =? 119 then Some (IWord, p')        (* \w *)
    else if c =? 120 then                         (* \xhh *)
      match p' with
      | h1 :: h2 :: p'' =>
        match hexval h1, hexval h2 with
        | Some a, Some b => Some (IChar (a * 16 + b), p'')
        | _, _ => None
        end
      | _ => None
      end
    else if Py.ascii_isalpha c || Py.ascii_isdigit c then None
    else Some (IChar c, p')
  end.

Definition item_char (it : item) : option N :=
  match it with IChar c => Some c | _ => None end.

(** One member of a class, escapes read. *)
Definition parse_member (p : str) : option (item * str) :=
  match p with
  | [] => None
  | c :: p' => if c =? 92 then parse_escape p' else Some (IChar c, p')
  end.

(** The inside of [[...]] up to the closing bracket. *)
Fixpoint parse_items (fuel : nat) (p : str) : option (list item * str) :=
  match fuel with
  | O => None
  | S fuel' =>
    match p with
    | [] => None
    | c :: p' =>
      if c =? 93 then Some ([], p')
      else
        '(it, p1) ← parse_member p;
        match p1 with
        | d :: e :: p2 =>
          if (d =? 45) && negb (e =? 93) then
            '(it2, p3) ← parse_member (e :: p2);
            lo ← item_char it; hi ← item_char it2;
            '(its, p4) ← parse_items fuel' p3;
            Some (IRange lo hi :: its, p4)
          else
            '(its, p4) ← parse_items fuel' p1; Some (it :: its, p4)
        | _ => '(its, p4) ← parse_items fuel' p1; Some (it :: its, p4)
        end
    end
  end.

Definition parse_class (p : str) : option (regex * str) :=
  match p with
  | c :: p' =>
    if c =? 94
    then '(its, r) ← parse_items (S (length p')) p'; Some (Class true its, r)
    else '(its, r) ← parse_items (S (length p)) p; Some (Class false its, r)
  | [] => None
  end.

(** A decimal number and the rest. *)
Fixpoint parse_nat (acc : option nat) (p : str) : option nat * str :=
  match p with
  | c :: p' =>
    if Py.ascii_isdigit c
    then parse_nat (Some (default 0%nat acc * 10 + N.to_nat (c - 48))%nat) p'
    else (acc, p)
  | [] => (acc, p)
  end.

(** The quantifier that may follow an atom. *)
Definition parse_quant (r : regex) (p : str) : option (regex * str) :=
  match p with
  | c :: p' =>
    if c =? 42 then Some (Repeat 0 None r, p')                 (* * *)
    else if c =? 43 then Some (Repeat 1 None r, p')            (* + *)
    else if c =? 63 then Some (Repeat 0 (Some 1%nat) r, p')    (* ? *)
    else if c =? 123 then                                      (* {m,n} *)
      match parse_nat None p' with
      | (Some lo, d :: p1) =>
        if d =? 125 then Some (Repeat lo (Some lo) r, p1)
        else if d =? 44 then
          match parse_nat None p1 with
          | (hi, e :: p2) =>
            if e =? 125 then Some (Repeat lo hi r, p2) else None
          | _ => None
          end
        else None
      | _ => None
      end
    else Some (r, p)
  | [] => Some (r, p)
  end.

(** Alternatives, sequences and atoms; [g] is the number of groups opened
    so far (a group is numbered by its opening parenthesis). *)
Fixpoint parse_alt (fuel : nat) (g : nat) (p : str)
  : option (regex * nat * str) :=
  match fuel with
  | O => None
  | S fuel' =>
    let fix parse_seq (n : nat) (g : nat) (p : str)
      : option (regex * nat * str) :=
      match n with
      | O => None
      | S n' =>
        match p with
        | [] => Some (Empty, g, p)
        | c :: p' =>
          if (c =? 124) || (c =? 41) then Some (Empty, g, p)
          else
            '(a, g1, p1) ←
              (if c =? 40 then
                 '(r, g1, p1) ← parse_alt fuel' (S g) p';
                 match p1 with
                 | d :: p2 => if d =? 41 then Some (Group g r, g1, p2) else None
                 | [] => None
                 end
               else if c =? 91 then
                 '(r, p1) ← parse_class p'; Some (r, g, p1)
               else if c =? 92 then
                 match p' with
                 | d :: p2 =>
                   if d =? 98 then Some (Boundary, g, p2)
                   else '(it, p1) ← parse_escape p';
                        Some (match it with
                              | IChar x => Lit x
                              | _ => Class false [it]
                              end, g, p1)
                 | [] => None
                 end
               else if c =? 46 then Some (Dot, g, p')
               else if c =? 94 then Some (AtStart, g, p')
               else if c =? 36 then Some (AtEnd, g, p')
               else if (c =? 42) || (c =? 43) || (c =? 63) then None
               else Some (Lit c, g, p'));
            '(a', p2) ← parse_quant a p1;
            '(b, g2, p3) ← parse_seq n' g1 p2;
            Some (match b with Empty => a' | _ => Cat a' b end, g2, p3)
        end
      end in
    '(a, g1, p1) ← parse_seq (S (length p)) g p;
    match p1 with
    | c :: p2 =>
      if c =? 124 then
        '(b, g2, p3) ← parse_alt fuel' g1 p2; Some (Alt a b, g2, p3)
      else Some (a, g1, p1)
    | [] => Some (a, g1, p1)
    end
  end.

(** [re.compile(pattern)]: the expression and its number of groups, or
    [None] where [re] raises [re.error] (or the pattern is outside the part
    modelled). *)
Definition compile (pattern : str) : option (regex * nat) :=
  match parse_alt (S (length pattern)) 0 pattern with
  | Some (r, g, []) => Some (r, g)
  | _ => None
  end.

(** *** Matching *)

Record rmatch := {
  m_start : nat;
  m_end : nat;
  (** [match.groups()]: [None] for a group that took no part *)
  m_groups : list (option str)
}.

Fixpoint nrange (lo : N) (n : nat) : list N :=
  match n with O => [] | S n' => lo :: nrange (lo + 1) n' end.

Section Matcher.
Context {UD : UnicodeData}.
(** the flag [re.IGNORECASE] *)
Variable ignorecase : bool.

Definition iscased (c : N) : bool :=
  negb (c =? Py.tolower c) || negb (c =? Py.toupper c).

(** The characters [re] matches besides those with the same lower case:
    of its table, the lines of the letters [i] and [s]. *)
Definition fixes (lo : N) : list N :=
  if lo =? 105 then [0x131] else if lo =? 115 then [0x17F] else [].

(** [t'], a folded character of the text, against the pattern's [c]. *)
Definition in_fold (c t' : N) : bool :=
  let lo := Py.tolower c in (t' =? lo) || existsb (N.eqb t') (fixes lo).

Definition is_word (c : N) : bool := Py.isalnum c || (c =? 95).

Definition item_has (it : item) (t : N) : bool :=
  match it with
  | IChar c => t =? c
  | IRange lo hi => (lo <=? t) && (t <=? hi)
  | IDigit => Py.isdecimal t
  | ISpace => Py.isspace t
  | IWord => is_word t
  end.

Definition item_has_folded (it : item) (t' : N) : bool :=
  match it with
  | IChar c => in_fold c t'
  | IRange lo hi =>
    existsb (fun c => in_fold c t') (nrange lo (N.to_nat (hi + 1 - lo)))
  | _ => item_has it t'
  end.

Definition item_cased (it : item) : bool :=
  match it with
  | IChar c => iscased c
  | IRange lo hi => existsb iscased (nrange lo (N.to_nat (hi + 1 - lo)))
  | _ => false
  end.

Definition lit_match (c t : N) : bool :=
  if ignorecase && iscased c then in_fold c (Py.tolower t) else t =? c.

Definition class_match (neg : bool) (items : list item) (t : N) : bool :=
  xorb neg
    (if ignorecase && existsb item_cased items
     then existsb (fun it => item_has_folded it (Py.tolower t)) items
     else existsb (fun it => item_has it t) items).

Definition at_boundary (prev : option N) (s : str) : bool :=
  xorb (from_option is_word false prev) (from_option is_word false (head s)).

(** [$] without [re.MULTILINE]: the end, or just before a final newline *)
Definition at_end (s : str) : bool :=
  match s with [] => true | [c] => c =? 10 | _ => false end.

(** [mt r prev s caps k]: match [r] at the front of [s], whose
    predecessor in the text is [prev], then hand what is left to [k];
    when [k] fails, the next way of matching [r] is tried. *)
Fixpoint mt {A : Type} (r : regex) (prev : option N) (s : str)
    (caps : list (option str))
    (k : option N -> str -> list (option str) -> option A) {struct r}
  : option A :=
  match r with
  | Empty => k prev s caps
  | Lit c =>
    match s with
    | t :: s' => if lit_match c t then k (Some t) s' caps else None
    | [] => None
    end
  | Dot =>
    match s with
    | t :: s' => if t =? 10 then None else k (Some t) s' caps
    | [] => None
    end
  | Class neg items =>
    match s with
    | t :: s' => if class_match neg items t then k (Some t) s' caps else None
    | [] => None
    end
  | Cat a b => mt a prev s caps (fun prev' s' caps' => mt b prev' s' caps' k)
  | Alt a b =>
    match mt a prev s caps k with
    | Some x => Some x
    | None => mt b prev s caps k
    end
  | Repeat lo hi a =>
    (fix loop (fuel : nat) (cnt : nat) (prev : option N) (s : str)
         (caps : list (option str)) {struct fuel} : option A :=
       let stop := if (lo <=? cnt)%nat then k prev s caps else None in
       match fuel with
       | O => stop
       | S fuel' =>
         let more :=
           if from_option (fun h => (cnt <? h)%nat) true hi
           then mt a prev s caps (fun prev' s' caps' =>
                  if (length s' <? length s)%nat
                  then loop fuel' (S cnt) prev' s' caps'
                  else None)
           else None in
         match more with
         | Some x => Some x
         | None => stop
         end
       end) (length s) 0%nat prev s caps
  | Group i a =>
    mt a prev s caps (fun prev' s' caps' =>
      k prev' s' (<[i := Some (take (length s - length s') s)]> caps'))
  | AtStart => match prev with None => k prev s caps | Some _ => None end
  | AtEnd => if at_end s then k prev s caps else None
  | Boundary => if at_boundary prev s then k prev s caps else None
  end.

(** A match that starts exactly here: what is left of the text, the
    character before it, and the groups. *)
Definition match_here (r : regex) (ngroups : nat) (prev : option N)
    (s : str) : option (option N * str * list (option str)) :=
  mt r prev s (replicate ngroups None)
     (fun prev' s' caps => Some (prev', s', caps)).

Fixpoint search_from (r : regex) (ngroups : nat) (pos : nat)
    (prev : option N) (s : str) : option rmatch :=
  match match_here r ngroups prev s with
  | Some (_, s', caps) =>
    Some {| m_start := pos;
            m_end := pos + (length s - length s');
            m_groups := caps |}
  | None =>
    match s with
    | [] => None
    | c :: s' => search_from r ngroups (S pos) (Some c) s'
    end
  end.

(** Every match replaced, left to right; an empty match is replaced and
    the scan moves one character on. *)
Fixpoint sub_from (fuel : nat) (r : regex) (ngroups : nat) (repl : str)
    (prev : option N) (s : str) : str :=
  match fuel with
  | O => s
  | S fuel' =>
    match match_here r ngroups prev s with
    | Some (prev', s', _) =>
      if (length s' <? length s)%nat
      then repl ++ sub_from fuel' r ngroups repl prev' s'
      else repl ++ match s with
                   | [] => []
                   | c :: t => c :: sub_from fuel' r ngroups repl (Some c) t
                   end
    | None =>
      match s with
      | [] => []
      | c :: t => c :: sub_from fuel' r ngroups repl (Some c) t
      end
    end
  end.
End Matcher.

Section Api.
Context {UD : UnicodeData}.

(** [re.search(pattern, s)] or, with [ignorecase],
    [re.search(pattern, s, re.IGNORECASE)] *)
Definition search (pattern : str) (s : str) (ignorecase : bool)
  : option rmatch :=
  '(r, g) ← compile pattern; search_from ignorecase r g 0 None s.

(** [re.sub(pattern, repl, s)], [repl] without group references *)
Definition sub (pattern : str) (repl : str) (s : str) (ignorecase : bool)
  : str :=
  match compile pattern with
  | Some (r, g) => sub_from ignorecase (S (length s)) r g repl None s
  | None => s
  end.

Definition matches (pattern : str) (s : str) (ignorecase : bool) : bool :=
  bool_decide (is_Some (search pattern s ignorecase)).
End Api.

(** [re.escape(s)] *)
Definition special (c : N) : bool :=
  existsb (N.eqb c)
    [40; 41; 91; 93; 123; 125; 63; 42; 43; 45; 124; 94; 36; 92; 46; 38;
     126; 35; 32; 9; 10; 13; 11; 12].
Definition escape (s : str) : str :=
  flat_map (fun c => if special c then [92; c] else [c]) s.

End Re.

(** ** Library functions the processor calls *)

Module Urllib.

(** [unquote_to_bytes] on an ASCII run: [%hh] becomes the byte [hh]; a
    [%] that two hexadecimal digits do not follow stays. *)
Fixpoint unquote_to_bytes (s : str) : list N :=
  match s with
  | [] => []
  | c :: s' =>
    match s' with
    | h1 :: h2 :: s'' =>
      match (if c =? 37 then Re.hexval h1 else None), Re.hexval h2 with
      | Some a, Some b => (a * 16 + b) :: unquote_to_bytes s''
      | _, _ => c :: unquote_to_bytes s'
      end
    | _ => c :: unquote_to_bytes s'
    end
  end.

(** The text cut into its maximal ASCII runs ([true]) and the runs between
    them. *)
Fixpoint runs (cur : option (bool * str)) (s : str) : list (bool * str) :=
  match s with
  | [] => match cur with Some (b, r) => [(b, rev r)] | None => [] end
  | c :: s' =>
    match cur with
    | Some (b, r) =>
      if eqb b (Py.is_ascii c) then runs (Some (b, c :: r)) s'
      else (b, rev r) :: runs (Some (Py.is_ascii c, [c])) s'
    | None => runs (Some (Py.is_ascii c, [c])) s'
    end
  end.

(** [urllib.parse.unquote(s)]: every ASCII run is decoded to bytes and the
    bytes read as UTF-8, errors replaced; other characters are kept. *)
Definition unquote (s : str) : str :=
  if negb (existsb (N.eqb 37) s) then s
  else flat_map (fun '(ascii, r) =>
                   if ascii : bool then Utf8.decode (unquote_to_bytes r) else r)
                (runs None s).

End Urllib.

Module Pathlib.

(** [PurePosixPath(s).name]: the last component that is neither empty nor
    a single dot. *)
Definition name (s : str) : str :=
  default []
    (last (List.filter (fun x => Py.truthy x && negb (str_eqb x [46]))
                       (Py.split_on 47 s))).


(** Where the suffix starts: the last dot, when it is neither the first
    nor the last character of the name. *)
Definition suffix_at (nm : str) : option nat :=
  match Py.rfind 46 0 nm with
  | Some i => if (0 <? i)%nat && (i <? length nm - 1)%nat then Some i else None
  | None => None
  end.

Definition suffix (s : str) : str :=
  let nm := name s in
  match suffix_at nm with Some i => drop i nm | None => [] end.

Definition stem (s : str) : str :=
  let nm := name s in
  match suffix_at nm with Some i => take i nm | None => nm end.

End Pathlib.

(** ** [real_debrid_processor.py] *)

Module RealDebridProcessor.

(** The filter settings of a [RealDebridProcessor].  [allowed_mime_types]
    is set by [__init__] and read by no method. *)
Record self := {
  min_video_size_mb : Z;
  allowed_video_extensions : gset str;
  allowed_subtitle_extensions : gset str;
  allowed_mime_types : gset str
}.

(** [__init__] *)
Definition init : self := {|
  min_video_size_mb := 300;
  allowed_video_extensions :=
    list_to_set (map u [".mkv"; ".mp4"; ".avi"; ".mov"; ".wmv"; ".m4v";
                        ".webm"; ".flv"]%string);
  allowed_subtitle_extensions :=
    list_to_set (map u [".srt"; ".ass"; ".vtt"; ".sub"; ".idx"; ".ssa";
                        ".smi"]%string);
  allowed_mime_types :=
    list_to_set (map u ["video/x-matroska"; "video/mp4"; "video/x-msvideo";
                        "video/quicktime"; "video/x-ms-wmv"; "video/webm";
                        "video/x-flv"; "application/x-subrip"; "text/vtt";
                        "text/plain"]%string)
|}.

(** The class of the characters no file name may hold; 34 is the double
    quote. *)
Definition illegal_chars : str := u "[<>:" ++ [34] ++ u "/\\|?*]".
Definition control_chars : str := u "[\x00-\x1f\x7f-\x9f]".

Section Methods.
Context {UD : UnicodeData}.

Definition sanitize_folder_name (this : self) (name : str) : str :=
  if negb (Py.truthy name) then u "Unknown"
  else
    let name :=
      if bool_decide (Py.lower (Pathlib.suffix name) ∈
                      this.(allowed_video_extensions)
                      ∪ this.(allowed_subtitle_extensions))
      then Pathlib.stem name else name in
    let clean_name := Re.sub illegal_chars (u "_") name false in
    let clean_name := Re.sub control_chars [] clean_name false in
    let clean_name := Re.sub (u "\.+$") [] clean_name false in
    let clean_name := Py.strip clean_name in
    if Py.truthy clean_name then clean_name else u "Unknown".

(** The decoding loop: at most three passes, until a pass changes
    nothing. *)
Fixpoint unquote_passes (n : nat) (clean_name : str) : str :=
  match n with
  | O => clean_name
  | S n' =>
    let temp := Urllib.unquote clean_name in
    if str_eqb temp clean_name then clean_name else unquote_passes n' temp
  end.

(** The loop over [words] that builds [truncated] *)
Fixpoint truncate_words (truncated : str) (words : list str) : str :=
  match words with
  | [] => truncated
  | word :: words' =>
    if (length (truncated ++ u " " ++ word) <=? 95)%nat
    then truncate_words
           (if Py.truthy truncated then truncated ++ u " " ++ word else word)
           words'
    else truncated
  end.

(** [sanitize_filename] up to and including the removal of trailing
    dots *)
Definition clean_stage (name : str) : str :=
  let clean_name := unquote_passes 3 name in
  let clean_name := Re.sub (u "\.[^.]+$") [] clean_name false in
  let clean_name :=
    Re.sub (u "^(hhd\d+\.com@|hdd\d+\.com@)") [] clean_name false in
  let clean_name := Re.sub (u "(\.mp4|\.mkv|\.avi)$") [] clean_name true in
  let clean_name := Re.sub (u "%[0-9A-Fa-f]{2}") (u " ") clean_name false in
  let clean_name := Re.sub illegal_chars (u "_") clean_name false in
  let clean_name := Re.sub control_chars [] clean_name false in
  let clean_name := Re.sub (u "[._-]+") (u " ") clean_name false in
  let clean_name := Re.sub (u "\s+") (u " ") clean_name false in
  let clean_name := Py.strip clean_name in
  Re.sub (u "\.+$") [] clean_name false.

(** The truncation at a word boundary *)
Definition truncate_stage (clean_name : str) : str :=
  if (100 <? length clean_name)%nat then
    let truncated := truncate_words [] (Py.split_ws clean_name) in
    if Py.truthy truncated then truncated else Py.slice_to 95 clean_name
  else clean_name.

Definition fallback (name : str) : str :=
  Py.slice_to 50 (Re.sub (u "[^\w\s-]") [] name false).

Definition sanitize_filename (name : str) : str :=
  if negb (Py.truthy name) then u "unknown"
  else
    let clean_name := Py.strip (truncate_stage (clean_stage name)) in
    if negb (Py.truthy clean_name) || (length clean_name <? 3)%nat then
      if Py.truthy (Py.strip (fallback name))
      then Py.strip (fallback name)
      else u "media_file"
    else clean_name.

Definition extract_filename_from_url (url : str) : str :=
  if negb (Py.truthy url) then u "unknown"
  else if Py.contains url (u "/d/") then
    let parts := rev (Py.split_on 47 url) in
    match parts with
    | encoded_filename :: before_last :: _ =>
      if Py.truthy encoded_filename
         && negb (str_eqb encoded_filename before_last)
      then
        let decoded_filename := unquote_passes 3 encoded_filename in
        let decoded_filename :=
          default [] (head (Py.split_on 63 decoded_filename)) in
        default [] (head (Py.split_on 35 decoded_filename))
      else u "unknown"
    | _ => u "unknown"
    end
  else u "unknown".

(** *** The content filter *)

Inductive reason :=
| No_filename
| Unsupported_extension (file_ext : str)
| Video_file_too_small (filesize : Z)
| File_meets_criteria.

Inductive category := Video | Subtitle.

Record verdict := {
  process : bool;
  why : reason;
  cat : option category
}.

Definition file_ext (filename : str) : str :=
  Py.lower (Pathlib.suffix filename).

Definition is_video (this : self) (filename mime_type : str) : bool :=
  bool_decide (file_ext filename ∈ this.(allowed_video_extensions))
  || (Py.truthy mime_type && Py.contains mime_type (u "video")).

Definition is_subtitle (this : self) (filename mime_type : str) : bool :=
  bool_decide (file_ext filename ∈ this.(allowed_subtitle_extensions))
  || (Py.truthy mime_type && Py.contains mime_type (u "sub")).

(** [should_process_file(filename, filesize, mime_type)]; the callers in
    this file leave [mime_type] at its default, the empty string. *)
Definition should_process_file (this : self) (filename : str)
    (filesize : Z) (mime_type : str) : verdict :=
  if negb (Py.truthy filename)
  then {| process := false; why := No_filename; cat := None |}
  else if negb (is_video this filename mime_type)
          && negb (is_subtitle this filename mime_type)
  then {| process := false;
          why := Unsupported_extension (file_ext filename);
          cat := None |}
  else if is_video this filename mime_type
          && (0 <? this.(min_video_size_mb))%Z
          && (filesize <? this.(min_video_size_mb) * 1024 * 1024)%Z
  then {| process := false; why := Video_file_too_small filesize;
          cat := None |}
  else {| process := true; why := File_meets_criteria;
          cat := Some (if is_video this filename mime_type
                       then Video else Subtitle) |}.

(** *** Configuring the filter *)

(** What a turn of the loops of [configure_filtering] adds for [ext]: the
    extension, a dot put before it when it is not empty and has none, in
    lower case. *)
Definition added_extension (ext : str) : str :=
  let ext :=
    if Py.truthy ext && negb (Py.startswith ext (u "."))
    then u "." ++ ext else ext in
  Py.lower ext.

Definition add_extension (exts : gset str) (ext : str) : gset str :=
  {[ added_extension ext ]} ∪ exts.

(** [configure_filtering(min_video_size_mb, additional_video_exts,
    additional_subtitle_exts)]; an argument left out is [None]. *)
Definition configure_filtering (this : self) (min_video_size : option Z)
    (additional_video_exts additional_subtitle_exts : option (list str))
  : self :=
  {| min_video_size_mb := default this.(min_video_size_mb) min_video_size;
     allowed_video_extensions :=
       fold_left add_extension (default [] additional_video_exts)
                 this.(allowed_video_extensions);
     allowed_subtitle_extensions :=
       fold_left add_extension (default [] additional_subtitle_exts)
                 this.(allowed_subtitle_extensions);
     allowed_mime_types := this.(allowed_mime_types) |}.
End Methods.

(** *** Grouping

    The two collections the remote service returns are lists of JSON
    objects; a field is [None] when its key is absent. *)

Record torrent := {
  t_id : option str;
  t_filename : option str
}.

Record link_record := {
  l_id : option str;
  l_link : option str;
  l_torrent_id : option str;
  l_filename : option str;
  l_download : option str;
  l_filesize : option Z
}.

Record file_entry := {
  url : option str;
  filename : str;
  original_filename : str;
  filesize : Z
}.

Record group := {
  folder_name : str;
  files : list file_entry;
  torrent_info : torrent
}.

(** [g['files'].append(e)] *)
Definition append_file (e : file_entry) (g : group) : group :=
  {| folder_name := g.(folder_name);
     files := g.(files) ++ [e];
     torrent_info := g.(torrent_info) |}.

(** Truth value of [d.get(key)] *)
Definition opt_truthy (o : option str) : bool := from_option Py.truthy false o.

(** [torrent_map]: the torrents by id, those without an id skipped *)
Definition index_torrents (torrents : list torrent) : gmap str torrent :=
  fold_left
    (fun torrent_map t =>
       match t.(t_id) with
       | Some i => if Py.truthy i then <[i := t]> torrent_map else torrent_map
       | None => torrent_map
       end)
    torrents ∅.

Section Grouping.
Context {UD : UnicodeData}.
Variable this : self.

(** The state of the loop: [torrent_groups] and [processed_links] *)
Definition loop_state : Type := gmap str group * gset str.

(** The part of the loop body both functions share, entered once the
    torrent id is known and the link is not to be skipped. *)
Definition add_file (torrent_map : gmap str torrent) (st : loop_state)
    (item : link_record) (torrent_id : str) : loop_state :=
  let '(torrent_groups, processed_links) := st in
  match item.(l_link) with
  | None => st
  | Some link =>
    if Py.truthy link && negb (bool_decide (link ∈ processed_links)) then
      let original_filename :=
        if opt_truthy item.(l_filename) then default [] item.(l_filename)
        else extract_filename_from_url (default [] item.(l_download)) in
      let filesize := default 0%Z item.(l_filesize) in
      if negb (should_process_file this original_filename filesize []).(process)
      then st
      else
        let torrent_info :=
          default {| t_id := None; t_filename := None |}
                  (torrent_map !! torrent_id) in
        let group_name :=
          sanitize_folder_name this
            (default original_filename torrent_info.(t_filename)) in
        let torrent_groups :=
          match torrent_groups !! group_name with
          | Some _ => torrent_groups
          | None => <[group_name := {| folder_name := group_name;
                                       files := [];
                                       torrent_info := torrent_info |}]>
                      torrent_groups
          end in
        let sanitized_name := sanitize_filename original_filename in
        (alter (append_file {| url := item.(l_download);
                               filename := sanitized_name;
                               original_filename := original_filename;
                               filesize := filesize |})
               group_name torrent_groups,
         {[link]} ∪ processed_links)
    else st
  end.

(** The torrent id of a record when it is present and in the index *)
Definition known_torrent (torrent_map : gmap str torrent)
    (item : link_record) : option str :=
  match item.(l_torrent_id) with
  | Some torrent_id =>
    if negb (Py.truthy torrent_id)
       || negb (bool_decide (is_Some (torrent_map !! torrent_id)))
    then None else Some torrent_id
  | None => None
  end.

(** One turn of the loop of [_create_torrent_groups_with_skip] *)
Definition step_with_skip (torrent_map : gmap str torrent)
    (skip_existing : bool) (existing_urls : gset str)
    (st : loop_state) (item : link_record) : loop_state :=
  match known_torrent torrent_map item with
  | None => st
  | Some torrent_id =>
    if skip_existing
       && negb (bool_decide (existing_urls = ∅))
       && from_option (fun link => bool_decide (link ∈ existing_urls))
                      false item.(l_link)
    then st
    else add_file torrent_map st item torrent_id
  end.

(** One turn of the loop of [_create_torrent_groups] *)
Definition step (torrent_map : gmap str torrent)
    (st : loop_state) (item : link_record) : loop_state :=
  match known_torrent torrent_map item with
  | None => st
  | Some torrent_id => add_file torrent_map st item torrent_id
  end.

Definition _create_torrent_groups_with_skip (torrents : list torrent)
    (unrestricted_data : list link_record) (skip_existing : bool)
    (existing_urls : gset str) : gmap str group :=
  (fold_left (step_with_skip (index_torrents torrents)
                             skip_existing existing_urls)
             unrestricted_data (∅, ∅)).1.

Definition _create_torrent_groups (torrents : list torrent)
    (unrestricted_data : list link_record) : gmap str group :=
  (fold_left (step (index_torrents torrents)) unrestricted_data (∅, ∅)).1.

(** The file entries of all groups together *)
Definition all_files (torrent_groups : gmap str group) : list file_entry :=
  flat_map (fun kg => kg.2.(files)) (map_to_list torrent_groups).
Definition n_files (torrent_groups : gmap str group) : nat :=
  length (all_files torrent_groups).

(** What one turn of the loop may do besides nothing: one more file
    entry and one more consumed link, the link of the record, new until
    then. *)
Definition adds_one (st st' : loop_state) (item : link_record) : Prop :=
  ∃ link, item.(l_link) = Some link ∧ (link ∉ snd st)
          ∧ snd st' = ({[link]} ∪ snd st)
          ∧ n_files (fst st') = S (n_files (fst st)).

(** The number of file entries the record [item] adds when it comes
    after the records [before] *)
Definition contributes (torrents : list torrent) (skip_existing : bool)
    (existing_urls : gset str) (before : list link_record)
    (item : link_record) : nat :=
  n_files (_create_torrent_groups_with_skip torrents (before ++ [item])
             skip_existing existing_urls)
  - n_files (_create_torrent_groups_with_skip torrents before
               skip_existing existing_urls).
End Grouping.

End RealDebridProcessor.

(** ** [config.py] *)

(** The set literal [JAV_PREFIXES], as written (some codes twice); the
    program tests membership in it and searches it for a member that fits. *)
Definition JAV_PREFIXES : list str := map u [
  "STARS"; "START"; "SDJS"; "SDMU"; "DSVR"; "SSHN"; "OKYH"; "STAR";
  "SSIS"; "SSNI"; "SNIS"; "SIVR"; "ONED"; "ONE"; "SRS";
  "MIDE"; "MIDV"; "MIDD"; "MIRD"; "MIFD"; "MIMK"; "MIAA"; "MDVR"; "MIAD";
  "MIAE"; "MIAS"; "MIXS"; "MIGD"; "MIID"; "MDLD"; "MINT";
  "ABP"; "ABS"; "ABF"; "CHN"; "BGN";
  "DVAJ"; "AJVR"; "DV"; "KA";
  "WANZ"; "WAAA";
  "ADN"; "ATID"; "RBD"; "SHKD"; "JBD";
  "DASD"; "DAZD"; "DASS";
  "PPPD"; "PPPE"; "PPSD"; "PPFD"; "PPMD"; "PPUD"; "PPBD"; "PPVR";
  "AVERV"; "MDB"; "BAZX"; "BZVR"; "BMVR"; "BMVRS"; "DPVR"; "EXVR"; "HOTVR";
  "KBVR"; "KMVR"; "VRKM"; "SAVR"; "SQVR"; "BOKD";
  "JUX"; "JUL"; "JUR"; "JUFD"; "JUFE";
  "IPX"; "IPZ"; "IPTD"; "IPZZ";
  "EBOD"; "NHDTA"; "HBAD";
  "FSDSS"; "FLNS"; "FSLV";
  "PRED"; "MEYD"; "JUY"; "SPRD"; "MVSD"; "MXGS"; "MXBD";
  "SDAB"; "SDSI"; "SDDE"; "SDMU"; "SDJS"; "SDTH"; "SDEN";
  "DOKS"; "DOCP"; "DOCD";
  "AVSA"; "AVOP"; "AVKH"; "AVGL"; "AVSW";
  "SERO"; "FC2"; "HUNTA"; "HUNT"; "HMN"; "HMJM"; "MIZD"; "MIDA"; "MIDV";
  "ROYD"; "SAME"; "PFES"; "GVH"; "ALDN"; "BF"; "REBD"; "MD"; "MXBD";
  "SONE"; "ZSD"; "ABP" ]%string.

Definition in_JAV_PREFIXES (s : str) : bool := existsb (str_eqb s) JAV_PREFIXES.

(** ** [jav_detector.py] *)

Module JavDetector.

(** The list [patterns] of [is_jav_prefix] *)
Definition patterns : list str := map u [
  "([A-Z0-9]{2,6})[-_](\d{3,5})";
  "([A-Z0-9]{2,6})\s+(\d{3,5})";
  "([A-Z0-9]{2,6})(\d{3,5})";
  "@([A-Z0-9]{2,6})[-_](\d{3,5})";
  "\.com@([A-Z0-9]{2,6})[-_\s](\d{3,5})";
  "([0-9]+bbs)\s+Com@([A-Z0-9]{2,6})[-_\s](\d{3,5})";
  "([A-Z0-9]{2,6})[-_](\d{3,5})[-_\[]";
  "h[hd]d\d+\.com@([A-Z0-9]{2,6})[-_](\d{3,5})";
  "([A-Z0-9]{2,6})[-_](\d{3,5})[a-z]+";
  "([A-Z0-9]{2,6})[-_](\d{3,5})[-_]uncensored";
  "([A-Z0-9]{2,6})[-_](\d{3,5})\.TS";
  "([A-Z0-9]{2,6})[-_](\d{3,5})_\[4K\]";
  "\(Uncensored[^)]*\)\s*([A-Z0-9]{2,6})[-_](\d{3,5})";
  "([A-Z0-9]{2,6})[-_](\d{3,5})[^a-zA-Z0-9]";
  "FC2[-_]PPV[-_](\d{4,7})";
  "fc2[-_]ppv[-_](\d{4,7})";
  "\.com@FC2[-_]PPV[-_](\d{4,7})";
  "\.com@fc2[-_]ppv[-_](\d{4,7})";
  "FC2[-_]PPV[-_](\d{4,7})[-_]";
  "fc2[-_]ppv[-_](\d{4,7})[-_]" ]%string.

Section Detector.
Context {UD : UnicodeData}.

(** A group of a match as a string.  Every group of every pattern above
    takes part in every match of its pattern, so none is [None]. *)
Definition group (groups : list (option str)) (i : nat) : str :=
  default [] (mjoin (groups !! i)).

(** The prefix the loop body reads off a match of [pattern]. *)
Definition detected_prefix (pattern : str) (groups : list (option str))
  : option str :=
  if (2 <=? length groups)%nat then
    let prefix :=
      if (length groups =? 3)%nat
         && Py.contains (Py.lower (group groups 0)) (u "bbs")
      then group groups 1
      else if Py.truthy (group groups 0) then group groups 0
           else group groups 1 in
    Some (if Py.contains (Py.lower pattern) (u "fc2")
          then u "FC2-PPV" else prefix)
  else if (length groups =? 1)%nat then
    Some (if Py.contains (Py.lower pattern) (u "fc2")
          then u "FC2-PPV" else group groups 0)
  else None.

(** One turn of the loop over [patterns]: does it return [True]? *)
Definition pattern_hit (name pattern : str) : bool :=
  match Re.search pattern name true with
  | Some m =>
    match detected_prefix pattern (Re.m_groups m) with
    | Some prefix =>
      if (2 <=? length (Re.m_groups m))%nat
      then in_JAV_PREFIXES (Py.upper prefix)
           || Py.contains (Py.upper prefix) (u "FC2")
      else Py.contains (Py.upper prefix) (u "FC2")
    | None => false
    end
  | None => false
  end.

(** One turn of the fallback loop over [JAV_PREFIXES] *)
Definition prefix_hit (name_upper prefix : str) : bool :=
  Py.startswith name_upper (prefix ++ u "-")
  || Py.startswith name_upper (prefix ++ u "_")
  || Py.startswith name_upper (prefix ++ u " ")
  || Py.contains name_upper (u "@" ++ prefix ++ u "-")
  || Py.contains name_upper (u "@" ++ prefix ++ u "_").

Definition is_jav_prefix (name : str) : bool :=
  existsb (pattern_hit name) patterns
  || existsb (prefix_hit (Py.upper name)) JAV_PREFIXES
  || Re.matches (u "fc2[-_]?ppv") name true.

(** *** [extract_jav_code] *)

(** The list [patterns] of [extract_jav_code] *)
Definition code_patterns : list str := map u [
  "FC2[-_]PPV[-_](\d{4,7})";
  "fc2[-_]ppv[-_](\d{4,7})";
  "\.com@FC2[-_]PPV[-_](\d{4,7})";
  "\.com@fc2[-_]ppv[-_](\d{4,7})";
  "FC2[-_]PPV[-_](\d{4,7})[-_]";
  "fc2[-_]ppv[-_](\d{4,7})[-_]";
  "([A-Z0-9]{2,6})[-_](\d{3,5})";
  "([A-Z0-9]{2,6})\s+(\d{3,5})";
  "([A-Z0-9]{2,6})(\d{3,5})";
  "@([A-Z0-9]{2,6})[-_](\d{3,5})";
  "\.com@([A-Z0-9]{2,6})[-_\s](\d{3,5})";
  "([0-9]+bbs)\s+Com@([A-Z0-9]{2,6})[-_\s](\d{3,5})";
  "h[hd]d\d+\.com@([A-Z0-9]{2,6})[-_](\d{3,5})";
  "([A-Z0-9]{2,6})[-_](\d{3,5})[a-z]+";
  "([A-Z0-9]{2,6})[-_](\d{3,5})[-_]uncensored";
  "([A-Z0-9]{2,6})[-_](\d{3,5})\.TS";
  "([A-Z0-9]{2,6})[-_](\d{3,5})_\[4K\]";
  "\(Uncensored[^)]*\)\s*([A-Z0-9]{2,6})[-_](\d{3,5})";
  "([A-Z0-9]{2,6})[-_](\d{3,5})[^a-zA-Z0-9]" ]%string.

(** What one turn of the loop over [code_patterns] returns for the match
    [m] of [pattern] in [name]; [None]: the loop goes on.  Every group of
    every pattern takes part in every match of its pattern. *)
Definition code_of_match (name pattern : str) (m : Re.rmatch) : option str :=
  let groups := Re.m_groups m in
  if Py.contains (Py.lower pattern) (u "fc2") then
    Some (u "FC2-PPV-" ++ default [] (mjoin (last groups)))
  else if (2 <=? length groups)%nat then
    let '(prefix, code) :=
      if (length groups =? 3)%nat
         && Py.contains (Py.lower (group groups 0)) (u "bbs")
      then (group groups 1, group groups 2)
      else if Py.truthy (group groups 0)
           then (group groups 0, group groups 1)
           else (group groups 1, group groups 0) in
    if Py.truthy prefix && in_JAV_PREFIXES (Py.upper prefix)
    then Some (Py.upper prefix ++ u "-" ++ code)
    else None
  else if (length groups =? 1)%nat then
    let code := group groups 0 in
    let name_before_match := take (Re.m_start m) name in
    match Re.search (u "([A-Z0-9]{2,6})[-_]?$") name_before_match true with
    | Some prefix_match =>
      let prefix := group (Re.m_groups prefix_match) 0 in
      if in_JAV_PREFIXES (Py.upper prefix)
      then Some (Py.upper prefix ++ u "-" ++ code)
      else None
    | None => None
    end
  else None.

Definition code_of_pattern (name pattern : str) : option str :=
  match Re.search pattern name true with
  | Some m => code_of_match name pattern m
  | None => None
  end.

(** What one turn of the fallback loop over [JAV_PREFIXES] returns *)
Definition code_of_prefix (name prefix : str) : option str :=
  let name_upper := Py.upper name in
  let direct :=
    if Py.startswith name_upper (prefix ++ u "-")
       || Py.startswith name_upper (prefix ++ u "_")
       || Py.startswith name_upper (prefix ++ u " ")
    then
      match Re.search (Re.escape prefix ++ u "[-_\s](\d{3,7})") name true with
      | Some code_match =>
        Some (prefix ++ u "-" ++ group (Re.m_groups code_match) 0)
      | None => None
      end
    else None in
  match direct with
  | Some jav_code => Some jav_code
  | None =>
    match Re.search (u "\.com@" ++ Re.escape prefix ++ u "[-_](\d{3,7})")
                    name true with
    | Some website_match =>
      Some (prefix ++ u "-" ++ group (Re.m_groups website_match) 0)
    | None => None
    end
  end.

(** The first answer of [f] along [l]: a loop that returns at its first
    result *)
Fixpoint first_result {A B : Type} (f : A -> option B) (l : list A)
  : option B :=
  match l with
  | [] => None
  | x :: l' => match f x with Some y => Some y | None => first_result f l' end
  end.

(** [extract_jav_code(name)].  The fallback loop runs over the set
    [JAV_PREFIXES]; [iteration] lists its members in the order in which the
    interpreter yields them. *)
Definition extract_jav_code (iteration : list str) (name : str)
  : option str :=
  match first_result (code_of_pattern name) code_patterns with
  | Some jav_code => Some jav_code
  | None =>
    match first_result (code_of_prefix name) iteration with
    | Some jav_code => Some jav_code
    | None =>
      match Re.search (u "fc2[-_]?ppv[-_]?(\d{4,7})") name true with
      | Some fc2_match =>
        Some (u "FC2-PPV-" ++ group (Re.m_groups fc2_match) 0)
      | None => None
      end
    end
  end.
End Detector.

End JavDetector.

(** ** [classifier.py]: the detectors *)

Module Detectors.

Definition tv_show_names : list str := map u [
  "Family Guy"; "Game of Thrones"; "Breaking Bad"; "Better Call Saul";
  "Black Mirror"; "The Boys"; "House of the Dragon"; "Friends";
  "Smallville"; "How I Met Your Mother"; "Modern Family"; "The Simpsons";
  "South Park"; "Rick and Morty"; "American Dad"; "Futurama";
  "KonoSuba"; "God's Blessing"; "The Walking Dead"; "Stranger Things";
  "The Office"; "Sherlock"; "Doctor Who"; "Westworld"; "Lost";
  "Prison Break"; "Dexter"; "True Detective"; "Fargo"; "The Crown";
  "Narcos"; "Ozark"; "The Witcher"; "Mandalorian"; "Vikings" ]%string.

Definition spam_patterns : list str := map u [
  "★+.*免费.*手游";
  "★+.*免費.*手遊";
  "免费.*游戏";
  "免費.*遊戲";
  "18禁.*手游";
  "18禁.*手遊";
  "广告";
  "廣告";
  "推广";
  "推廣";
  ".*\.exe$";
  ".*\.msi$";
  "setup.*\.exe";
  "install.*\.exe" ]%string.

Section Detectors.
Context {UD : UnicodeData}.

(** The S01E01-style marker and the 5x09-style marker *)
Definition episode_marker (folder_name : str) : bool :=
  Re.matches (u "S\d+E\d+") folder_name true.
Definition compact_marker (folder_name : str) : bool :=
  Re.matches (u "\b\d{1,2}x\d{1,2}\b") folder_name true.

(** One turn of the loop over [tv_show_names] *)
Definition show_name_hit (folder_name show_name : str) : bool :=
  Re.matches (Re.escape show_name) folder_name true
  && (Re.matches (Re.escape show_name ++ u "\s+\d{3}\b") folder_name true
      || Re.matches (Re.escape show_name ++ u "\s+\d{2}\b") folder_name true).

Definition is_tv_show (folder_name : str) : bool :=
  episode_marker folder_name
  || compact_marker folder_name
  || existsb (show_name_hit folder_name) tv_show_names
  || Re.matches (u "\.S\d{1,2}\.") folder_name true
  || Re.matches (u "S\d{1,2}\.") folder_name true
  || Re.matches (u "\.S\d{1,2}[^a-zA-Z]") folder_name true
  || Re.matches (u "S\d{1,2}[^a-zA-Z]") folder_name true
  || Re.matches (u "Season\s+\d+") folder_name true
  || Re.matches (u "Complete.*Season") folder_name true
  || Re.matches (u "S\d{1,2}.*Complete") folder_name true.

Definition is_spam_or_ad (name : str) : bool :=
  existsb (fun pattern => Re.matches pattern name true) spam_patterns.
End Detectors.

End Detectors.

(** ** The world of the media organizer

    The two global objects [smart_cache] and [ai_classifier], the clock, and
    what the program reads from outside: files, the environment, the remote
    services. *)

Inductive exn := ValueError | OSError.

Inductive result (A : Type) :=
| Return (a : A)
| Raise (e : exn).
Arguments Return {A} a.
Arguments Raise {A} e.

(** [SmartCache.cache_data] and [SmartCache.manual_corrections] *)
Record cache_entry := {
  classification : str;
  timestamp : str;
  file_path : option str;
  dest_path : option str
}.

Record ai_entry := {
  ai_classification : str;
  ai_confidence : float;
  ai_timestamp : str
}.

Record hash_entry := {
  h_folder_name : str;
  h_classification : str;
  h_timestamp : str
}.

Record correction := {
  original : str;
  correct : str;
  reason : str;
  c_timestamp : str;
  (** [None]: the key is absent (a record read from a file may lack it) *)
  applied : option bool;
  correct_tmdb_id : option str
}.

Record features := {
  jav_code : option str;
  f_length : option nat;
  has_numbers : option bool;
  has_letters : option bool;
  has_special_chars : option bool
}.

Record learning_pattern := {
  lp_folder_name : str;
  original_classification : str;
  correct_classification : str;
  extracted_features : features
}.

Record smart_cache := {
  processed_files : gmap str cache_entry;
  ai_classifications : gmap str ai_entry;
  file_hashes : gmap str hash_entry;
  corrections : gmap str correction;
  learning_patterns : list learning_pattern
}.

(** [AIClassifier.learning_data] *)
Record ai_correction := {
  a_original : str;
  a_correct : str;
  a_timestamp : str
}.

Record score := {
  s_classification : str;
  s_confidence : float;
  s_reasoning : str
}.

Record ai_classifier := {
  (** whether [openai_client] is set *)
  openai_client : bool;
  jav_patterns : list str;
  ai_corrections : gmap str ai_correction;
  confidence_scores : gmap str score
}.

Record world := {
  cache : smart_cache;
  ai : ai_classifier;
  (** how often the clock has been read *)
  ticks : nat
}.

Record jav_result := {
  is_jav : bool;
  jav_confidence : float;
  jav_reasoning : str
}.

Record media_result := {
  media_classification : str;
  media_confidence : float;
  media_reasoning : str
}.

Record tmdb_info := {
  tm_id : str;
  tm_title : str;
  tm_year : str
}.

Class Platform := {
  (** [str(datetime.now())] at the n-th reading of the clock *)
  clock : nat -> str;
  (** [SmartCache.get_file_hash]: a digest of what the file holds now.
      A platform describes a stretch of time in which no file is
      rewritten; calls between which a file may change are calls under
      two platforms. *)
  get_file_hash : str -> str;
  (** [os.getenv('AI_CONFIDENCE_THRESHOLD')] *)
  env_confidence_threshold : option str;
  (** [float(s)] for the strings that are not plain decimals *)
  py_float : str -> option float;
  (** the modification time of the learning data file, as text *)
  learning_data_mtime : nat -> str;
  (** [AIClassifier._check_if_jav] and [_classify_shows_or_movie]: the
      answers of the remote model; [None] when the call raises *)
  check_if_jav : ai_classifier -> str -> option jav_result;
  classify_shows_or_movie : ai_classifier -> str -> option media_result;
  (** the metadata lookups by id; [correction_processor.py] imports the
      second under this name from [tmdb_api.py], where the lookup of a show
      is called [search_tmdb_tv_by_id] *)
  search_tmdb_movie_by_id : str -> option tmdb_info;
  search_tmdb_show_by_id : str -> option tmdb_info;
  (** the file system under [os.path.exists], [os.rename], [os.listdir];
      an operation that raises gives [None] *)
  fs : Type;
  os_path_exists : fs -> str -> bool;
  os_rename : fs -> str -> str -> option fs;
  os_listdir : fs -> str -> option (list str)
}.

(** [float(s)] *)
Module PyFloat.

Fixpoint digits (acc : Z) (n : nat) (s : str) : Z * nat * str :=
  match s with
  | c :: s' =>
    if Py.ascii_isdigit c
    then digits (acc * 10 + Z.of_N (c - 48))%Z (S n) s'
    else (acc, n, s)
  | [] => (acc, n, s)
  end.

(** A plain decimal of at most fifteen digits, [ddd] or [ddd.ddd]: the
    quotient of two integers that are floats, rounded once. *)
Definition of_decimal (s : str) : option float :=
  let '(i, n1, r) := digits 0 0 (Py.strip s) in
  let '(m, n2, r') :=
    match r with
    | c :: r1 => if c =? 46 then digits i 0 r1 else (i, 0%nat, r)
    | [] => (i, 0%nat, r)
    end in
  if Py.truthy r' || (n1 + n2 =? 0)%nat || (15 <? n1 + n2)%nat then None
  else Some (PrimFloat.div (PrimFloat.of_uint63 (Uint63.of_Z m))
                           (PrimFloat.of_uint63 (Uint63.of_Z (10 ^ Z.of_nat n2)))).

Definition float `{Platform} (s : str) : option float :=
  match of_decimal s with
  | Some f => Some f
  | None => py_float s
  end.

End PyFloat.

(** [_extract_jav_pattern], the same in [AIClassifier] and [SmartCache] *)
Definition _extract_jav_pattern `{UnicodeData} (folder_name : str) : option str :=
  match Re.search (u "([A-Z0-9]{2,6})[-_](\d{3,7})") folder_name true with
  | Some pattern_match =>
    Some (Py.upper (JavDetector.group (Re.m_groups pattern_match) 0)
          ++ u "-" ++ JavDetector.group (Re.m_groups pattern_match) 1)
  | None =>
    match Re.search (u "fc2[-_]?ppv[-_]?(\d{4,7})") folder_name true with
    | Some fc2_match =>
      Some (u "FC2-PPV-" ++ JavDetector.group (Re.m_groups fc2_match) 0)
    | None => None
    end
  end.

(** ** [ai_classifier.py] *)

Module AIClassifier.

Definition suspicious_patterns : list str := map u [
  "[A-Z0-9]{2,6}[-_]\d{3,7}";
  "fc2[-_]?ppv";
  "\d{3,7}[A-Z]{1,3}";
  "[A-Z]{2,6}\d{3,7}";
  "[A-Z]{2,6}\s+\d{3,7}" ]%string.

Section Methods.
Context {UD : UnicodeData} {PF : Platform}.

Definition should_use_ai (self : ai_classifier) (folder_name : str) : bool :=
  if negb self.(openai_client) then false
  else existsb (fun pattern => Re.matches pattern folder_name true)
               suspicious_patterns.

Definition get_confidence_threshold : result float :=
  let threshold_str := default (u "0.7") env_confidence_threshold in
  if negb (Py.truthy threshold_str)
     || negb (Py.truthy (Py.strip threshold_str))
  then Return 0.7%float
  else match PyFloat.float threshold_str with
       | Some f => Return f
       | None => Raise ValueError
       end.

Definition _cache_result (self : ai_classifier) (folder_name : str)
    (classification : str) (confidence : float) (reasoning : str)
  : ai_classifier :=
  {| openai_client := self.(openai_client);
     jav_patterns := self.(jav_patterns);
     ai_corrections := self.(ai_corrections);
     confidence_scores :=
       <[folder_name := {| s_classification := classification;
                           s_confidence := confidence;
                           s_reasoning := reasoning |}]>
         self.(confidence_scores) |}.

Definition classify_with_ai (self : ai_classifier) (folder_name : str)
    (original_classification : str) : (str * float) * ai_classifier :=
  if negb self.(openai_client)
  then ((original_classification, 0.5%float), self)
  else
    match self.(confidence_scores) !! folder_name with
    | Some cached_result =>
      ((cached_result.(s_classification), cached_result.(s_confidence)),
       self)
    | None =>
      match check_if_jav self folder_name with
      | None => ((original_classification, 0.3%float), self)
      | Some jav_result =>
        if jav_result.(is_jav) then
          ((u "JAV", jav_result.(jav_confidence)),
           _cache_result self folder_name (u "JAV")
             jav_result.(jav_confidence) jav_result.(jav_reasoning))
        else
          match classify_shows_or_movie self folder_name with
          | None => ((original_classification, 0.3%float), self)
          | Some media_result =>
            ((media_result.(media_classification),
              media_result.(media_confidence)),
             _cache_result self folder_name
               media_result.(media_classification)
               media_result.(media_confidence)
               media_result.(media_reasoning))
          end
      end
    end.

(** [now] is the number of clock readings so far, the time of the call *)
Definition learn_from_correction (self : ai_classifier) (now : nat)
    (folder_name correct_classification original_classification : str)
  : ai_classifier :=
  if negb (str_eqb original_classification correct_classification) then
    {| openai_client := self.(openai_client);
       jav_patterns :=
         if str_eqb correct_classification (u "JAV") then
           match _extract_jav_pattern folder_name with
           | Some jav_pattern =>
             if Py.truthy jav_pattern
                && negb (bool_decide (jav_pattern ∈ self.(jav_patterns)))
             then self.(jav_patterns) ++ [jav_pattern]
             else self.(jav_patterns)
           | None => self.(jav_patterns)
           end
         else self.(jav_patterns);
       ai_corrections :=
         <[folder_name := {| a_original := original_classification;
                             a_correct := correct_classification;
                             a_timestamp := learning_data_mtime now |}]>
           self.(ai_corrections);
       confidence_scores := self.(confidence_scores) |}
  else self.
End Methods.

End AIClassifier.

(** ** [smart_cache.py] *)

Module SmartCache.

Section Methods.
Context {UD : UnicodeData} {PF : Platform}.

Definition set_cache (w : world) (c : smart_cache) : world :=
  {| cache := c; ai := w.(ai); ticks := w.(ticks) |}.

(** One reading of the clock *)
Definition now (w : world) : str * world :=
  (clock w.(ticks),
   {| cache := w.(cache); ai := w.(ai); ticks := S w.(ticks) |}).

Definition is_file_processed (self : smart_cache) (file_path : str) : bool :=
  bool_decide (is_Some (self.(file_hashes) !! get_file_hash file_path)).

Definition get_cached_item (self : smart_cache) (folder_name : str)
  : option cache_entry :=
  self.(processed_files) !! folder_name.

Definition get_cached_classification (self : smart_cache)
    (folder_name : str) : option str :=
  classification <$> get_cached_item self folder_name.

Definition get_cached_ai_classification (self : smart_cache)
    (folder_name : str) : option (str * float) :=
  (fun cached => (cached.(ai_classification), cached.(ai_confidence)))
    <$> self.(ai_classifications) !! folder_name.

(** The entry [cache_classification] writes at the clock reading [n] *)
Definition entry_at (n : nat) (label : str) (path : option str)
  : cache_entry :=
  {| classification := label; timestamp := clock n;
     file_path := path; dest_path := None |}.

(** [cache_classification(folder_name, classification, file_path)],
    [dest_path] left at [None] *)
Definition cache_classification (w : world) (folder_name : str)
    (label : str) (path : option str) : world :=
  let '(stamp, w1) := now w in
  let self := w1.(cache) in
  let self :=
    {| processed_files :=
         <[folder_name := {| classification := label;
                             timestamp := stamp;
                             file_path := path;
                             dest_path := None |}]>
           self.(processed_files);
       ai_classifications := self.(ai_classifications);
       file_hashes := self.(file_hashes);
       corrections := self.(corrections);
       learning_patterns := self.(learning_patterns) |} in
  let w2 := set_cache w1 self in
  match path with
  | Some p =>
    if Py.truthy p then
      let '(stamp2, w3) := now w2 in
      let self := w3.(cache) in
      set_cache w3
        {| processed_files := self.(processed_files);
           ai_classifications := self.(ai_classifications);
           file_hashes :=
             <[get_file_hash p := {| h_folder_name := folder_name;
                                     h_classification := label;
                                     h_timestamp := stamp2 |}]>
               self.(file_hashes);
           corrections := self.(corrections);
           learning_patterns := self.(learning_patterns) |}
    else w2
  | None => w2
  end.

(** [update_cached_item(folder_name, {"dest_path": new_dest_path})] *)
Definition update_dest_path (self : smart_cache) (folder_name : str)
    (new_dest_path : str) : smart_cache :=
  {| processed_files :=
       alter (fun e => {| classification := e.(classification);
                          timestamp := e.(timestamp);
                          file_path := e.(file_path);
                          dest_path := Some new_dest_path |})
             folder_name self.(processed_files);
     ai_classifications := self.(ai_classifications);
     file_hashes := self.(file_hashes);
     corrections := self.(corrections);
     learning_patterns := self.(learning_patterns) |}.

Definition cache_ai_classification (w : world) (folder_name : str)
    (label : str) (confidence : float) : world :=
  let '(stamp, w1) := now w in
  let self := w1.(cache) in
  set_cache w1
    {| processed_files := self.(processed_files);
       ai_classifications :=
         <[folder_name := {| ai_classification := label;
                             ai_confidence := confidence;
                             ai_timestamp := stamp |}]>
           self.(ai_classifications);
       file_hashes := self.(file_hashes);
       corrections := self.(corrections);
       learning_patterns := self.(learning_patterns) |}.

Definition _extract_learning_pattern (folder_name original correct : str)
  : learning_pattern :=
  {| lp_folder_name := folder_name;
     original_classification := original;
     correct_classification := correct;
     extracted_features :=
       {| jav_code :=
            match _extract_jav_pattern folder_name with
            | Some jav_pattern =>
              if Py.truthy jav_pattern then Some jav_pattern else None
            | None => None
            end;
          f_length := Some (length folder_name);
          has_numbers := Some (existsb Py.isdigit folder_name);
          has_letters := Some (existsb Py.isalpha folder_name);
          has_special_chars :=
            Some (existsb (fun c => Py.contains (u "-_[]()") [c])
                          folder_name) |} |}.

Definition add_manual_correction (w : world) (folder_name : str)
    (original_classification correct_classification : str)
    (why : str) (tmdb_id : option str) : world :=
  let '(stamp, w1) := now w in
  let self := w1.(cache) in
  let self :=
    {| processed_files := self.(processed_files);
       ai_classifications := self.(ai_classifications);
       file_hashes := self.(file_hashes);
       corrections :=
         <[folder_name := {| original := original_classification;
                             correct := correct_classification;
                             reason := why;
                             c_timestamp := stamp;
                             applied := Some false;
                             correct_tmdb_id :=
                               if RealDebridProcessor.opt_truthy tmdb_id
                               then tmdb_id else None |}]>
           self.(corrections);
       learning_patterns :=
         self.(learning_patterns) ++
           [_extract_learning_pattern folder_name original_classification
                                      correct_classification] |} in
  {| cache := self;
     ai := AIClassifier.learn_from_correction w1.(ai) w1.(ticks)
             folder_name correct_classification original_classification;
     ticks := w1.(ticks) |}.

Definition _pattern_matches (folder_name : str) (pattern : learning_pattern)
  : bool :=
  let feats := pattern.(extracted_features) in
  if match feats.(jav_code) with
     | Some code =>
       match _extract_jav_pattern folder_name with
       | Some jav_pattern =>
         Py.truthy jav_pattern
         && Py.startswith jav_pattern
              (default [] (head (Py.split_on 45 code)))
       | None => false
       end
     | None => false
     end
  then true
  else if negb (bool_decide (feats.(has_numbers)
                             = Some (existsb Py.isdigit folder_name)))
  then false
  else if negb (bool_decide (feats.(has_letters)
                             = Some (existsb Py.isalpha folder_name)))
  then false
  else true.

Definition _matches_manual_correction_pattern (self : smart_cache)
    (folder_name : str) : bool :=
  existsb (_pattern_matches folder_name) self.(learning_patterns).

Definition should_use_ai (w : world) (folder_name : str)
    (path : option str) : bool :=
  if RealDebridProcessor.opt_truthy path
     && is_file_processed w.(cache) (default [] path)
  then false
  else if RealDebridProcessor.opt_truthy
            (get_cached_classification w.(cache) folder_name)
  then false
  else if _matches_manual_correction_pattern w.(cache) folder_name
  then true
  else AIClassifier.should_use_ai w.(ai) folder_name.

(** [get_unapplied_corrections]: the records whose [applied] is absent
    or false, each with its folder name *)
Definition get_unapplied_corrections (self : smart_cache)
  : list (str * correction) :=
  List.filter (fun kc => negb (default false kc.2.(applied)))
              (map_to_list self.(corrections)).

Definition mark_correction_applied (self : smart_cache)
    (folder_name : str) : smart_cache :=
  match self.(corrections) !! folder_name with
  | Some c =>
    {| processed_files := self.(processed_files);
       ai_classifications := self.(ai_classifications);
       file_hashes := self.(file_hashes);
       corrections :=
         <[folder_name := {| original := c.(original);
                             correct := c.(correct);
                             reason := c.(reason);
                             c_timestamp := c.(c_timestamp);
                             applied := Some true;
                             correct_tmdb_id := c.(correct_tmdb_id) |}]>
           self.(corrections);
       learning_patterns := self.(learning_patterns) |}
  | None => self
  end.

(** [cleanup_old_cache(days)].  [cutoff_str] is the text of the time
    [days] days before the call, [str(datetime.now() - timedelta(days))];
    the entries whose time stamp is below it are listed, then deleted. *)
Definition cleanup_old_cache (self : smart_cache) (cutoff_str : str)
  : smart_cache :=
  let old_files :=
    map fst (List.filter (fun kd => Py.lt kd.2.(timestamp) cutoff_str)
                         (map_to_list self.(processed_files))) in
  let old_ai :=
    map fst (List.filter (fun kd => Py.lt kd.2.(ai_timestamp) cutoff_str)
                         (map_to_list self.(ai_classifications))) in
  {| processed_files :=
       fold_left (fun m folder_name => delete folder_name m) old_files
                 self.(processed_files);
     ai_classifications :=
       fold_left (fun m folder_name => delete folder_name m) old_ai
                 self.(ai_classifications);
     file_hashes := self.(file_hashes);
     corrections := self.(corrections);
     learning_patterns := self.(learning_patterns) |}.

(** [get_cache_stats()]: the five counts, in the order of the source *)
Definition get_cache_stats (self : smart_cache)
  : nat * nat * nat * nat * nat :=
  (size self.(processed_files), size self.(ai_classifications),
   size self.(file_hashes), size self.(corrections),
   length self.(learning_patterns)).
End Methods.

End SmartCache.

(** ** [classifier.py]: [classify_folder] *)

Module Classifier.

Section Classify.
Context {UD : UnicodeData} {PF : Platform}.

(** The (label, confidence) pair of the AI step: the cached AI result,
    or the collaborator's answer, which is then cached. *)
Definition consult_ai (w : world) (name : str)
    (traditional_classification : str) : (str * float) * world :=
  match SmartCache.get_cached_ai_classification w.(cache) name with
  | Some cached_ai => (cached_ai, w)
  | None =>
    let '(answer, ai') :=
      AIClassifier.classify_with_ai w.(ai) name
                                    traditional_classification in
    (answer,
     SmartCache.cache_ai_classification
       {| cache := w.(cache); ai := ai'; ticks := w.(ticks) |}
       name answer.1 answer.2)
  end.

Definition classify_folder (w : world) (name : str)
    (path : option str) : result str * world :=
  let cached_classification :=
    SmartCache.get_cached_classification w.(cache) name in
  if RealDebridProcessor.opt_truthy cached_classification then
    (Return (default [] cached_classification), w)
  else if Detectors.is_spam_or_ad name then
    (Return (u "SKIP"),
     SmartCache.cache_classification w name (u "SKIP") path)
  else if JavDetector.is_jav_prefix name then
    (Return (u "JAV"),
     SmartCache.cache_classification w name (u "JAV") path)
  else if Detectors.is_tv_show name then
    (Return (u "Shows"),
     SmartCache.cache_classification w name (u "Shows") path)
  else
    let traditional_classification := u "Movie" in
    if SmartCache.should_use_ai w name path then
      let '((ai_classification, confidence), w1) :=
        consult_ai w name traditional_classification in
      match AIClassifier.get_confidence_threshold with
      | Raise e => (Raise e, w1)
      | Return confidence_threshold =>
        if PrimFloat.leb confidence_threshold confidence then
          (Return ai_classification,
           SmartCache.cache_classification w1 name ai_classification path)
        else
          (Return traditional_classification,
           SmartCache.cache_classification w1 name
             traditional_classification path)
      end
    else
      (Return traditional_classification,
       SmartCache.cache_classification w name traditional_classification
                                       path).
End Classify.

End Classifier.

(** ** [processors.py]: [clean_filename], and [posixpath] *)

Module Posixpath.

Definition dirname (p : str) : str :=
  let i := from_option S 0%nat (Py.rfind 47 0 p) in
  let head := take i p in
  if Py.truthy head && negb (forallb (fun c => c =? 47) head)
  then Py.rstrip_char 47 head else head.

Definition join (a b : str) : str :=
  if Py.startswith b (u "/") then b
  else if negb (Py.truthy a) || Py.endswith a (u "/") then a ++ b
  else a ++ u "/" ++ b.

End Posixpath.

Definition clean_filename `{UnicodeData} (filename : str) : str :=
  let clean_name := filename in
  let clean_name := Py.replace_char 58 (u " -") clean_name in
  let clean_name := Py.replace_char 124 (u " -") clean_name in
  let clean_name := Py.replace_char 47 (u " - ") clean_name in
  let clean_name := Py.replace_char 92 (u " - ") clean_name in
  let clean_name := Py.replace_char 60 (u "(") clean_name in
  let clean_name := Py.replace_char 62 (u ")") clean_name in
  let clean_name := Py.replace_char 34 (u "'") clean_name in
  let clean_name := Py.replace_char 63 [] clean_name in
  let clean_name := Py.replace_char 42 [] clean_name in
  Py.strip (Re.sub (u "\s+") (u " ") clean_name false).

(** ** [correction_processor.py] *)

Module CorrectionProcessor.

Inductive message :=
| No_destination_path
| Not_a_movie_or_show (classification : str)
| Saved_for_future_runs
| Metadata_fetch_failed
| Error_renaming_files
| Corrected_and_renamed (new_folder_name : str).

Record report := {
  success : bool;
  msg : message
}.

Section Apply.
Context {UD : UnicodeData} {PF : Platform}.

(** The new name of one [.strm] file *)
Definition strm_name (label : str) (info : tmdb_info)
    (filename : str) : str :=
  if str_eqb label (u "Movie") then
    clean_filename (info.(tm_title) ++ u " (" ++ info.(tm_year)
                    ++ u ").strm")
  else if str_eqb label (u "Shows") then
    let se_part :=
      match Re.search (u "(S\d{2}E\d{2})") filename false with
      | Some m => JavDetector.group (Re.m_groups m) 0
      | None => u "S01E01"
      end in
    clean_filename (info.(tm_title) ++ u " " ++ se_part ++ u ".strm")
  else [].

(** The loop over [os.listdir(new_dest_path)]: the disk it leaves, and
    whether it ran to its end ([false]: a rename raised). *)
Fixpoint rename_strm_files (disk : fs) (label : str) (info : tmdb_info)
    (new_dest_path : str) (filenames : list str) : bool * fs :=
  match filenames with
  | [] => (true, disk)
  | filename :: rest =>
    if Py.endswith filename (u ".strm") then
      match os_rename disk
              (Posixpath.join new_dest_path filename)
              (Posixpath.join new_dest_path
                              (strm_name label info filename)) with
      | Some disk' =>
        rename_strm_files disk' label info new_dest_path rest
      | None => (false, disk)
      end
    else rename_strm_files disk label info new_dest_path rest
  end.

Definition new_folder_name (info : tmdb_info) : str :=
  clean_filename (info.(tm_title) ++ u " (" ++ info.(tm_year)
                  ++ u ") {tmdb-" ++ info.(tm_id) ++ u "}").

Definition new_dest_path (old_dest_path : str) (info : tmdb_info) : str :=
  Posixpath.join (Posixpath.dirname old_dest_path) (new_folder_name info).

(** The [try] block of step 3: the disk it leaves, and whether it ran to
    its end. *)
Definition rename_all (disk : fs) (label : str) (info : tmdb_info)
    (old_dest_path : str) : bool * fs :=
  match os_rename disk old_dest_path (new_dest_path old_dest_path info) with
  | None => (false, disk)
  | Some disk1 =>
    match os_listdir disk1 (new_dest_path old_dest_path info) with
    | None => (false, disk1)
    | Some filenames =>
      rename_strm_files disk1 label info
        (new_dest_path old_dest_path info) filenames
    end
  end.

(** Step 2: the lookup that fits the label *)
Definition lookup_by_id (label tmdb_id : str) : option tmdb_info :=
  if str_eqb label (u "Movie") then search_tmdb_movie_by_id tmdb_id
  else if str_eqb label (u "Shows") then search_tmdb_show_by_id tmdb_id
  else None.

Definition apply_metadata_correction (w : world) (disk : fs)
    (original_folder_name tmdb_id why : str)
  : result report * world * fs :=
  match SmartCache.get_cached_item w.(cache) original_folder_name with
  | None =>
    (Return {| success := false; msg := No_destination_path |}, w, disk)
  | Some cached_info =>
    if negb (RealDebridProcessor.opt_truthy cached_info.(dest_path)) then
      (Return {| success := false; msg := No_destination_path |}, w, disk)
    else
      let old_dest_path := default [] cached_info.(dest_path) in
      let label := cached_info.(classification) in
      if negb (str_eqb label (u "Movie") || str_eqb label (u "Shows")) then
        (Return {| success := false; msg := Not_a_movie_or_show label |},
         w, disk)
      else if negb (os_path_exists disk old_dest_path) then
        (Return {| success := true; msg := Saved_for_future_runs |},
         SmartCache.add_manual_correction w original_folder_name
           label label why (Some tmdb_id),
         disk)
      else
        match lookup_by_id label tmdb_id with
        | None =>
          (Return {| success := false; msg := Metadata_fetch_failed |},
           w, disk)
        | Some info =>
          match rename_all disk label info old_dest_path with
          | (true, disk') =>
            let w1 :=
              SmartCache.add_manual_correction w original_folder_name
                label label why (Some tmdb_id) in
            (Return {| success := true;
                       msg := Corrected_and_renamed (new_folder_name info) |},
             SmartCache.set_cache w1
               (SmartCache.update_dest_path w1.(cache) original_folder_name
                  (new_dest_path old_dest_path info)),
             disk')
          | (false, disk') =>
            (* the handler: roll the folder rename back, report *)
            if os_path_exists disk' (new_dest_path old_dest_path info) then
              match os_rename disk' (new_dest_path old_dest_path info)
                              old_dest_path with
              | Some disk'' =>
                (Return {| success := false; msg := Error_renaming_files |},
                 w, disk'')
              | None => (Raise OSError, w, disk')
              end
            else
              (Return {| success := false; msg := Error_renaming_files |},
               w, disk')
          end
        end
  end.
End Apply.

End CorrectionProcessor.

(** ** [manual_correction_manager.py] and [web_interface.py] *)

Module ManualCorrectionManager.

(** [apply_corrections_to_ai()]: every correction listed as unapplied is
    marked, one after the other.  The same loop is the body of
    [api_apply_corrections] of the web interface, which also counts its
    turns. *)
Definition apply_corrections_to_ai (self : smart_cache) : smart_cache :=
  fold_left (fun self correction =>
               SmartCache.mark_correction_applied self correction.1)
            (SmartCache.get_unapplied_corrections self) self.

End ManualCorrectionManager.

Module WebInterface.

(** The answer of [api_delete_correction] *)
Inductive answer :=
| Folder_name_is_required
| Correction_deleted
| Correction_not_found.

(** [api_delete_correction]; [requested] is the field [folder_name] of
    the JSON object of the request, [None] when the object has no such
    field. *)
Definition api_delete_correction (self : smart_cache)
    (requested : option str) : answer * smart_cache :=
  let folder_name := Py.strip (default [] requested) in
  if negb (Py.truthy folder_name) then (Folder_name_is_required, self)
  else if bool_decide (is_Some (self.(corrections) !! folder_name)) then
    (Correction_deleted,
     {| processed_files := self.(processed_files);
        ai_classifications := self.(ai_classifications);
        file_hashes := self.(file_hashes);
        corrections := delete folder_name self.(corrections);
        learning_patterns := self.(learning_patterns) |})
  else (Correction_not_found, self).

(** [api_apply_corrections]: the store it leaves and the number of
    corrections it reports as applied *)
Definition api_apply_corrections (self : smart_cache)
  : nat * smart_cache :=
  (length (SmartCache.get_unapplied_corrections self),
   ManualCorrectionManager.apply_corrections_to_ai self).

End WebInterface.

(** ** A sample platform

    Concrete tables, services and a small file system, on which the
    definitions above are run. *)

Module Sample.

(** No character beyond Basic Latin has a case or is a letter or digit. *)
#[export] Instance basic_latin : UnicodeData := {|
  uni_tolower c := c;
  uni_toupper c := c;
  uni_lower c := [c];
  uni_upper c := [c];
  uni_isalpha _ := false;
  uni_isdecimal _ := false;
  uni_isdigit _ := false;
  uni_isnumeric _ := false
|}.

(** Directories with the names of their files, and the paths that may not
    be renamed. *)
Record disk := {
  dirs : gmap str (list str);
  locked : list str
}.

Definition basename (p : str) : str :=
  drop (from_option S 0%nat (Py.rfind 47 0 p)) p.

Definition file_exists (d : disk) (p : str) : bool :=
  match d.(dirs) !! Posixpath.dirname p with
  | Some names => bool_decide (basename p ∈ names)
  | None => false
  end.

Definition exists_ (d : disk) (p : str) : bool :=
  bool_decide (is_Some (d.(dirs) !! p)) || file_exists d p.

Definition rename (d : disk) (src dst : str) : option disk :=
  if bool_decide (src ∈ d.(locked)) then None
  else
    match d.(dirs) !! src with
    | Some names =>
      if bool_decide (is_Some (d.(dirs) !! dst)) then None
      else Some {| dirs := <[dst := names]> (delete src d.(dirs));
                   locked := d.(locked) |}
    | None =>
      if file_exists d src
         && str_eqb (Posixpath.dirname src) (Posixpath.dirname dst)
         && negb (bool_decide (is_Some (d.(dirs) !! dst)))
      then Some {| dirs :=
                     alter (fun names =>
                              List.filter
                                (fun n => negb (str_eqb n (basename src))
                                          && negb (str_eqb n (basename dst)))
                                names ++ [basename dst])
                           (Posixpath.dirname src) d.(dirs);
                   locked := d.(locked) |}
      else None
    end.

Definition decimal (n : nat) : str :=
  u (NilEmpty.string_of_uint (Nat.to_uint n)).

(** A platform with the remote model at hand: it takes every name for
    a code of the adult genre, with confidence [c]. *)
Definition platform (c : float) (threshold : option str) : Platform := {|
  clock n := u "2025-01-01 00:00:" ++ decimal n;
  get_file_hash p := u "md5:" ++ p;
  env_confidence_threshold := threshold;
  py_float _ := None;
  learning_data_mtime _ := u "0";
  check_if_jav _ _ :=
    Some {| is_jav := true; jav_confidence := c; jav_reasoning := [] |};
  classify_shows_or_movie _ _ := None;
  search_tmdb_movie_by_id i :=
    Some {| tm_id := i; tm_title := u "Heat"; tm_year := u "1995" |};
  search_tmdb_show_by_id i :=
    Some {| tm_id := i; tm_title := u "Dark"; tm_year := u "2017" |};
  fs := disk;
  os_path_exists := exists_;
  os_rename := rename;
  os_listdir d p := d.(dirs) !! p
|}.

Definition empty_cache : smart_cache := {|
  processed_files := ∅;
  ai_classifications := ∅;
  file_hashes := ∅;
  corrections := ∅;
  learning_patterns := []
|}.

(** A fresh world; [client]: whether the remote model is configured. *)
Definition fresh (client : bool) : world := {|
  cache := empty_cache;
  ai := {| openai_client := client; jav_patterns := [];
           ai_corrections := ∅; confidence_scores := ∅ |};
  ticks := 0
|}.

(** The platform of the runs: the remote model answers with confidence
    0.9, the environment sets no threshold. *)
Definition sure : Platform := platform 0.9%float None.
(** The same with a model of confidence 0.5 *)
Definition unsure : Platform := platform 0.5%float None.

(** A world whose cache holds [label] for [name], written at an earlier
    time, with the destination [dest]. *)
Definition cached (name label : str) (dest : option str) : world := {|
  cache := {| processed_files :=
                {[ name := {| classification := label;
                              timestamp := u "2024-12-31 23:59:59";
                              file_path := None;
                              dest_path := dest |} ]};
              ai_classifications := ∅;
              file_hashes := ∅;
              corrections := ∅;
              learning_patterns := [] |};
  ai := (fresh false).(ai);
  ticks := 0
|}.

(** A library folder with one reference file that may not be renamed
    once the folder has its new name. *)
Definition library : disk := {|
  dirs := {[ u "/media/Movies/Heaat (1990)" := [u "Heaat.strm"; u "notes.txt"] ]};
  locked := [u "/media/Movies/Heat (1995) {tmdb-949}/Heaat.strm"]
|}.

Definition heat : world :=
  cached (u "Heat.1995.1080p") (u "Movie") (Some (u "/media/Movies/Heaat (1990)")).

(** Two link records of one torrent with the same link, and one of an
    unknown torrent *)
Definition one_torrent : list RealDebridProcessor.torrent :=
  [ {| RealDebridProcessor.t_id := Some (u "T1");
       RealDebridProcessor.t_filename := Some (u "Heat.1995.1080p") |} ].
Definition record (link torrent_id filename : string) (size : Z)
  : RealDebridProcessor.link_record :=
  {| RealDebridProcessor.l_id := None;
     RealDebridProcessor.l_link := Some (u link);
     RealDebridProcessor.l_torrent_id := Some (u torrent_id);
     RealDebridProcessor.l_filename := Some (u filename);
     RealDebridProcessor.l_download := Some (u "https://host/d/ID/" ++ u filename);
     RealDebridProcessor.l_filesize := Some size |}.

End Sample.

(** ** Notions the properties are stated with *)

Section Notions.
Context {UD : UnicodeData}.

(** The members of the class [illegal_chars] *)
Definition illegal_items : list Re.item :=
  [Re.IChar 60; Re.IChar 62; Re.IChar 58; Re.IChar 34; Re.IChar 47;
   Re.IChar 92; Re.IChar 124; Re.IChar 63; Re.IChar 42].

(** A string that holds none of the characters of a class *)
Definition free_of (neg : bool) (items : list Re.item) (s : str) : Prop :=
  ∀ t, t ∈ s → Re.class_match false neg items t = false.

(** A correction once marked *)
Definition marked (c : correction) : correction :=
  {| original := c.(original); correct := c.(correct);
     reason := c.(reason); c_timestamp := c.(c_timestamp);
     applied := Some true; correct_tmdb_id := c.(correct_tmdb_id) |}.

(** The character before the text that follows [pre] *)
Definition prev_of (prev : option N) (pre : str) : option N :=
  match last pre with Some c => Some c | None => prev end.

(** The loop of a repetition, by itself: [Re.mt] of [Re.Repeat lo hi a]
    is this loop started with the length of the text as fuel and the
    count 0. *)
Definition loop_of {A : Type} (ignorecase : bool) (lo : nat)
    (hi : option nat) (a : Re.regex)
    (k : option N → str → list (option str) → option A)
  : nat → nat → option N → str → list (option str) → option A :=
  fix loop (fuel : nat) (cnt : nat) (prev : option N) (s : str)
      (caps : list (option str)) {struct fuel} : option A :=
    let stop := if (lo <=? cnt)%nat then k prev s caps else None in
    match fuel with
    | O => stop
    | S fuel' =>
      let more :=
        if from_option (fun h => (cnt <? h)%nat) true hi
        then Re.mt ignorecase a prev s caps (fun prev' s' caps' =>
               if (length s' <? length s)%nat
               then loop fuel' (S cnt) prev' s' caps'
               else None)
        else None in
      match more with
      | Some x => Some x
      | None => stop
      end
    end.

(** The name of the file of a link record, as the grouping loops read it:
    the field [filename], or else what the download link gives *)
Definition record_filename (item : RealDebridProcessor.link_record) : str :=
  if RealDebridProcessor.opt_truthy item.(RealDebridProcessor.l_filename)
  then default [] item.(RealDebridProcessor.l_filename)
  else RealDebridProcessor.extract_filename_from_url
         (default [] item.(RealDebridProcessor.l_download)).

(** A code: a prefix of the list, or FC2-PPV, a dash, and the rest *)
Definition coded (code : str) : Prop :=
  ∃ prefix number,
    code = prefix ++ u "-" ++ number
    ∧ (in_JAV_PREFIXES prefix = true ∨ prefix = u "FC2-PPV").

End Notions.

(** * Properties *)

(** ** The correction store *)

Section CorrectionLifecycle.
Context {UD : UnicodeData} {PF : Platform}.

Lemma unapplied_spec (self : smart_cache) (folder_name : str) (c : correction) :
  (folder_name, c) ∈ SmartCache.get_unapplied_corrections self
  ↔ self.(corrections) !! folder_name = Some c
    ∧ default false c.(applied) = false.
Proof.
  unfold SmartCache.get_unapplied_corrections.
  rewrite list_elem_of_In, filter_In, <- list_elem_of_In,
    elem_of_map_to_list. simpl.
  rewrite negb_true_iff. reflexivity.
Qed.

Lemma add_manual_correction_lookup (w : world) (folder_name o c why : str)
    (tmdb_id : option str) :
  ∃ r, (SmartCache.add_manual_correction w folder_name o c why tmdb_id)
         .(cache).(corrections) !! folder_name = Some r
       ∧ r.(applied) = Some false ∧ r.(original) = o ∧ r.(correct) = c.
Proof.
  unfold SmartCache.add_manual_correction; simpl.
  eexists; rewrite lookup_insert_eq; eauto.
Qed.

Lemma mark_applied_lookup (self : smart_cache) (folder_name : str) (c : correction) :
  (SmartCache.mark_correction_applied self folder_name).(corrections)
    !! folder_name = Some c → c.(applied) = Some true.
Proof.
  unfold SmartCache.mark_correction_applied.
  destruct (corrections self !! folder_name) as [c0|] eqn:E; simpl.
  - rewrite lookup_insert_eq. by intros [= <-].
  - congruence.
Qed.

Lemma mark_applied_idempotent (self : smart_cache) (folder_name : str) :
  SmartCache.mark_correction_applied
    (SmartCache.mark_correction_applied self folder_name) folder_name
  = SmartCache.mark_correction_applied self folder_name.
Proof.
  unfold SmartCache.mark_correction_applied.
  destruct (corrections self !! folder_name) as [c0|] eqn:E; simpl.
  - rewrite lookup_insert_eq; simpl. by rewrite insert_insert_eq.
  - by rewrite E.
Qed.

(** C6.  After [add_manual_correction] (recordCorrection) the correction
    of the name is listed by [get_unapplied_corrections] (listUnapplied)
    with [applied] false; after [mark_correction_applied] (markApplied) no
    correction of the name is listed; and marking a second time returns
    the store unchanged.  The last two hold of every store. *)
Theorem correction_lifecycle (w : world) (folder_name o c why : str)
    (tmdb_id : option str) :
  let w1 := SmartCache.add_manual_correction w folder_name o c why tmdb_id in
  (∃ r, (folder_name, r) ∈ SmartCache.get_unapplied_corrections w1.(cache)
        ∧ r.(applied) = Some false ∧ r.(original) = o ∧ r.(correct) = c)
  ∧ (∀ self r, (folder_name, r) ∉ SmartCache.get_unapplied_corrections
                 (SmartCache.mark_correction_applied self folder_name))
  ∧ (∀ self, SmartCache.mark_correction_applied
               (SmartCache.mark_correction_applied self folder_name)
               folder_name
             = SmartCache.mark_correction_applied self folder_name).
Proof.
  intros w1. split; [|split].
  - destruct (add_manual_correction_lookup w folder_name o c why tmdb_id)
      as (r & Hr & Ha & Ho & Hc).
    exists r. rewrite unapplied_spec. by rewrite Ha.
  - intros self r. rewrite unapplied_spec. intros [Hl Ha].
    apply mark_applied_lookup in Hl. by rewrite Hl in Ha.
  - intros self. apply mark_applied_idempotent.
Qed.
End CorrectionLifecycle.

(** ** The content filter *)

Section ContentFilter.
Context {UD : UnicodeData}.
Import RealDebridProcessor.

Lemma process_iff (this : self) (name : str) (size : Z) (mime_type : str) :
  (should_process_file this name size mime_type).(process) = true
  ↔ name ≠ []
    ∧ (is_video this name mime_type = true
       ∨ is_subtitle this name mime_type = true)
    ∧ ¬ (is_video this name mime_type = true
         ∧ (0 < this.(min_video_size_mb))%Z
         ∧ (size < this.(min_video_size_mb) * 1024 * 1024)%Z).
Proof.
  unfold should_process_file.
  destruct name as [|c name]; simpl; [intuition congruence|].
  destruct (is_video this (c :: name) mime_type),
           (is_subtitle this (c :: name) mime_type); simpl;
    repeat match goal with
           | |- context [(?a <? ?b)%Z] => destruct (Z.ltb_spec a b); simpl
           end;
    intuition (try congruence; try lia).
Qed.

Lemma init_extensions_disjoint (e : str) :
  e ∈ init.(allowed_subtitle_extensions) →
  e ∈ init.(allowed_video_extensions) → False.
Proof.
  unfold init; cbn [allowed_subtitle_extensions allowed_video_extensions].
  rewrite !elem_of_list_to_set, !list_elem_of_In.
  cbn [map In]. intros Hs Hv.
  repeat destruct Hs as [<-|Hs]; try done;
    repeat destruct Hv as [Hv|Hv]; try done; by vm_compute in Hv.
Qed.

Lemma init_subtitle_nonempty (e : str) :
  e ∈ init.(allowed_subtitle_extensions) → e ≠ [].
Proof.
  unfold init; cbn [allowed_subtitle_extensions].
  rewrite elem_of_list_to_set, list_elem_of_In.
  cbn [map In]. intros Hs ->. repeat destruct Hs as [Hs|Hs]; try done;
    by vm_compute in Hs.
Qed.

(** C8, as amended.  [should_process_file] accepts a file only if its
    extension is in the video or the subtitle set or its declared media
    type holds the text video or the text sub; a file taken for a video
    whose size is below [min_video_size_mb] MiB is rejected; the files
    accepted are exactly the named files of such an extension or type that
    this size test does not reject; [__init__] sets the minimum to 300;
    and the set [allowed_mime_types] is not consulted: the verdict is the
    same whatever that set holds. *)
Theorem content_filter_policy (this : self) (name : str) (size : Z)
    (mime_type : str) :
  ((should_process_file this name size mime_type).(process) = true →
     file_ext name ∈ this.(allowed_video_extensions)
     ∨ file_ext name ∈ this.(allowed_subtitle_extensions)
     ∨ (mime_type ≠ [] ∧ Py.contains mime_type (u "video") = true)
     ∨ (mime_type ≠ [] ∧ Py.contains mime_type (u "sub") = true))
  ∧ (is_video this name mime_type = true → (0 ≤ size)%Z →
     (size < this.(min_video_size_mb) * 1024 * 1024)%Z →
     (should_process_file this name size mime_type).(process) = false)
  ∧ ((should_process_file this name size mime_type).(process) = true
     ↔ name ≠ []
       ∧ (is_video this name mime_type = true
          ∨ is_subtitle this name mime_type = true)
       ∧ ¬ (is_video this name mime_type = true
            ∧ (0 < this.(min_video_size_mb))%Z
            ∧ (size < this.(min_video_size_mb) * 1024 * 1024)%Z))
  ∧ init.(min_video_size_mb) = 300%Z
  ∧ (∀ types : gset str,
       should_process_file
         {| min_video_size_mb := this.(min_video_size_mb);
            allowed_video_extensions := this.(allowed_video_extensions);
            allowed_subtitle_extensions := this.(allowed_subtitle_extensions);
            allowed_mime_types := types |}
         name size mime_type
       = should_process_file this name size mime_type).
Proof.
  split; [|split; [|split; [|split]]].
  - rewrite process_iff. intros (_ & [V|S] & _).
    + unfold is_video in V. apply orb_true_iff in V as [V|V].
      * left. by apply bool_decide_eq_true in V.
      * right; right; left. apply andb_true_iff in V as [T V].
        split; [by destruct mime_type|done].
    + unfold is_subtitle in S. apply orb_true_iff in S as [S|S].
      * right; left. by apply bool_decide_eq_true in S.
      * right; right; right. apply andb_true_iff in S as [T S].
        split; [by destruct mime_type|done].
  - intros V Hs Hlt. apply not_true_is_false. rewrite process_iff.
    intros (_ & _ & Hn). apply Hn. repeat split; auto; lia.
  - apply process_iff.
  - reflexivity.
  - reflexivity.
Qed.

(** C10, as amended.  A named file whose extension is in the subtitle
    set and that [is_video] does not take for a video is accepted whatever
    its size; so is, under the extension sets of [__init__] and any
    minimum, every file with a subtitle extension that comes without a
    media type, as in grouping.  A file whose extension is in the video
    set and whose size is 0 is rejected whenever the minimum is positive;
    and a link record of such a file whose size is absent or 0 is dropped
    by both grouping functions, which read an absent size as 0: the
    groups are the ones of the records without it. *)
Theorem subtitle_and_empty_video (this : self) (name : str) (size : Z)
    (mime_type : str) (minimum : Z) :
  (name ≠ [] →
   file_ext name ∈ this.(allowed_subtitle_extensions) →
   is_video this name mime_type = false →
   (should_process_file this name size mime_type).(process) = true)
  ∧ (file_ext name ∈ init.(allowed_subtitle_extensions) →
     (should_process_file
        {| min_video_size_mb := minimum;
           allowed_video_extensions := init.(allowed_video_extensions);
           allowed_subtitle_extensions := init.(allowed_subtitle_extensions);
           allowed_mime_types := init.(allowed_mime_types) |}
        name size []).(process) = true)
  ∧ (file_ext name ∈ this.(allowed_video_extensions) →
     (0 < this.(min_video_size_mb))%Z →
     (should_process_file this name 0 mime_type).(process) = false)
  ∧ (∀ (torrents : list torrent) (before after : list link_record)
       (item : link_record) (skip_existing : bool)
       (existing_urls : gset str),
       item.(l_filesize) = None ∨ item.(l_filesize) = Some 0%Z →
       file_ext (record_filename item) ∈ this.(allowed_video_extensions) →
       (0 < this.(min_video_size_mb))%Z →
       _create_torrent_groups this torrents (before ++ item :: after)
       = _create_torrent_groups this torrents (before ++ after)
       ∧ _create_torrent_groups_with_skip this torrents
           (before ++ item :: after) skip_existing existing_urls
         = _create_torrent_groups_with_skip this torrents
             (before ++ after) skip_existing existing_urls).
Proof.
  assert (Hzero : ∀ n mt, file_ext n ∈ this.(allowed_video_extensions) →
            (0 < this.(min_video_size_mb))%Z →
            (should_process_file this n 0 mt).(process) = false).
  { intros n mt V M. apply not_true_is_false. rewrite process_iff.
    intros (_ & _ & Hn). apply Hn. split; [|lia].
    unfold is_video. apply orb_true_iff. left.
    by apply bool_decide_eq_true. }
  split; [|split; [|split; [by apply Hzero|]]].
  3:{ intros torrents before after item skip_existing existing_urls Hsize V M.
      assert (Hadd : ∀ torrent_map st torrent_id,
                add_file this torrent_map st item torrent_id = st).
      { intros torrent_map [torrent_groups processed_links] torrent_id.
        unfold add_file. destruct (l_link item) as [link|]; [|done].
        destruct (_ && _); [|done].
        fold (record_filename item).
        replace (default 0%Z (l_filesize item)) with 0%Z
          by (by destruct Hsize as [-> | ->]).
        by rewrite (Hzero _ [] V M). }
      unfold _create_torrent_groups, _create_torrent_groups_with_skip.
      rewrite !fold_left_app. cbn [fold_left].
      split; f_equal; f_equal.
      - unfold step. destruct (known_torrent _ item); [apply Hadd|done].
      - unfold step_with_skip. destruct (known_torrent _ item); [|done].
        destruct (_ && _); [done|apply Hadd]. }
  - intros Hn S V. rewrite process_iff. split; [done|split].
    + right. unfold is_subtitle. apply orb_true_iff. left.
      by apply bool_decide_eq_true.
    + intros (V' & _). congruence.
  - intros S. rewrite process_iff. split; [|split].
    + intros ->. by apply init_subtitle_nonempty in S.
    + right. unfold is_subtitle; simpl. apply orb_true_iff. left.
      by apply bool_decide_eq_true.
    + unfold is_video; simpl. rewrite orb_false_r.
      intros (V & _). apply bool_decide_eq_true in V.
      eapply init_extensions_disjoint; eauto.
Qed.
End ContentFilter.

(** ** [sanitize_filename] *)

Section SanitizeFilename.
Context {UD : UnicodeData}.
Import RealDebridProcessor.

Lemma lstrip_length (s : str) : (length (Py.lstrip s) ≤ length s)%nat.
Proof.
  induction s as [|c s IH]; simpl; [lia|].
  destruct (Py.isspace c); simpl; lia.
Qed.

Lemma strip_length (s : str) : (length (Py.strip s) ≤ length s)%nat.
Proof.
  unfold Py.strip, Py.rstrip. rewrite length_rev.
  etransitivity; [apply lstrip_length|]. rewrite length_rev.
  apply lstrip_length.
Qed.

Lemma truthy_length (s : str) : Py.truthy s = true ↔ (0 < length s)%nat.
Proof. destruct s; simpl; split; (lia || congruence). Qed.

Lemma truncate_words_length (words : list str) (truncated : str) :
  (length truncated ≤ 95)%nat →
  (length (truncate_words truncated words) ≤ 95)%nat.
Proof.
  revert truncated. induction words as [|word words IH]; intros t Ht;
    cbn [truncate_words]; [done|].
  destruct (Nat.leb_spec (length (t ++ u " " ++ word)) 95) as [Hle|_];
    [|done].
  apply IH. destruct (Py.truthy t); [done|].
  rewrite !length_app in Hle. lia.
Qed.

Lemma truncate_stage_length (s : str) :
  (length (truncate_stage s) ≤ 100)%nat.
Proof.
  unfold truncate_stage.
  destruct (Nat.ltb_spec 100 (length s)) as [_|Hle]; [|done].
  destruct (Py.truthy _).
  - etransitivity; [apply truncate_words_length; simpl; lia|lia].
  - unfold Py.slice_to. rewrite length_take. lia.
Qed.

Lemma fallback_length (name : str) : (length (fallback name) ≤ 50)%nat.
Proof. unfold fallback, Py.slice_to. rewrite length_take. lia. Qed.

(** C9, as amended.  [sanitize_filename] never returns the empty string
    and never more than 100 characters; a result shorter than 3
    characters is the stripped excerpt of the original name (its first 50
    characters once all but word characters, white space and dashes are
    removed), taken when the cleaned name is empty or shorter than 3. *)
Theorem sanitize_filename_bounds (name : str) :
  sanitize_filename name ≠ []
  ∧ (length (sanitize_filename name) ≤ 100)%nat
  ∧ ((length (sanitize_filename name) < 3)%nat →
     sanitize_filename name = Py.strip (fallback name)
     ∧ (length (Py.strip (truncate_stage (clean_stage name))) < 3)%nat).
Proof.
  unfold sanitize_filename.
  destruct (Py.truthy name) eqn:Hn; cbn [negb].
  2: { split; [done|]. split; [vm_compute; lia|].
       intros H. exfalso. revert H. vm_compute. lia. }
  set (c := Py.strip (truncate_stage (clean_stage name))).
  assert (Hclen : (length c ≤ 100)%nat).
  { subst c. etransitivity; [apply strip_length|].
    apply truncate_stage_length. }
  clearbody c.
  destruct (negb (Py.truthy c) || (length c <? 3)%nat) eqn:Hc.
  - assert (Hshort : (length c < 3)%nat).
    { apply orb_true_iff in Hc as [Hc|Hc].
      - apply negb_true_iff in Hc. destruct c; [cbn; lia|discriminate].
      - by apply Nat.ltb_lt in Hc. }
    pose proof (strip_length (fallback name)) as Hs.
    pose proof (fallback_length name) as Hf.
    generalize dependent (Py.strip (fallback name)). intros f Hs.
    destruct (Py.truthy f) eqn:Ht.
    + apply truthy_length in Ht.
      split; [intros ->; cbn in Ht; lia|]. split; [lia|done].
    + split; [done|]. split; [vm_compute; lia|].
      intros H. exfalso. revert H. vm_compute. lia.
  - apply orb_false_iff in Hc as [Ht Hl].
    apply negb_false_iff in Ht. apply Nat.ltb_ge in Hl.
    split; [intros ->; discriminate|]. split; lia.
Qed.
End SanitizeFilename.

(** ** Grouping *)

Section GroupingProperties.
Context {UD : UnicodeData}.
Import RealDebridProcessor.
Variable this : self.

Lemma flat_map_length_perm {A B} (f : A → list B) (l l' : list A) :
  l ≡ₚ l' → length (flat_map f l) = length (flat_map f l').
Proof. induction 1; simpl; rewrite ?length_app; lia. Qed.

Lemma n_files_insert (m : gmap str group) (k : str) (g : group) :
  m !! k = None → n_files (<[k := g]> m) = (length g.(files) + n_files m)%nat.
Proof.
  intros H. unfold n_files, all_files.
  rewrite (flat_map_length_perm _ _ _ (map_to_list_insert m k g H)).
  simpl. by rewrite length_app.
Qed.

Lemma n_files_alter (m : gmap str group) (k : str) (g : group) f :
  m !! k = Some g →
  (n_files (alter f k m) + length g.(files)
   = n_files m + length ((f g).(files)))%nat.
Proof.
  intros H.
  rewrite <- (insert_delete_id m k g H) at 1.
  rewrite alter_insert_eq.
  rewrite n_files_insert by apply lookup_delete_eq.
  unfold n_files at 2, all_files.
  rewrite <- (flat_map_length_perm _ _ _ (map_to_list_delete m k g H)).
  simpl. rewrite length_app. fold (all_files (delete k m)).
  unfold n_files. lia.
Qed.

Lemma append_file_length (e : file_entry) (g : group) :
  length (append_file e g).(files) = S (length g.(files)).
Proof. simpl. rewrite length_app. simpl. lia. Qed.

Lemma add_file_cases (torrent_map : gmap str torrent) (st : loop_state)
    (item : link_record) (torrent_id : str) :
  add_file this torrent_map st item torrent_id = st
  ∨ adds_one st (add_file this torrent_map st item torrent_id) item.
Proof.
  unfold add_file, adds_one. destruct st as [groups links].
  destruct (l_link item) as [link|]; [|by left].
  destruct (Py.truthy link && negb (bool_decide (link ∈ links))) eqn:E;
    [|by left].
  apply andb_true_iff in E as [_ E]. apply negb_true_iff in E.
  apply bool_decide_eq_false in E.
  destruct (negb (process _)); [by left|].
  right. exists link. cbn [fst snd]. repeat split; [done|].
  match goal with |- context [alter ?f ?k ?m] =>
    set (fn := f); set (key := k) end.
  destruct (groups !! key) as [g|] eqn:G.
  - pose proof (n_files_alter groups key g fn G) as H.
    subst fn. rewrite append_file_length in H. lia.
  - match goal with |- context [<[key := ?g0]> groups] => set (g1 := g0) end.
    pose proof (n_files_alter (<[key := g1]> groups) key g1 fn
                  (lookup_insert_eq _ _ _)) as H.
    subst fn. rewrite append_file_length, n_files_insert in H by done.
    simpl in H. lia.
Qed.

Section Loop.
Variables (torrents : list torrent) (skip_existing : bool)
          (existing_urls : gset str).

Let step' := step_with_skip this (index_torrents torrents)
                            skip_existing existing_urls.

Lemma step_cases (st : loop_state) (item : link_record) :
  step' st item = st ∨ adds_one st (step' st item) item.
Proof.
  unfold step', step_with_skip.
  destruct (known_torrent _ item); [|by left].
  destruct (_ && _); [by left|]. apply add_file_cases.
Qed.

Lemma step_consumed (st : loop_state) (item : link_record) (link : str) :
  item.(l_link) = Some link → link ∈ st.2 → step' st item = st.
Proof.
  intros Hl Hin. destruct (step_cases st item) as [H|(l & Hl' & Hn & _)];
    [done|]. congruence.
Qed.

Lemma step_links (st : loop_state) (item : link_record) :
  st.2 ⊆ (step' st item).2.
Proof.
  destruct (step_cases st item) as [->|(l & _ & _ & -> & _)]; [done|].
  intros x Hx. by apply elem_of_union_r.
Qed.

Lemma step_files (st : loop_state) (item : link_record) :
  (n_files st.1 ≤ n_files (step' st item).1 ≤ S (n_files st.1))%nat.
Proof.
  destruct (step_cases st item) as [->|(l & _ & _ & _ & ->)]; lia.
Qed.

Lemma run_links (items : list link_record) (st : loop_state) :
  st.2 ⊆ (fold_left step' items st).2.
Proof.
  revert st. induction items as [|it items IH]; intros st; simpl; [done|].
  etransitivity; [apply step_links|apply IH].
Qed.

Lemma step_unknown (st : loop_state) (item : link_record) :
  known_torrent (index_torrents torrents) item = None →
  step' st item = st.
Proof. unfold step', step_with_skip. by intros ->. Qed.
End Loop.

Lemma index_torrents_lookup (torrents : list torrent) (i : str) (t : torrent) :
  index_torrents torrents !! i = Some t → t ∈ torrents ∧ t.(t_id) = Some i.
Proof.
  unfold index_torrents.
  assert (∀ (m : gmap str torrent),
           (∀ i t, m !! i = Some t → t ∈ torrents ∧ t_id t = Some i) →
           ∀ ts, ts ⊆ torrents →
           fold_left (fun torrent_map t =>
             match t.(t_id) with
             | Some i => if Py.truthy i then <[i := t]> torrent_map
                         else torrent_map
             | None => torrent_map
             end) ts m !! i = Some t →
           t ∈ torrents ∧ t_id t = Some i) as H.
  { intros m Hm ts. revert m Hm. induction ts as [|t0 ts IH];
      intros m Hm Hsub; simpl; [apply Hm|].
    apply IH; [|by intros x Hx; apply Hsub; right].
    intros j t'. destruct (t_id t0) as [i0|] eqn:E; [|apply Hm].
    destruct (Py.truthy i0); [|apply Hm].
    destruct (decide (i0 = j)) as [->|Hne].
    - rewrite lookup_insert_eq. intros [= <-].
      split; [by apply Hsub; left|done].
    - rewrite lookup_insert_ne by done. apply Hm. }
  apply (H ∅); [by intros ?? ?%lookup_empty_Some|done].
Qed.

Lemma unknown_torrent (torrents : list torrent) (item : link_record) :
  item.(l_torrent_id) = None
  ∨ (∃ i, item.(l_torrent_id) = Some i
          ∧ ∀ t, t ∈ torrents → t.(t_id) ≠ Some i) →
  known_torrent (index_torrents torrents) item = None.
Proof.
  unfold known_torrent. intros [->|(i & -> & Hi)]; [done|].
  destruct (index_torrents torrents !! i) as [t|] eqn:E.
  - apply index_torrents_lookup in E as [Hin Hid]. by apply Hi in Hin.
  - rewrite bool_decide_eq_false_2 by (by intros [? ?]).
    by destruct (Py.truthy i).
Qed.

Lemma without_skip (torrents : list torrent) (items : list link_record) :
  _create_torrent_groups this torrents items
  = _create_torrent_groups_with_skip this torrents items false ∅.
Proof.
  reflexivity.
Qed.


(** C7.  In [_create_torrent_groups_with_skip], whatever is skipped, and
    so in [_create_torrent_groups]: a record adds at most one file entry;
    of two records with the same link at most one adds an entry; and a
    record whose torrent id is missing or is the id of no torrent changes
    nothing, wherever it stands. *)
Theorem grouping_dedup (torrents : list torrent) (skip_existing : bool)
    (existing_urls : gset str) :
  (∀ before item,
     (contributes this torrents skip_existing existing_urls before item ≤ 1)%nat)
  ∧ (∀ before a between b,
       a.(l_link) = b.(l_link) →
       (contributes this torrents skip_existing existing_urls before a
        + contributes this torrents skip_existing existing_urls
            (before ++ a :: between) b ≤ 1)%nat)
  ∧ (∀ before item after,
       item.(l_torrent_id) = None
       ∨ (∃ i, item.(l_torrent_id) = Some i
               ∧ ∀ t, t ∈ torrents → t.(t_id) ≠ Some i) →
       _create_torrent_groups_with_skip this torrents
         (before ++ item :: after) skip_existing existing_urls
       = _create_torrent_groups_with_skip this torrents (before ++ after)
           skip_existing existing_urls)
  ∧ (∀ items, _create_torrent_groups this torrents items
              = _create_torrent_groups_with_skip this torrents items
                  false ∅).
Proof.
  set (f := step_with_skip this (index_torrents torrents) skip_existing
                           existing_urls).
  assert (Hc : ∀ before item,
             contributes this torrents skip_existing existing_urls before item
             = (n_files (f (fold_left f before (∅, ∅)) item).1
                - n_files (fold_left f before (∅, ∅)).1)%nat).
  { intros. unfold contributes, _create_torrent_groups_with_skip.
    by rewrite fold_left_app. }
  split; [|split; [|split]].
  - intros before item. rewrite Hc.
    pose proof (step_files torrents skip_existing existing_urls
                  (fold_left f before (∅, ∅)) item). fold f in H. lia.
  - intros before a between b Hl. rewrite !Hc.
    replace (before ++ a :: between) with ((before ++ [a]) ++ between)
      by (by rewrite <- app_assoc).
    rewrite !fold_left_app. simpl.
    set (s0 := fold_left f before (∅, ∅)).
    pose proof (step_files torrents skip_existing existing_urls s0 a) as Ha.
    fold f in Ha.
    set (s2 := fold_left f between (f s0 a)).
    pose proof (step_files torrents skip_existing existing_urls s2 b) as Hb.
    fold f in Hb.
    destruct (step_cases torrents skip_existing existing_urls s0 a)
      as [E|(l & Hla & _ & Hin & _)]; fold f in E || fold f in Hin.
    + rewrite E in *. lia.
    + assert (Hb' : f s2 b = s2).
      { apply (step_consumed torrents skip_existing existing_urls s2 b l);
          [congruence|].
        apply (run_links torrents skip_existing existing_urls between
                 (f s0 a)). rewrite Hin.
        apply elem_of_union_l. by apply elem_of_singleton. }
      rewrite Hb'. lia.
  - intros before item after Hu.
    unfold _create_torrent_groups_with_skip.
    rewrite !fold_left_app. simpl. fold f.
    unfold f at 2. rewrite step_unknown; [done|by apply unknown_torrent].
  - intros items. apply without_skip.
Qed.

End GroupingProperties.

(** ** The classification pipeline *)

Section Pipeline.
Context {UD : UnicodeData} {PF : Platform}.
Import Classifier.

Lemma cache_classification_files (w : world) (name label : str)
    (path : option str) :
  (SmartCache.cache_classification w name label path).(cache).(processed_files)
  = <[name := SmartCache.entry_at w.(ticks) label path]> w.(cache).(processed_files).
Proof.
  unfold SmartCache.cache_classification, SmartCache.entry_at; cbn.
  destruct path as [p|]; [destruct (Py.truthy p)|]; reflexivity.
Qed.

Lemma cache_classification_cached (w : world) (name label : str)
    (path : option str) :
  SmartCache.get_cached_classification
    (SmartCache.cache_classification w name label path).(cache) name
  = Some label.
Proof.
  unfold SmartCache.get_cached_classification, SmartCache.get_cached_item.
  rewrite cache_classification_files, lookup_insert_eq. reflexivity.
Qed.

Lemma consult_ai_files (w : world) (name traditional : str) :
  (consult_ai w name traditional).2.(cache).(processed_files)
  = w.(cache).(processed_files).
Proof.
  unfold consult_ai.
  destruct (SmartCache.get_cached_ai_classification _ _); [done|].
  destruct (AIClassifier.classify_with_ai _ _ _) as [answer ai'].
  reflexivity.
Qed.

(** A hit of the cache: the stored label, when it is not empty *)
Lemma classify_hit (w : world) (name : str) (path : option str) (label : str) :
  SmartCache.get_cached_classification w.(cache) name = Some label →
  label ≠ [] →
  classify_folder w name path = (Return label, w).
Proof.
  intros H Hne. unfold classify_folder. rewrite H.
  destruct label; [done|reflexivity].
Qed.

Lemma classify_miss (w : world) (name : str) (path : option str) :
  RealDebridProcessor.opt_truthy
    (SmartCache.get_cached_classification w.(cache) name) = false →
  classify_folder w name path
  = if Detectors.is_spam_or_ad name then
      (Return (u "SKIP"),
       SmartCache.cache_classification w name (u "SKIP") path)
    else if JavDetector.is_jav_prefix name then
      (Return (u "JAV"),
       SmartCache.cache_classification w name (u "JAV") path)
    else if Detectors.is_tv_show name then
      (Return (u "Shows"),
       SmartCache.cache_classification w name (u "Shows") path)
    else if SmartCache.should_use_ai w name path then
      let '((ai_classification, confidence), w1) :=
        consult_ai w name (u "Movie") in
      match AIClassifier.get_confidence_threshold with
      | Raise e => (Raise e, w1)
      | Return confidence_threshold =>
        if PrimFloat.leb confidence_threshold confidence then
          (Return ai_classification,
           SmartCache.cache_classification w1 name ai_classification path)
        else
          (Return (u "Movie"),
           SmartCache.cache_classification w1 name (u "Movie") path)
      end
    else
      (Return (u "Movie"),
       SmartCache.cache_classification w name (u "Movie") path).
Proof. intros H. unfold classify_folder. rewrite H. reflexivity. Qed.

(** C1, as amended.  [classify_folder] tries, in this order, the cache, the
    spam filter, the code detector, the episode detector and the default
    Movie, and the first that matches decides the label (the default Movie
    when [should_use_ai] declines the name).  A cached label that is not
    empty is returned as it is and the world is left untouched: no
    detector is consulted and nothing is written.  Every other call that
    returns leaves the cache with one entry written, the one of the name,
    holding the label returned. *)
Theorem classify_pipeline (w : world) (name : str) (path : option str) :
  (∀ label,
     SmartCache.get_cached_classification w.(cache) name = Some label →
     label ≠ [] →
     classify_folder w name path = (Return label, w))
  ∧ (RealDebridProcessor.opt_truthy
       (SmartCache.get_cached_classification w.(cache) name) = false →
     (Detectors.is_spam_or_ad name = true →
      classify_folder w name path
      = (Return (u "SKIP"),
         SmartCache.cache_classification w name (u "SKIP") path))
     ∧ (Detectors.is_spam_or_ad name = false →
        JavDetector.is_jav_prefix name = true →
        classify_folder w name path
        = (Return (u "JAV"),
           SmartCache.cache_classification w name (u "JAV") path))
     ∧ (Detectors.is_spam_or_ad name = false →
        JavDetector.is_jav_prefix name = false →
        Detectors.is_tv_show name = true →
        classify_folder w name path
        = (Return (u "Shows"),
           SmartCache.cache_classification w name (u "Shows") path))
     ∧ (Detectors.is_spam_or_ad name = false →
        JavDetector.is_jav_prefix name = false →
        Detectors.is_tv_show name = false →
        SmartCache.should_use_ai w name path = false →
        classify_folder w name path
        = (Return (u "Movie"),
           SmartCache.cache_classification w name (u "Movie") path))
     ∧ (∀ label w',
          classify_folder w name path = (Return label, w') →
          ∃ n, w'.(cache).(processed_files)
               = <[name := SmartCache.entry_at n label path]>
                   w.(cache).(processed_files))).
Proof.
  split; [intros label; apply classify_hit|].
  intros Hmiss. rewrite (classify_miss _ _ _ Hmiss).
  repeat split.
  - by intros ->.
  - by intros -> ->.
  - by intros -> -> ->.
  - by intros -> -> -> ->.
  - intros label w'.
    destruct (Detectors.is_spam_or_ad name);
      [|destruct (JavDetector.is_jav_prefix name);
        [|destruct (Detectors.is_tv_show name);
          [|destruct (SmartCache.should_use_ai w name path)]]];
      try (intros [= <- <-]; eexists; apply cache_classification_files).
    pose proof (consult_ai_files w name (u "Movie")) as Hf.
    destruct (consult_ai w name (u "Movie")) as [[ai_label confidence] w1].
    simpl in Hf.
    destruct AIClassifier.get_confidence_threshold as [thr|e]; [|done].
    destruct (PrimFloat.leb thr confidence); intros [= <- <-];
      eexists; rewrite cache_classification_files, Hf; reflexivity.
Qed.


Lemma pattern_hit_prefix (name pattern : str) :
  JavDetector.pattern_hit name pattern = true →
  ∃ m prefix,
    Re.search pattern name true = Some m
    ∧ JavDetector.detected_prefix pattern m.(Re.m_groups) = Some prefix
    ∧ (in_JAV_PREFIXES (Py.upper prefix) = true
       ∨ Py.contains (Py.upper prefix) (u "FC2") = true).
Proof.
  unfold JavDetector.pattern_hit.
  destruct (Re.search pattern name true) as [m|]; [|done].
  destruct (JavDetector.detected_prefix pattern _) as [prefix|] eqn:E;
    [|done].
  exists m, prefix. split; [done|]. split; [done|].
  destruct (2 <=? length (Re.m_groups m))%nat;
    [by apply orb_true_iff|by right].
Qed.

End Pipeline.

(** ** Metadata corrections *)

Section MetadataCorrection.
Context {UD : UnicodeData} {PF : Platform}.
Import CorrectionProcessor.

(** C5, as amended.  When a rename of step 3 raises, the handler renames
    the folder back if the new path exists, and the call returns an error
    (or raises, when the rename back raises too); in every such case the
    world of caches and corrections is left as it was: no correction
    record is saved.  A record is saved, unapplied, when the destination
    folder no longer exists and when all renames succeed. *)
Theorem rename_failure_rolls_back (w : world) (disk : fs)
    (name tmdb_id why : str) (cached_info : cache_entry)
    (old_dest_path : str) (info : tmdb_info) :
  SmartCache.get_cached_item w.(cache) name = Some cached_info →
  cached_info.(dest_path) = Some old_dest_path →
  old_dest_path ≠ [] →
  cached_info.(classification) = u "Movie"
  ∨ cached_info.(classification) = u "Shows" →
  (os_path_exists disk old_dest_path = true →
   lookup_by_id cached_info.(classification) tmdb_id = Some info →
   ∀ disk',
     rename_all disk cached_info.(classification) info old_dest_path
     = (false, disk') →
     apply_metadata_correction w disk name tmdb_id why
     = if os_path_exists disk' (new_dest_path old_dest_path info) then
         match os_rename disk' (new_dest_path old_dest_path info)
                         old_dest_path with
         | Some disk'' =>
           (Return {| success := false; msg := Error_renaming_files |},
            w, disk'')
         | None => (Raise OSError, w, disk')
         end
       else (Return {| success := false; msg := Error_renaming_files |},
             w, disk'))
  ∧ (os_path_exists disk old_dest_path = true →
     lookup_by_id cached_info.(classification) tmdb_id = Some info →
     ∀ disk',
       rename_all disk cached_info.(classification) info old_dest_path
       = (true, disk') →
       ∃ w' r,
         apply_metadata_correction w disk name tmdb_id why
         = (Return {| success := true;
                      msg := Corrected_and_renamed (new_folder_name info) |},
            w', disk')
         ∧ (name, r) ∈ SmartCache.get_unapplied_corrections w'.(cache))
  ∧ (os_path_exists disk old_dest_path = false →
     ∃ w' r,
       apply_metadata_correction w disk name tmdb_id why
       = (Return {| success := true; msg := Saved_for_future_runs |},
          w', disk)
       ∧ (name, r) ∈ SmartCache.get_unapplied_corrections w'.(cache)).
Proof.
  intros Hc Hd Hne Hl.
  assert (Hlabel : negb (str_eqb cached_info.(classification) (u "Movie")
                         || str_eqb cached_info.(classification) (u "Shows"))
                   = false).
  { destruct Hl as [-> | ->]; reflexivity. }
  assert (Htruthy : RealDebridProcessor.opt_truthy cached_info.(dest_path)
                    = true).
  { rewrite Hd. by destruct old_dest_path. }
  unfold apply_metadata_correction. rewrite Hc, Htruthy, Hlabel, Hd.
  cbn [negb from_option id].
  split; [|split].
  - intros -> Hi disk' Hr. cbn [negb]. rewrite Hi, Hr. reflexivity.
  - intros -> Hi disk' Hr. cbn [negb]. rewrite Hi, Hr.
    destruct (add_manual_correction_lookup w name
                cached_info.(classification) cached_info.(classification)
                why (Some tmdb_id)) as (r & Hr' & Ha & _).
    eexists _, r. split; [reflexivity|].
    apply unapplied_spec. split; [exact Hr'|by rewrite Ha].
  - intros ->. cbn [negb].
    destruct (add_manual_correction_lookup w name
                cached_info.(classification) cached_info.(classification)
                why (Some tmdb_id)) as (r & Hr' & Ha & _).
    eexists _, r. split; [reflexivity|].
    apply unapplied_spec. split; [exact Hr'|by rewrite Ha].
Qed.
End MetadataCorrection.

(** ** The properties at concrete inputs *)

Section Runs.
Import Sample.
Open Scope string_scope.
#[local] Existing Instance basic_latin.

(** C1 fails as stated.  With a label cached for the name, the call
    returns it and writes nothing: the world is the one before the call,
    the entry the one of the earlier time.  And a cached entry whose label
    is empty is not returned: the detectors run again. *)
Lemma cache_hit_writes_nothing :
  Classifier.classify_folder (PF := sure)
    (cached (u "Heat.1995") (u "Shows") None) (u "Heat.1995") None
  = (Return (u "Shows"), cached (u "Heat.1995") (u "Shows") None)
  ∧ (cached (u "Heat.1995") (u "Shows") None).(cache).(processed_files)
      !! u "Heat.1995"
    ≠ Some (SmartCache.entry_at (PF := sure) 0 (u "Shows") None)
  ∧ SmartCache.get_cached_classification
      (cached (u "Heat.1995") [] None).(cache) (u "Heat.1995") = Some []
  ∧ (Classifier.classify_folder (PF := sure)
       (cached (u "Heat.1995") [] None) (u "Heat.1995") None).1
    = Return (u "Movie").
Proof. repeat split; by vm_compute. Qed.

(** Every pattern of the program compiles. *)
Example patterns_compile :
  forallb (fun pattern => bool_decide (is_Some (Re.compile pattern)))
    (JavDetector.patterns ++ Detectors.spam_patterns
     ++ AIClassifier.suspicious_patterns
     ++ map Re.escape Detectors.tv_show_names
     ++ [RealDebridProcessor.illegal_chars; RealDebridProcessor.control_chars]
     ++ map u [ "fc2[-_]?ppv"; "S\d+E\d+"; "\b\d{1,2}x\d{1,2}\b";
                "\s+\d{3}\b"; "\s+\d{2}\b"; "\.S\d{1,2}\.";
                "S\d{1,2}\."; "\.S\d{1,2}[^a-zA-Z]"; "S\d{1,2}[^a-zA-Z]";
                "Season\s+\d+"; "Complete.*Season"; "S\d{1,2}.*Complete";
                "\.+$"; "\.[^.]+$"; "^(hhd\d+\.com@|hdd\d+\.com@)";
                "(\.mp4|\.mkv|\.avi)$"; "%[0-9A-Fa-f]{2}"; "[._-]+"; "\s+";
                "[^\w\s-]"; "(S\d{2}E\d{2})";
                "([A-Z0-9]{2,6})[-_](\d{3,7})";
                "fc2[-_]?ppv[-_]?(\d{4,7})" ])
  = true.
Proof. by vm_compute. Qed.

(** The pipeline on the names the design gives as examples *)
Example classify_examples :
  map (fun name => (Classifier.classify_folder (PF := sure) (fresh false)
                      (u name) None).1)
      [ "SONE-564"; "169bbs.com@SONE-564_[4K]"; "fc2-ppv-4652840-HD";
        "[TorrentCouch.com].Black.Mirror.S04.Complete.1080p.HD.x264.[4.6GB]";
        "Interstellar.2014.2160p.PROPER.IMAX.REMUX";
        "18禁 新作 手游"; "Show.5x09" ]
  = map (fun label => Return (u label))
      [ "JAV"; "JAV"; "JAV"; "Shows"; "Movie"; "SKIP"; "Shows" ].
Proof. by vm_compute. Qed.


(** C3 fails as stated: a name with the marker S01E01 that the code
    detector matches first is classified JAV. *)
Lemma code_precedes_episode :
  Detectors.episode_marker (u "SONE-564.S01E01") = true
  ∧ (Classifier.classify_folder (PF := sure) (fresh false)
       (u "SONE-564.S01E01") None).1 = Return (u "JAV").
Proof. split; by vm_compute. Qed.



(** Below the threshold the traditional label stays. *)
Example low_confidence_keeps_movie :
  (Classifier.classify_folder (PF := unsure) (fresh true) (u "XYZW-123")
                              None).1 = Return (u "Movie")
  ∧ SmartCache.get_cached_classification
      (Classifier.classify_folder (PF := unsure) (fresh true) (u "XYZW-123")
                                  None).2.(cache) (u "XYZW-123")
    = Some (u "Movie").
Proof. split; by vm_compute. Qed.

(** C5 fails as stated: a reference file cannot be renamed; the folder
    gets its old name back and an error is returned, but no correction
    record is saved: the world is the one before the call, its store of
    corrections empty. *)
Lemma failed_rename_saves_nothing :
  CorrectionProcessor.apply_metadata_correction (PF := sure) heat library
    (u "Heat.1995.1080p") (u "949") (u "wrong film")
  = (Return {| CorrectionProcessor.success := false;
               CorrectionProcessor.msg :=
                 CorrectionProcessor.Error_renaming_files |},
     heat, library)
  ∧ heat.(cache).(corrections) !! u "Heat.1995.1080p" = None
  ∧ SmartCache.get_unapplied_corrections heat.(cache) = [].
Proof. repeat split; by vm_compute. Qed.

(** The failed rename of the sample library, step by step *)
Lemma rename_failure_rolls_back_witness :
  (SmartCache.get_cached_item heat.(cache) (u "Heat.1995.1080p")
   = Some {| classification := u "Movie";
             timestamp := u "2024-12-31 23:59:59";
             file_path := None;
             dest_path := Some (u "/media/Movies/Heaat (1990)") |}
   ∧ u "/media/Movies/Heaat (1990)" ≠ []
   ∧ CorrectionProcessor.rename_all (PF := sure) library (u "Movie")
       {| tm_id := u "949"; tm_title := u "Heat"; tm_year := u "1995" |}
       (u "/media/Movies/Heaat (1990)")
     = (false,
        {| dirs := {[ u "/media/Movies/Heat (1995) {tmdb-949}" :=
                        [u "Heaat.strm"; u "notes.txt"] ]};
           locked := library.(locked) |}))
  ∧ CorrectionProcessor.apply_metadata_correction (PF := sure) heat library
      (u "Heat.1995.1080p") (u "949") (u "wrong film")
    = (Return {| CorrectionProcessor.success := false;
                 CorrectionProcessor.msg :=
                   CorrectionProcessor.Error_renaming_files |},
       heat, library).
Proof.
  assert (Hr : CorrectionProcessor.rename_all (PF := sure) library (u "Movie")
                 {| tm_id := u "949"; tm_title := u "Heat";
                    tm_year := u "1995" |}
                 (u "/media/Movies/Heaat (1990)")
               = (false,
                  {| dirs := {[ u "/media/Movies/Heat (1995) {tmdb-949}" :=
                                  [u "Heaat.strm"; u "notes.txt"] ]};
                     locked := library.(locked) |}))
    by (vm_compute; reflexivity).
  split; [split; [by vm_compute|split; [by vm_compute|exact Hr]]|].
  rewrite (proj1 (rename_failure_rolls_back (PF := sure) heat library
                    (u "Heat.1995.1080p") (u "949") (u "wrong film")
                    _ (u "/media/Movies/Heaat (1990)")
                    {| tm_id := u "949"; tm_title := u "Heat";
                       tm_year := u "1995" |}
                    eq_refl eq_refl ltac:(by vm_compute) (or_introl eq_refl))
                 eq_refl eq_refl _ Hr).
  vm_compute; reflexivity.
Defined.

(** The life of a correction on a fresh store *)
Example correction_lifecycle_run :
  let w1 := SmartCache.add_manual_correction (PF := sure) (fresh false)
              (u "Heat.1995") (u "Shows") (u "Movie") (u "a film") None in
  map fst (SmartCache.get_unapplied_corrections w1.(cache)) = [u "Heat.1995"]
  ∧ SmartCache.get_unapplied_corrections
      (SmartCache.mark_correction_applied w1.(cache) (u "Heat.1995")) = [].
Proof. split; by vm_compute. Qed.

(** Three records: the third has the link of the first, the second the id
    of no torrent; one file entry comes of them. *)
Lemma grouping_dedup_witness :
  RealDebridProcessor.contributes RealDebridProcessor.init one_torrent false ∅
    [] (record "https://rd/L1" "T1" "Heat.1995.mkv" 4000000000) = 1%nat
  ∧ RealDebridProcessor.contributes RealDebridProcessor.init one_torrent
      false ∅
      ([] ++ record "https://rd/L1" "T1" "Heat.1995.mkv" 4000000000
          :: [record "https://rd/L2" "T9" "Other.mkv" 4000000000])
      (record "https://rd/L1" "T1" "Heat.1995.again.mkv" 4000000000)
    = 0%nat
  ∧ RealDebridProcessor.n_files
      (RealDebridProcessor._create_torrent_groups RealDebridProcessor.init
         one_torrent
         [ record "https://rd/L1" "T1" "Heat.1995.mkv" 4000000000;
           record "https://rd/L2" "T9" "Other.mkv" 4000000000;
           record "https://rd/L1" "T1" "Heat.1995.again.mkv" 4000000000 ])
    = 1%nat.
Proof.
  set (a := record "https://rd/L1" "T1" "Heat.1995.mkv" 4000000000).
  set (b := record "https://rd/L1" "T1" "Heat.1995.again.mkv" 4000000000).
  set (c := record "https://rd/L2" "T9" "Other.mkv" 4000000000).
  pose proof (proj1 (proj2 (grouping_dedup RealDebridProcessor.init
                              one_torrent false ∅))
                [] a [c] b) as H.
  assert (Hl : RealDebridProcessor.l_link a = RealDebridProcessor.l_link b)
    by (vm_compute; reflexivity).
  specialize (H Hl).
  set (n1 := RealDebridProcessor.contributes _ _ _ _ [] a) in *.
  set (n2 := RealDebridProcessor.contributes _ _ _ _ _ b) in *.
  assert (H1 : n1 = 1%nat) by (vm_compute; reflexivity).
  clearbody n1 n2.
  split; [exact H1|]. split; [lia|].
  vm_compute; reflexivity.
Defined.

(** A video of 100 MiB under the settings of [__init__] *)
Lemma content_filter_policy_witness :
  (RealDebridProcessor.is_video RealDebridProcessor.init (u "Heat.1995.mkv") []
   = true
   ∧ (0 ≤ 104857600)%Z
   ∧ (104857600 < RealDebridProcessor.init.(RealDebridProcessor.min_video_size_mb)
                  * 1024 * 1024)%Z)
  ∧ (RealDebridProcessor.should_process_file RealDebridProcessor.init
       (u "Heat.1995.mkv") 104857600 []).(RealDebridProcessor.process)
    = false.
Proof.
  assert (Hv : RealDebridProcessor.is_video RealDebridProcessor.init
                 (u "Heat.1995.mkv") [] = true) by (vm_compute; reflexivity).
  assert (H0 : (0 ≤ 104857600)%Z) by lia.
  assert (Hlt : (104857600
                 < RealDebridProcessor.init.(RealDebridProcessor.min_video_size_mb)
                   * 1024 * 1024)%Z) by (vm_compute; reflexivity).
  split; [by repeat split|].
  exact (proj1 (proj2 (content_filter_policy RealDebridProcessor.init
                         (u "Heat.1995.mkv") 104857600 [])) Hv H0 Hlt).
Defined.

(** The filter under the settings of [__init__] *)
Example content_filter_examples :
  map (fun '(name, size) =>
         (RealDebridProcessor.should_process_file RealDebridProcessor.init
            (u name) size []).(RealDebridProcessor.process))
      [ ("Heat.1995.mkv", 314572800%Z); ("Heat.1995.mkv", 314572799%Z);
        ("Heat.1995.srt", 0%Z); ("readme.txt", 314572800%Z);
        (".mkv", 314572800%Z) ]
  = [ true; false; true; false; false ].
Proof. by vm_compute. Qed.

(** C8 fails as stated: the extension of clip.bin is in neither set and
    the declared media type is none of [allowed_mime_types], yet the file
    is accepted, as a video, because the type holds the text video. *)
Lemma unknown_media_type_accepted :
  (RealDebridProcessor.file_ext (u "clip.bin")
     ∉ RealDebridProcessor.init.(RealDebridProcessor.allowed_video_extensions))
  ∧ (RealDebridProcessor.file_ext (u "clip.bin")
       ∉ RealDebridProcessor.init.(RealDebridProcessor.allowed_subtitle_extensions))
  ∧ (u "application/x-not-a-video"
       ∉ RealDebridProcessor.init.(RealDebridProcessor.allowed_mime_types))
  ∧ RealDebridProcessor.should_process_file RealDebridProcessor.init
      (u "clip.bin") 400000000 (u "application/x-not-a-video")
    = {| RealDebridProcessor.process := true;
         RealDebridProcessor.why := RealDebridProcessor.File_meets_criteria;
         RealDebridProcessor.cat := Some RealDebridProcessor.Video |}.
Proof.
  split; [|split; [|split]]; [| | |by vm_compute];
    (intros H; apply elem_of_list_to_set, list_elem_of_In in H;
     vm_compute in H;
     repeat (destruct H as [H|H]; [discriminate H|]); exact H).
Qed.

(** C9 fails as stated: names of one or two characters, and longer names
    of which little is left, come back shorter than 3 characters. *)
Lemma short_name_stays_short :
  RealDebridProcessor.sanitize_filename (u "ab") = u "ab"
  ∧ length (RealDebridProcessor.sanitize_filename (u "ab")) = 2%nat
  ∧ RealDebridProcessor.sanitize_filename (u "x?*<>|") = u "x".
Proof. repeat split; by vm_compute. Qed.

Example sanitize_filename_examples :
  map (fun name => RealDebridProcessor.sanitize_filename (u name))
      [ "My%20Movie.2020.mkv"; "hhd800.com@START-296.mp4"; "??"; "" ]
  = map u [ "My Movie 2020"; "START 296"; "media_file"; "unknown" ].
Proof. by vm_compute. Qed.

(** C10 fails as stated: a subtitle file declared with a video media
    type is taken for a video and rejected for its size. *)
Lemma subtitle_with_video_type_rejected :
  RealDebridProcessor.file_ext (u "Heat.1995.srt")
    ∈ RealDebridProcessor.init.(RealDebridProcessor.allowed_subtitle_extensions)
  ∧ (RealDebridProcessor.should_process_file RealDebridProcessor.init
       (u "Heat.1995.srt") 0 (u "video/mp4")).(RealDebridProcessor.process)
    = false.
Proof.
  split; [|by vm_compute].
  apply elem_of_list_to_set, list_elem_of_In. by vm_compute; left.
Qed.

(** A subtitle file of size 0 without a media type, and a link record of
    a video file that carries no size, between two records that are
    kept *)
Lemma subtitle_and_empty_video_witness :
  (RealDebridProcessor.should_process_file RealDebridProcessor.init
     (u "Heat.1995.srt") 0 []).(RealDebridProcessor.process) = true
  ∧ (RealDebridProcessor.should_process_file RealDebridProcessor.init
       (u "Heat.1995.mkv") 0 []).(RealDebridProcessor.process) = false
  ∧ RealDebridProcessor._create_torrent_groups RealDebridProcessor.init
      one_torrent
      ([ record "https://rd/L1" "T1" "Heat.1995.mkv" 4000000000 ]
       ++ {| RealDebridProcessor.l_id := None;
             RealDebridProcessor.l_link := Some (u "https://rd/L2");
             RealDebridProcessor.l_torrent_id := Some (u "T1");
             RealDebridProcessor.l_filename := Some (u "Sample.mkv");
             RealDebridProcessor.l_download := None;
             RealDebridProcessor.l_filesize := None |}
          :: [ record "https://rd/L3" "T1" "Heat.1995.srt" 20000 ])
    = RealDebridProcessor._create_torrent_groups RealDebridProcessor.init
        one_torrent
        ([ record "https://rd/L1" "T1" "Heat.1995.mkv" 4000000000 ]
         ++ [ record "https://rd/L3" "T1" "Heat.1995.srt" 20000 ])
  ∧ RealDebridProcessor.n_files
      (RealDebridProcessor._create_torrent_groups RealDebridProcessor.init
         one_torrent
         ([ record "https://rd/L1" "T1" "Heat.1995.mkv" 4000000000 ]
          ++ [ record "https://rd/L3" "T1" "Heat.1995.srt" 20000 ]))
    = 2%nat.
Proof.
  assert (Hs : RealDebridProcessor.file_ext (u "Heat.1995.srt")
                 ∈ RealDebridProcessor.init.(RealDebridProcessor.allowed_subtitle_extensions)).
  { apply elem_of_list_to_set, list_elem_of_In. by vm_compute; left. }
  assert (Hv : ∀ name, name = u "Heat.1995.mkv" ∨ name = u "Sample.mkv" →
                 RealDebridProcessor.file_ext name
                   ∈ RealDebridProcessor.init.(RealDebridProcessor.allowed_video_extensions)).
  { intros name [-> | ->]; apply elem_of_list_to_set, list_elem_of_In;
      by vm_compute; left. }
  assert (Hm : (0 < RealDebridProcessor.init.(RealDebridProcessor.min_video_size_mb))%Z)
    by (by vm_compute).
  split; [|split; [|split]].
  - exact (proj1 (proj2 (subtitle_and_empty_video RealDebridProcessor.init
                           (u "Heat.1995.srt") 0 [] 300)) Hs).
  - exact (proj1 (proj2 (proj2 (subtitle_and_empty_video
                                  RealDebridProcessor.init
                                  (u "Heat.1995.mkv") 0 [] 300)))
             (Hv _ (or_introl eq_refl)) Hm).
  - refine (proj1 (proj2 (proj2 (proj2 (subtitle_and_empty_video
                                          RealDebridProcessor.init
                                          (u "Heat.1995.mkv") 0 [] 300)))
                     one_torrent
                     [ record "https://rd/L1" "T1" "Heat.1995.mkv" 4000000000 ]
                     [ record "https://rd/L3" "T1" "Heat.1995.srt" 20000 ]
                     {| RealDebridProcessor.l_id := None;
                        RealDebridProcessor.l_link := Some (u "https://rd/L2");
                        RealDebridProcessor.l_torrent_id := Some (u "T1");
                        RealDebridProcessor.l_filename := Some (u "Sample.mkv");
                        RealDebridProcessor.l_download := None;
                        RealDebridProcessor.l_filesize := None |}
                     false ∅ (or_introl eq_refl) _ Hm)).
    apply Hv. right. by vm_compute.
  - by vm_compute.
Defined.
End Runs.

(** ** The regular expression engine *)

Section RegexEngine.
Context {UD : UnicodeData}.
Variable ignorecase : bool.

(** What a match hands on: a suffix of the text, and as many groups as
    it was given. *)
Lemma mt_result {A : Type} (r : Re.regex) :
  ∀ prev s caps (k : option N → str → list (option str) → option A) x,
    Re.mt ignorecase r prev s caps k = Some x →
    ∃ prev' s' caps', s' `suffix_of` s ∧ length caps' = length caps
                      ∧ k prev' s' caps' = Some x.
Proof.
  induction r as [|c| |neg items|a IHa b IHb|a IHa b IHb|lo hi a IHa|i a IHa| | |];
    intros prev s caps k x; cbn [Re.mt].
  - intros H. by exists prev, s, caps.
  - destruct s as [|t s']; [done|]. destruct (Re.lit_match _ _ _); [|done].
    intros H. exists (Some t), s', caps. split; [by apply suffix_cons_r|done].
  - destruct s as [|t s']; [done|]. destruct (t =? 10); [done|].
    intros H. exists (Some t), s', caps. split; [by apply suffix_cons_r|done].
  - destruct s as [|t s']; [done|]. destruct (Re.class_match _ _ _ _); [|done].
    intros H. exists (Some t), s', caps. split; [by apply suffix_cons_r|done].
  - intros H. apply IHa in H as (p1 & s1 & c1 & Hs1 & Hl1 & H).
    apply IHb in H as (p2 & s2 & c2 & Hs2 & Hl2 & H).
    exists p2, s2, c2. split; [by etransitivity|]. split; [congruence|done].
  - destruct (Re.mt ignorecase a prev s caps k) eqn:E.
    + intros [= <-]. by apply IHa in E.
    + apply IHb.
  - generalize (length s) at 1. intros fuel. generalize 0%nat.
    revert prev s caps. induction fuel as [|fuel IH]; intros prev s caps cnt.
    + destruct (lo <=? cnt)%nat; [|done]. intros H. by exists prev, s, caps.
    + match goal with |- context [from_option ?f true hi] =>
        destruct (from_option f true hi) end.
      * match goal with |- match ?m with _ => _ end = _ → _ =>
          destruct m as [y|] eqn:E end.
        -- intros [= <-]. apply IHa in E as (p1 & s1 & c1 & Hs1 & Hl1 & E).
           destruct (length s1 <? length s)%nat; [|done].
           apply IH in E as (p2 & s2 & c2 & Hs2 & Hl2 & E).
           exists p2, s2, c2. split; [by etransitivity|].
           split; [congruence|done].
        -- destruct (lo <=? cnt)%nat; [|done]. intros H. by exists prev, s, caps.
      * destruct (lo <=? cnt)%nat; [|done]. intros H. by exists prev, s, caps.
  - intros H. apply IHa in H as (p1 & s1 & c1 & Hs1 & Hl1 & H).
    eexists _, _, _. split; [exact Hs1|]. split; [|exact H].
    by rewrite length_insert.
  - destruct prev; [done|]. intros H. by exists None, s, caps.
  - destruct (Re.at_end s); [|done]. intros H. by exists prev, s, caps.
  - destruct (Re.at_boundary _ _); [|done]. intros H. by exists prev, s, caps.
Qed.

Lemma match_here_suffix (r : Re.regex) (g : nat) (prev : option N) (s : str)
    prev' s' caps :
  Re.match_here ignorecase r g prev s = Some (prev', s', caps) →
  s' `suffix_of` s.
Proof.
  unfold Re.match_here. intros H.
  apply mt_result in H as (p & s1 & c & Hs & _ & [= _ <- _]). done.
Qed.

Lemma match_here_groups (r : Re.regex) (g : nat) (prev : option N) (s : str)
    prev' s' caps :
  Re.match_here ignorecase r g prev s = Some (prev', s', caps) →
  length caps = g.
Proof.
  unfold Re.match_here. intros H.
  apply mt_result in H as (p & s1 & c & _ & Hl & [= _ _ <-]).
  by rewrite Hl, length_replicate.
Qed.

Lemma search_from_groups (r : Re.regex) (g : nat) (s : str) :
  ∀ pos prev m,
    Re.search_from ignorecase r g pos prev s = Some m →
    length (Re.m_groups m) = g.
Proof.
  induction s as [|c s IH]; intros pos prev m; cbn [Re.search_from].
  - destruct (Re.match_here ignorecase r g prev []) as [[[p s'] caps]|] eqn:E;
      [|done].
    intros [= <-]. by apply match_here_groups in E.
  - destruct (Re.match_here ignorecase r g prev (c :: s))
      as [[[p s'] caps]|] eqn:E.
    + intros [= <-]. by apply match_here_groups in E.
    + apply IH.
Qed.

Lemma sub_from_chars (fuel : nat) (r : Re.regex) (g : nat) (repl : str) :
  ∀ prev s c, c ∈ Re.sub_from ignorecase fuel r g repl prev s →
              c ∈ repl ∨ c ∈ s.
Proof.
  induction fuel as [|fuel IH]; intros prev s c; cbn [Re.sub_from]; [by right|].
  destruct (Re.match_here ignorecase r g prev s) as [[[p' s'] caps]|] eqn:E.
  - apply match_here_suffix in E as [pre ->].
    destruct (length s' <? length (pre ++ s'))%nat.
    + rewrite elem_of_app. intros [H|H]; [by left|].
      apply IH in H as [H|H]; [by left|right].
      apply elem_of_app; by right.
    + rewrite elem_of_app. intros [H|H]; [by left|].
      destruct (pre ++ s') as [|d t] eqn:Et; [by apply elem_of_nil in H|].
      apply elem_of_cons in H as [->|H]; [right; by left|].
      apply IH in H as [H|H]; [by left|right; by right].
  - destruct s as [|d t]; [by right|].
    intros H. apply elem_of_cons in H as [->|H]; [right; by left|].
    apply IH in H as [H|H]; [by left|right; by right].
Qed.
End RegexEngine.

Section RegexApi.
Context {UD : UnicodeData}.

(** [match.groups()] has one entry for each group of the pattern. *)
Lemma search_groups (pattern s : str) (ignorecase : bool) (r : Re.regex)
    (g : nat) (m : Re.rmatch) :
  Re.compile pattern = Some (r, g) →
  Re.search pattern s ignorecase = Some m →
  length (Re.m_groups m) = g.
Proof.
  intros Hc. unfold Re.search. rewrite Hc. cbn. apply search_from_groups.
Qed.

Lemma sub_chars (pattern repl s : str) (ignorecase : bool) (c : N) :
  c ∈ Re.sub pattern repl s ignorecase → c ∈ repl ∨ c ∈ s.
Proof.
  unfold Re.sub. destruct (Re.compile pattern) as [[r g]|]; [|by right].
  apply sub_from_chars.
Qed.

Lemma sub_from_class (ignorecase neg : bool) (items : list Re.item) (g : nat)
    (repl : str) :
  ∀ s fuel prev, (length s < fuel)%nat →
    Re.sub_from ignorecase fuel (Re.Class neg items) g repl prev s
    = flat_map (fun t => if Re.class_match ignorecase neg items t
                         then repl else [t]) s.
Proof.
  induction s as [|t s IH]; intros fuel prev Hf;
    (destruct fuel as [|fuel]; [simpl in Hf; lia|]).
  - reflexivity.
  - cbn [Re.sub_from Re.match_here Re.mt flat_map].
    destruct (Re.class_match ignorecase neg items t).
    + replace (length s <? length (t :: s))%nat with true
        by (symmetry; apply Nat.ltb_lt; simpl; lia).
      f_equal. apply IH. simpl in Hf; lia.
    + simpl. f_equal. apply IH. simpl in Hf; lia.
Qed.

Lemma sub_class (pattern repl s : str) (ignorecase neg : bool)
    (items : list Re.item) (g : nat) :
  Re.compile pattern = Some (Re.Class neg items, g) →
  Re.sub pattern repl s ignorecase
  = flat_map (fun t => if Re.class_match ignorecase neg items t
                       then repl else [t]) s.
Proof.
  intros H. unfold Re.sub. rewrite H. apply sub_from_class. lia.
Qed.
End RegexApi.

(** ** Strings *)

Section Strings.

Lemma elem_existsb (c : N) (l : str) : c ∈ l → existsb (N.eqb c) l = true.
Proof.
  intros H. apply existsb_exists. exists c.
  split; [by apply list_elem_of_In|apply N.eqb_refl].
Qed.

Lemma elem_of_rev (c : N) (l : str) : c ∈ rev l ↔ c ∈ l.
Proof. by rewrite !list_elem_of_In, <- in_rev. Qed.

Lemma startswith_prefix (s p : str) : p `prefix_of` s → Py.startswith s p = true.
Proof.
  intros [k ->]. induction p as [|c p IH]; simpl; [by destruct k|].
  by rewrite N.eqb_refl.
Qed.

Lemma lstrip_suffix (s : str) : Py.lstrip s `suffix_of` s.
Proof.
  induction s as [|c s IH]; simpl; [done|].
  destruct (Py.isspace c); [by apply suffix_cons_r|done].
Qed.

Lemma lstrip_head (s : str) (c : N) (r : str) :
  Py.lstrip s = c :: r → Py.isspace c = false.
Proof.
  induction s as [|d s IH]; simpl; [done|].
  destruct (Py.isspace d) eqn:E; [done|]. by intros [= <- _].
Qed.

Lemma lstrip_fixed (s : str) :
  (∀ c r, s = c :: r → Py.isspace c = false) → Py.lstrip s = s.
Proof. destruct s as [|c s]; [done|]. intros H. simpl. by rewrite (H c s). Qed.

Lemma lstrip_lstrip (s : str) : Py.lstrip (Py.lstrip s) = Py.lstrip s.
Proof. apply lstrip_fixed. intros c r. apply lstrip_head. Qed.

Lemma rstrip_prefix (s : str) : Py.rstrip s `prefix_of` s.
Proof.
  unfold Py.rstrip. destruct (lstrip_suffix (rev s)) as [k Hk].
  exists (rev k). apply (f_equal (@rev N)) in Hk.
  rewrite rev_involutive, rev_app_distr in Hk. done.
Qed.

Lemma rstrip_rstrip (s : str) : Py.rstrip (Py.rstrip s) = Py.rstrip s.
Proof. unfold Py.rstrip. by rewrite rev_involutive, lstrip_lstrip. Qed.

(** [strip] leaves what is already stripped as it is. *)
Lemma strip_strip (s : str) : Py.strip (Py.strip s) = Py.strip s.
Proof.
  unfold Py.strip.
  rewrite (lstrip_fixed (Py.rstrip (Py.lstrip s))); [apply rstrip_rstrip|].
  intros c r Hr. destruct (rstrip_prefix (Py.lstrip s)) as [k Hk].
  rewrite Hr in Hk. simpl in Hk. by apply lstrip_head in Hk.
Qed.

Lemma strip_elem (s : str) (c : N) : c ∈ Py.strip s → c ∈ s.
Proof.
  unfold Py.strip. intros H.
  destruct (rstrip_prefix (Py.lstrip s)) as [k Hk].
  destruct (lstrip_suffix s) as [k' Hk'].
  rewrite Hk', Hk, !elem_of_app. auto.
Qed.

Lemma split_ws_aux_elem (s cur w : str) (c : N) :
  w ∈ Py.split_ws_aux cur s → c ∈ w → c ∈ cur ∨ c ∈ s.
Proof.
  revert cur. induction s as [|d s IH]; intros cur; cbn [Py.split_ws_aux].
  - destruct cur as [|e cur]; [by intros H%elem_of_nil|].
    intros ->%list_elem_of_singleton. rewrite elem_of_rev. by left.
  - destruct (Py.isspace d).
    + destruct cur as [|e cur].
      * intros H Hc. destruct (IH _ H Hc) as [?|?]; [by left|right; by right].
      * intros [->|H]%elem_of_cons Hc.
        -- rewrite elem_of_rev in Hc. by left.
        -- destruct (IH _ H Hc) as [?%elem_of_nil|?]; [done|right; by right].
    + intros H Hc. destruct (IH _ H Hc) as [[->|?]%elem_of_cons|?];
        [right; by left|by left|right; by right].
Qed.

Lemma split_ws_elem (s w : str) (c : N) :
  w ∈ Py.split_ws s → c ∈ w → c ∈ s.
Proof.
  intros H Hc. destruct (split_ws_aux_elem _ _ _ _ H Hc) as [?%elem_of_nil|?];
    done.
Qed.

(** The first piece of [s.split(sep)] is the part of [s] before the first
    separator. *)
Lemma split_on_aux_head (sep : N) (s cur : str) :
  ∃ p rest, Py.split_on_aux sep cur s = (rev cur ++ p) :: rest
            ∧ p `prefix_of` s ∧ sep ∉ p.
Proof.
  revert cur. induction s as [|c s IH]; intros cur; simpl.
  - exists [], []. rewrite app_nil_r. split; [done|].
    split; [done|apply not_elem_of_nil].
  - destruct (N.eqb_spec c sep) as [->|Hne].
    + exists [], (Py.split_on_aux sep [] s). rewrite app_nil_r.
      split; [done|]. split; [apply prefix_nil|apply not_elem_of_nil].
    + destruct (IH (c :: cur)) as (p & rest & -> & Hp & Hn).
      exists (c :: p), rest. simpl. rewrite <- app_assoc. simpl.
      split; [done|]. split; [by apply prefix_cons|].
      intros [?|?]%elem_of_cons; congruence.
Qed.

Lemma split_on_head (sep : N) (s : str) :
  ∃ p, head (Py.split_on sep s) = Some p ∧ p `prefix_of` s ∧ sep ∉ p.
Proof.
  destruct (split_on_aux_head sep s []) as (p & rest & H & Hp & Hn).
  exists p. unfold Py.split_on. rewrite H. done.
Qed.

Lemma replace_char_elem (old : N) (new s : str) (c : N) :
  c ∈ Py.replace_char old new s → c ∈ new ∨ (c ∈ s ∧ c ≠ old).
Proof.
  unfold Py.replace_char. rewrite list_elem_of_In, in_flat_map.
  intros (t & Ht & Hc). apply list_elem_of_In in Ht.
  destruct (N.eqb_spec t old) as [->|Hne].
  - left. by apply list_elem_of_In.
  - right. apply list_elem_of_In, list_elem_of_singleton in Hc as ->. done.
Qed.
End Strings.

(** ** Sanitized names *)

Section RegexClass.
Context {UD : UnicodeData}.

Lemma search_from_class_none (ignorecase neg : bool) (items : list Re.item)
    (g : nat) :
  ∀ s pos prev,
    (∀ t, t ∈ s → Re.class_match ignorecase neg items t = false) →
    Re.search_from ignorecase (Re.Class neg items) g pos prev s = None.
Proof.
  induction s as [|t s IH]; intros pos prev H; [reflexivity|].
  cbn [Re.search_from Re.match_here Re.mt].
  rewrite (H t) by (by left). apply IH. intros t' Ht'. apply H. by right.
Qed.

Lemma search_class_none (pattern s : str) (ignorecase neg : bool)
    (items : list Re.item) (g : nat) :
  Re.compile pattern = Some (Re.Class neg items, g) →
  (∀ t, t ∈ s → Re.class_match ignorecase neg items t = false) →
  Re.search pattern s ignorecase = None.
Proof.
  intros Hc H. unfold Re.search. rewrite Hc. simpl.
  by apply search_from_class_none.
Qed.

Lemma sub_class_elem (pattern repl s : str) (ignorecase neg : bool)
    (items : list Re.item) (g : nat) (c : N) :
  Re.compile pattern = Some (Re.Class neg items, g) →
  c ∈ Re.sub pattern repl s ignorecase →
  c ∈ repl ∨ (c ∈ s ∧ Re.class_match ignorecase neg items c = false).
Proof.
  intros Hc. rewrite (sub_class _ _ _ _ _ _ _ Hc).
  rewrite list_elem_of_In, in_flat_map. intros (t & Ht & H).
  apply list_elem_of_In in Ht.
  destruct (Re.class_match ignorecase neg items t) eqn:E.
  - left. by apply list_elem_of_In.
  - right. apply list_elem_of_In, list_elem_of_singleton in H as ->. done.
Qed.
End RegexClass.

Section Sanitizers.
Context {UD : UnicodeData}.
Import RealDebridProcessor.

Lemma compile_illegal_chars :
  Re.compile illegal_chars = Some (Re.Class false illegal_items, 0%nat).
Proof. by vm_compute. Qed.

Lemma compile_control_chars :
  Re.compile control_chars
  = Some (Re.Class false [Re.IRange 0 31; Re.IRange 127 159], 0%nat).
Proof. by vm_compute. Qed.

Lemma compile_fallback_class :
  Re.compile (u "[^\w\s-]")
  = Some (Re.Class true [Re.IWord; Re.ISpace; Re.IChar 45], 0%nat).
Proof. by vm_compute. Qed.

Lemma free_of_sub_class (pattern repl s : str) neg items g :
  Re.compile pattern = Some (Re.Class neg items, g) →
  free_of neg items repl → free_of neg items (Re.sub pattern repl s false).
Proof.
  intros Hc Hr t Ht.
  apply (sub_class_elem _ _ _ _ _ _ _ _ Hc) in Ht as [Ht|[_ Ht]];
    [by apply Hr|done].
Qed.

Lemma free_of_sub (pattern repl s : str) (ignorecase : bool) neg items :
  free_of neg items repl → free_of neg items s →
  free_of neg items (Re.sub pattern repl s ignorecase).
Proof.
  intros Hr Hs t Ht. apply sub_chars in Ht as [Ht|Ht]; [by apply Hr|by apply Hs].
Qed.

Lemma free_of_strip (s : str) neg items :
  free_of neg items s → free_of neg items (Py.strip s).
Proof. intros Hs t Ht. apply Hs. by apply strip_elem. Qed.

Lemma free_of_nil neg items : free_of neg items [].
Proof. by intros t Ht%elem_of_nil. Qed.

Lemma free_of_take (n : nat) (s : str) neg items :
  free_of neg items s → free_of neg items (take n s).
Proof.
  intros Hs t Ht. apply Hs. rewrite <- (take_drop n s).
  apply elem_of_app. by left.
Qed.

Lemma free_of_search (pattern s : str) neg items g :
  Re.compile pattern = Some (Re.Class neg items, g) →
  free_of neg items s → Re.search pattern s false = None.
Proof. intros Hc Hs. apply (search_class_none _ _ _ _ _ _ Hc). exact Hs. Qed.

Lemma free_of_closed (s : str) neg items :
  forallb (fun t => negb (Re.class_match false neg items t)) s = true →
  free_of neg items s.
Proof.
  rewrite forallb_forall. intros H t Ht%list_elem_of_In.
  apply H in Ht. by apply negb_true_iff.
Qed.

(** X1.  [sanitize_folder_name] always returns a usable folder name: it is
    never empty, no character of [illegal_chars] and none of
    [control_chars] is left in it, and it has no white space at either end.
    The empty name becomes "Unknown". *)
Theorem sanitize_folder_name_safe (this : self) (name : str) :
  sanitize_folder_name this name ≠ []
  ∧ Re.search illegal_chars (sanitize_folder_name this name) false = None
  ∧ Re.search control_chars (sanitize_folder_name this name) false = None
  ∧ Py.strip (sanitize_folder_name this name) = sanitize_folder_name this name
  ∧ (name = [] → sanitize_folder_name this name = u "Unknown").
Proof.
  assert (Hu : u "Unknown" ≠ []
               ∧ Re.search illegal_chars (u "Unknown") false = None
               ∧ Re.search control_chars (u "Unknown") false = None
               ∧ Py.strip (u "Unknown") = u "Unknown").
  { repeat split; by vm_compute. }
  unfold sanitize_folder_name.
  destruct (Py.truthy name) eqn:Hn; cbn [negb].
  2: { destruct Hu as (? & ? & ? & ?). repeat split; done. }
  match goal with |- context [Re.sub illegal_chars _ ?n _] =>
    generalize n end.
  intros n. set (s1 := Re.sub illegal_chars (u "_") n false).
  set (s2 := Re.sub control_chars [] s1 false).
  set (s3 := Re.sub (u "\.+$") [] s2 false).
  assert (H1 : free_of false illegal_items s1).
  { apply (free_of_sub_class _ _ _ _ _ _ compile_illegal_chars).
    apply free_of_closed. by vm_compute. }
  assert (H2 : free_of false [Re.IRange 0 31; Re.IRange 127 159] s2).
  { apply (free_of_sub_class _ _ _ _ _ _ compile_control_chars).
    apply free_of_nil. }
  assert (H2' : free_of false illegal_items s2).
  { apply free_of_sub; [apply free_of_nil|done]. }
  assert (H3 : free_of false illegal_items (Py.strip s3)
               ∧ free_of false [Re.IRange 0 31; Re.IRange 127 159]
                   (Py.strip s3)).
  { split; apply free_of_strip, free_of_sub; try apply free_of_nil; done. }
  clearbody s3. destruct H3 as [H3 H3'].
  destruct (Py.truthy (Py.strip s3)) eqn:Ht.
  - split; [by destruct (Py.strip s3)|].
    split; [by apply (free_of_search _ _ _ _ _ compile_illegal_chars)|].
    split; [by apply (free_of_search _ _ _ _ _ compile_control_chars)|].
    split; [apply strip_strip|]. intros ->. discriminate.
  - destruct Hu as (? & ? & ? & ?). repeat split; done.
Qed.

Lemma truncate_words_free (words : list str) neg items :
  free_of neg items (u " ") →
  ∀ truncated, free_of neg items truncated →
  (∀ w, w ∈ words → free_of neg items w) →
  free_of neg items (truncate_words truncated words).
Proof.
  intros Hsp. induction words as [|word words IH]; intros t Ht Hw;
    cbn [truncate_words]; [done|].
  destruct (_ <=? 95)%nat; [|done].
  apply IH; [|intros w Hin; apply Hw; by right].
  assert (Hword : free_of neg items word) by (apply Hw; by left).
  destruct (Py.truthy t); [|done].
  intros c. rewrite !elem_of_app. intros [?|[?|?]]; auto.
Qed.

Lemma truncate_stage_free (s : str) neg items :
  free_of neg items (u " ") → free_of neg items s →
  free_of neg items (truncate_stage s).
Proof.
  intros Hsp Hs. unfold truncate_stage.
  destruct (100 <? length s)%nat; [|done].
  destruct (Py.truthy _).
  - apply truncate_words_free; [done|apply free_of_nil|].
    intros w Hw c Hc. apply Hs. by apply (split_ws_elem _ w).
  - by apply free_of_take.
Qed.

(** X2.  Whatever the name, [sanitize_filename] returns a name in which the
    pattern [illegal_chars] finds nothing, and which neither starts nor
    ends with white space. *)
Theorem sanitize_filename_safe (name : str) :
  Re.search illegal_chars (sanitize_filename name) false = None
  ∧ Py.strip (sanitize_filename name) = sanitize_filename name.
Proof.
  assert (Hsp : free_of false illegal_items (u " ")).
  { apply free_of_closed. by vm_compute. }
  unfold sanitize_filename.
  destruct (Py.truthy name); cbn [negb]; [|split; by vm_compute].
  assert (Hc : free_of false illegal_items
                 (Py.strip (truncate_stage (clean_stage name)))).
  { apply free_of_strip, truncate_stage_free; [done|].
    unfold clean_stage.
    apply free_of_sub; [apply free_of_nil|]. apply free_of_strip.
    apply free_of_sub; [exact Hsp|]. apply free_of_sub; [exact Hsp|].
    apply free_of_sub; [apply free_of_nil|].
    apply (free_of_sub_class _ _ _ _ _ _ compile_illegal_chars).
    apply free_of_closed. by vm_compute. }
  assert (Hf : free_of false illegal_items (Py.strip (fallback name))).
  { apply free_of_strip, free_of_take. intros t Ht.
    apply (sub_class_elem _ _ _ _ _ _ _ _ compile_fallback_class) in Ht
      as [Ht%elem_of_nil|[_ Ht]]; [done|].
    unfold Re.class_match in Ht |- *. cbn [andb xorb existsb] in Ht |- *.
    apply negb_false_iff in Ht.
    destruct (N.eqb_spec t 60) as [->|]; [by vm_compute in Ht|].
    destruct (N.eqb_spec t 62) as [->|]; [by vm_compute in Ht|].
    destruct (N.eqb_spec t 58) as [->|]; [by vm_compute in Ht|].
    destruct (N.eqb_spec t 34) as [->|]; [by vm_compute in Ht|].
    destruct (N.eqb_spec t 47) as [->|]; [by vm_compute in Ht|].
    destruct (N.eqb_spec t 92) as [->|]; [by vm_compute in Ht|].
    destruct (N.eqb_spec t 124) as [->|]; [by vm_compute in Ht|].
    destruct (N.eqb_spec t 63) as [->|]; [by vm_compute in Ht|].
    destruct (N.eqb_spec t 42) as [->|]; [by vm_compute in Ht|].
    unfold illegal_items, Re.item_has; cbn [existsb].
    repeat match goal with
           | H : ?a ≠ ?b |- context [(?a =? ?b)] =>
             rewrite (proj2 (N.eqb_neq a b) H)
           end.
    reflexivity. }
  pose proof (strip_strip (truncate_stage (clean_stage name))) as Hcs.
  pose proof (strip_strip (fallback name)) as Hfs.
  generalize dependent (Py.strip (truncate_stage (clean_stage name))).
  generalize dependent (Py.strip (fallback name)).
  intros f Hf Hfs c Hc Hcs.
  destruct (negb (Py.truthy c) || (length c <? 3)%nat).
  - destruct (Py.truthy f); [|split; by vm_compute].
    split; [by apply (free_of_search _ _ _ _ _ compile_illegal_chars)|done].
  - split; [by apply (free_of_search _ _ _ _ _ compile_illegal_chars)|done].
Qed.

(** X3.  The file name [extract_filename_from_url] takes from a link holds
    neither a question mark nor a hash sign: query and fragment are cut
    off.  An empty link, and one without "/d/", give "unknown". *)
Theorem extract_filename_from_url_clean (url : str) :
  (∀ c, c ∈ u "?#" → c ∉ extract_filename_from_url url)
  ∧ (url = [] ∨ Py.contains url (u "/d/") = false →
     extract_filename_from_url url = u "unknown").
Proof.
  assert (Hu : ∀ c, c ∈ u "?#" → c ∉ u "unknown").
  { intros c Hc Hin. apply elem_existsb in Hin.
    apply elem_of_cons in Hc as [->|Hc]; [by vm_compute in Hin|].
    apply list_elem_of_singleton in Hc as ->. by vm_compute in Hin. }
  split.
  - unfold extract_filename_from_url.
    destruct (negb (Py.truthy url)); [done|].
    destruct (Py.contains url (u "/d/")); [|done].
    destruct (rev (Py.split_on 47 url)) as [|encoded_filename [|before_last l]];
      [done|done|].
    destruct (_ && _); [|done].
    generalize (unquote_passes 3 encoded_filename). intros d.
    destruct (split_on_head 63 d) as (p & -> & Hp & Hn). cbn [default from_option id].
    destruct (split_on_head 35 p) as (q & -> & Hq & Hm). cbn [default from_option id].
    intros c Hc Hin.
    apply elem_of_cons in Hc as [->|Hc].
    + apply Hn. destruct Hq as [k ->]. apply elem_of_app. by left.
    + apply list_elem_of_singleton in Hc as ->. by apply Hm.
  - unfold extract_filename_from_url. intros [->| ->]; [done|].
    by destruct (negb (Py.truthy url)).
Qed.
End Sanitizers.

Section CleanFilename.
Context {UD : UnicodeData}.

Ltac replaced H :=
  apply replace_char_elem in H as [H|[H ?]];
  [apply elem_existsb in H; by vm_compute in H|try done].

Lemma clean_filename_chars (filename : str) (c : N) :
  c ∈ u ":|/\<>?*" ++ [34] → c ∉ clean_filename filename.
Proof.
  intros Hc Hin. unfold clean_filename in Hin.
  apply strip_elem, sub_chars in Hin as [Hin|Hin].
  { apply list_elem_of_singleton in Hin as ->.
    apply elem_existsb in Hc. by vm_compute in Hc. }
  apply list_elem_of_In in Hc. vm_compute in Hc.
  destruct Hc as [<-|[<-|[<-|[<-|[<-|[<-|[<-|[<-|[<-|[]]]]]]]]]];
    do 9 (replaced Hin).
Qed.

(** X4.  [clean_filename] leaves none of the characters it replaces in its
    result (colon, bar, slash, backslash, angle brackets, question mark,
    star, double quote), and the result has no white space at either
    end. *)
Theorem clean_filename_safe (filename : str) :
  (∀ c, c ∈ u ":|/\<>?*" ++ [34] → c ∉ clean_filename filename)
  ∧ Py.strip (clean_filename filename) = clean_filename filename.
Proof.
  split; [intros c; apply clean_filename_chars|apply strip_strip].
Qed.
End CleanFilename.

(** ** Paths *)

Section Paths.

Lemma rfind_none (ch : N) (s : str) (i : nat) : ch ∉ s → Py.rfind ch i s = None.
Proof.
  revert i. induction s as [|c s IH]; intros i H; simpl; [done|].
  rewrite IH by (intros ?; apply H; by right).
  destruct (N.eqb_spec c ch) as [->|]; [|done]. exfalso. apply H. by left.
Qed.

Lemma rfind_last (ch : N) (h t : str) (i : nat) :
  ch ∉ t → Py.rfind ch i (h ++ ch :: t) = Some (i + length h)%nat.
Proof.
  intros Ht. revert i. induction h as [|c h IH]; intros i; simpl.
  - rewrite rfind_none by done. rewrite N.eqb_refl. f_equal. lia.
  - rewrite IH. f_equal. lia.
Qed.

(** A string is free of [ch], or has a last [ch]. *)
Lemma last_occurrence (ch : N) (s : str) :
  ch ∉ s ∨ ∃ h t, s = h ++ ch :: t ∧ ch ∉ t.
Proof.
  induction s as [|c s IH]; [left; apply not_elem_of_nil|].
  destruct IH as [Hn|(h & t & -> & Ht)].
  - destruct (decide (c = ch)) as [->|Hne].
    + right. exists [], s. done.
    + left. intros [?|?]%elem_of_cons; done.
  - right. exists (c :: h), t. done.
Qed.

Lemma lstrip_char_head (ch : N) (s : str) (c : N) (r : str) :
  Py.lstrip_char ch s = c :: r → c ≠ ch.
Proof.
  induction s as [|d s IH]; simpl; [done|].
  destruct (N.eqb_spec d ch) as [->|Hne]; [done|]. by intros [= <- _].
Qed.

Lemma lstrip_char_nil (ch : N) (s : str) :
  Py.lstrip_char ch s = [] → forallb (fun c => c =? ch) s = true.
Proof.
  induction s as [|d s IH]; simpl; [done|].
  destruct (N.eqb_spec d ch) as [->|Hne]; [done|]. discriminate.
Qed.

(** The shapes of a directory name: all slashes (or empty), or ending in
    another character. *)
Lemma dirname_shape (p : str) :
  forallb (fun c => c =? 47) (Posixpath.dirname p) = true
  ∨ ∃ c r, rev (Posixpath.dirname p) = c :: r ∧ c ≠ 47.
Proof.
  unfold Posixpath.dirname.
  set (head := take _ p). clearbody head.
  destruct (Py.truthy head && negb (forallb (fun c => c =? 47) head)) eqn:E.
  - apply andb_true_iff in E as [_ E]. apply negb_true_iff in E.
    right. unfold Py.rstrip_char. rewrite rev_involutive.
    destruct (Py.lstrip_char 47 (rev head)) as [|c r] eqn:El.
    + apply lstrip_char_nil in El. rewrite forallb_forall in El.
      assert (forallb (fun c => c =? 47) head = true); [|congruence].
      apply forallb_forall. intros x Hx. apply El. by apply (proj1 (in_rev _ _)).
    + exists c, r. split; [done|]. by apply lstrip_char_head in El.
  - left. apply andb_false_iff in E as [E|E].
    + by destruct head.
    + by apply negb_false_iff in E.
Qed.

Lemma dirname_join (d nm : str) :
  47 ∉ nm →
  forallb (fun c => c =? 47) d = true ∨ (∃ c r, rev d = c :: r ∧ c ≠ 47) →
  Posixpath.dirname (Posixpath.join d nm) = d.
Proof.
  intros Hnm Hd.
  assert (Hs : Py.startswith nm (u "/") = false).
  { change (u "/") with [47]. destruct nm as [|c nm]; [done|].
    cbn [Py.startswith].
    destruct (N.eqb_spec 47 c) as [<-|]; [|done]. exfalso. apply Hnm. by left. }
  unfold Posixpath.join. rewrite Hs. change (u "/") with [47].
  destruct Hd as [Hall|(c & r & Hr & Hc)].
  - assert (Hj : negb (Py.truthy d) || Py.endswith d [47] = true).
    { destruct d as [|x d] using rev_ind; [done|].
      unfold Py.endswith. rewrite rev_app_distr. cbn [rev app Py.startswith].
      rewrite forallb_app in Hall. apply andb_true_iff in Hall as [_ Hx].
      cbn in Hx. rewrite andb_true_r in Hx. apply N.eqb_eq in Hx as ->.
      rewrite N.eqb_refl. replace (Py.startswith (rev d) []) with true
        by (by destruct (rev d)).
      apply orb_true_r. }
    rewrite Hj. unfold Posixpath.dirname.
    destruct d as [|x d _] using rev_ind.
    + simpl. rewrite rfind_none by done. reflexivity.
    + rewrite forallb_app in Hall. apply andb_true_iff in Hall as [Hd Hx].
      cbn in Hx. rewrite andb_true_r in Hx. apply N.eqb_eq in Hx as ->.
      rewrite <- app_assoc. cbn [app]. rewrite rfind_last by done.
      cbn [from_option]. rewrite Nat.add_0_l.
      replace (d ++ 47 :: nm) with ((d ++ [47]) ++ nm)
        by (by rewrite <- app_assoc).
      replace (S (length d)) with (length (d ++ [47]))
        by (rewrite length_app; simpl; lia).
      rewrite take_app_length.
      assert (Hall' : forallb (fun c => c =? 47) (d ++ [47]) = true).
      { rewrite forallb_app, Hd. reflexivity. }
      rewrite Hall'. by rewrite andb_false_r.
  - assert (Hj : negb (Py.truthy d) || Py.endswith d [47] = false).
    { unfold Py.endswith. rewrite Hr. cbn [rev app Py.startswith].
      assert (d ≠ []) by (intros ->; discriminate).
      destruct d; [done|]. cbn [Py.truthy negb orb].
      destruct (N.eqb_spec 47 c) as [<-|]; done. }
    rewrite Hj. unfold Posixpath.dirname.
    change ([47] ++ nm) with (47 :: nm).
    rewrite rfind_last by done. cbn [from_option]. rewrite Nat.add_0_l.
    replace (d ++ 47 :: nm) with ((d ++ [47]) ++ nm)
      by (by rewrite <- app_assoc).
    replace (S (length d)) with (length (d ++ [47]))
      by (rewrite length_app; simpl; lia).
    rewrite take_app_length.
    assert (Hnall : forallb (fun c => c =? 47) (d ++ [47]) = false).
    { apply not_true_is_false. rewrite forallb_forall. intros H.
      specialize (H c). rewrite N.eqb_eq in H. apply Hc, H.
      apply in_or_app. left. apply (proj2 (in_rev _ _)). rewrite Hr. by left. }
    rewrite Hnall.
    assert (Ht : Py.truthy (d ++ [47]) = true) by (by destruct d).
    rewrite Ht. cbn [andb negb].
    unfold Py.rstrip_char. rewrite rev_app_distr. cbn [rev app Py.lstrip_char].
    rewrite N.eqb_refl, Hr. cbn [Py.lstrip_char].
    rewrite (proj2 (N.eqb_neq c 47) Hc). rewrite <- Hr. apply rev_involutive.
Qed.
End Paths.

Section CorrectedPath.
Context {UD : UnicodeData}.
Import CorrectionProcessor.

(** X5.  The folder a metadata correction renames stays where it is: the
    new destination path has the parent directory of the old one, because
    the new folder name holds no slash. *)
Theorem new_dest_path_parent (old_dest_path : str) (info : tmdb_info) :
  Posixpath.dirname (new_dest_path old_dest_path info)
  = Posixpath.dirname old_dest_path
  ∧ 47 ∉ new_folder_name info.
Proof.
  assert (Hn : 47 ∉ new_folder_name info).
  { apply clean_filename_chars. apply list_elem_of_In. vm_compute. tauto. }
  split; [|done].
  unfold new_dest_path. apply dirname_join; [done|apply dirname_shape].
Qed.
End CorrectedPath.

(** ** Invariants of the grouping *)

Section GroupingInvariants.
Context {UD : UnicodeData}.
Import RealDebridProcessor.
Variable this : self.

Lemma sanitize_folder_name_nonempty (name : str) :
  sanitize_folder_name this name ≠ [].
Proof.
  unfold sanitize_folder_name.
  destruct (negb (Py.truthy name)); [by vm_compute|].
  match goal with |- (if Py.truthy ?x then _ else _) ≠ _ =>
    generalize x end.
  intros x. destruct x; [by vm_compute|done].
Qed.

(** What holds of every group while the loop runs *)
Let group_ok (torrent_map : gmap str torrent) (k : str) (g : group) : Prop :=
  g.(folder_name) = k ∧ k ≠ [] ∧ g.(files) ≠ []
  ∧ (∀ e, e ∈ g.(files) →
       (should_process_file this e.(original_filename) e.(filesize) [])
         .(process) = true
       ∧ e.(filename) = sanitize_filename e.(original_filename))
  ∧ ∃ i, torrent_map !! i = Some g.(torrent_info).

Lemma add_file_group_ok (torrent_map : gmap str torrent) (st : loop_state)
    (item : link_record) (torrent_id : str) :
  is_Some (torrent_map !! torrent_id) →
  map_Forall (group_ok torrent_map) st.1 →
  map_Forall (group_ok torrent_map)
    (add_file this torrent_map st item torrent_id).1.
Proof.
  intros [ti Hti] Hinv. unfold add_file. destruct st as [groups links].
  destruct (l_link item) as [link|]; [|done].
  destruct (Py.truthy link && negb (bool_decide (link ∈ links))); [|done].
  match goal with |- context [should_process_file this ?o ?f []] =>
    set (orig := o); set (size := f) end.
  destruct (process (should_process_file this orig size [])) eqn:Hp;
    cbn [negb]; [|done].
  rewrite Hti. cbn [default from_option id fst].
  set (key := sanitize_folder_name this _).
  set (e := {| url := l_download item; filename := sanitize_filename orig;
               original_filename := orig; filesize := size |}).
  assert (He : (should_process_file this e.(original_filename)
                  e.(filesize) []).(process) = true
               ∧ e.(filename) = sanitize_filename e.(original_filename))
    by done.
  assert (Hkey : key ≠ []) by apply sanitize_folder_name_nonempty.
  clearbody key e.
  intros k g. destruct (decide (k = key)) as [->|Hne].
  - rewrite lookup_alter_eq.
    destruct (groups !! key) as [g0|] eqn:Hg0.
    + rewrite Hg0. intros [= <-].
      destruct (Hinv key g0 Hg0) as (Hf & _ & _ & Hes & Ht).
      split; [done|]. split; [done|].
      split; [simpl; by destruct (files g0)|].
      split; [|done]. simpl. intros e' [He'|He']%elem_of_app;
        [by apply Hes|]. by apply list_elem_of_singleton in He' as ->.
    + rewrite lookup_insert_eq. intros [= <-]. simpl.
      split; [done|]. split; [done|]. split; [done|].
      split; [|by exists torrent_id].
      intros e' He'. by apply list_elem_of_singleton in He' as ->.
  - rewrite lookup_alter_ne by done.
    destruct (groups !! key); [apply Hinv|].
    rewrite lookup_insert_ne by done. apply Hinv.
Qed.

Lemma known_torrent_lookup (torrent_map : gmap str torrent)
    (item : link_record) (torrent_id : str) :
  known_torrent torrent_map item = Some torrent_id →
  is_Some (torrent_map !! torrent_id).
Proof.
  unfold known_torrent. destruct (l_torrent_id item) as [i|]; [|done].
  destruct (negb (Py.truthy i)); [done|]. cbn [orb].
  destruct (bool_decide (is_Some (torrent_map !! i))) eqn:E; [|done].
  intros [= <-]. by apply bool_decide_eq_true in E.
Qed.

Lemma step_group_ok (torrent_map : gmap str torrent) (skip_existing : bool)
    (existing_urls : gset str) (st : loop_state) (item : link_record) :
  map_Forall (group_ok torrent_map) st.1 →
  map_Forall (group_ok torrent_map)
    (step_with_skip this torrent_map skip_existing existing_urls st item).1.
Proof.
  intros Hinv. unfold step_with_skip.
  destruct (known_torrent torrent_map item) as [i|] eqn:E; [|done].
  destruct (_ && _); [done|].
  apply add_file_group_ok; [by apply known_torrent_lookup in E|done].
Qed.

Lemma run_group_ok (torrent_map : gmap str torrent) (skip_existing : bool)
    (existing_urls : gset str) (items : list link_record) (st : loop_state) :
  map_Forall (group_ok torrent_map) st.1 →
  map_Forall (group_ok torrent_map)
    (fold_left (step_with_skip this torrent_map skip_existing existing_urls)
               items st).1.
Proof.
  revert st. induction items as [|item items IH]; intros st Hinv; [done|].
  simpl. apply IH. by apply step_group_ok.
Qed.

(** X6.  Every group [_create_torrent_groups_with_skip] returns is filed
    under its own folder name, which is not empty; it holds at least one
    file; each of its files passed [should_process_file] (with no MIME
    type) under its original name and carries the sanitized form of that
    name; and its torrent is one of the torrents given. *)
Theorem grouping_invariants (torrents : list torrent)
    (unrestricted_data : list link_record) (skip_existing : bool)
    (existing_urls : gset str) :
  map_Forall
    (λ k g,
       g.(folder_name) = k ∧ k ≠ [] ∧ g.(files) ≠ []
       ∧ (∀ e, e ∈ g.(files) →
            (should_process_file this e.(original_filename) e.(filesize) [])
              .(process) = true
            ∧ e.(filename) = sanitize_filename e.(original_filename))
       ∧ g.(torrent_info) ∈ torrents)
    (_create_torrent_groups_with_skip this torrents unrestricted_data
       skip_existing existing_urls).
Proof.
  intros k g Hg.
  pose proof (run_group_ok (index_torrents torrents) skip_existing
                existing_urls unrestricted_data (∅, ∅)) as H.
  destruct (H (map_Forall_empty _) k g Hg) as (Hf & Hk & Hn & He & i & Hi).
  split; [done|]. split; [done|]. split; [done|]. split; [done|].
  by apply index_torrents_lookup in Hi as [? _].
Qed.

Lemma step_count (torrents : list torrent) (skip_existing : bool)
    (existing_urls : gset str) (st : loop_state) (item : link_record)
    (links : gset str) :
  n_files st.1 = size st.2 → st.2 ⊆ links →
  (∀ link, item.(l_link) = Some link → link ∈ links) →
  let st' := step_with_skip this (index_torrents torrents) skip_existing
               existing_urls st item in
  n_files st'.1 = size st'.2 ∧ st'.2 ⊆ links.
Proof.
  intros Hn Hs Hl st'.
  destruct (step_cases this torrents skip_existing existing_urls st item)
    as [E|(l & Hi & Hnew & Hl' & Hf)]; fold st' in E || fold st' in Hl', Hf.
  - by rewrite E.
  - rewrite Hf, Hl', Hn. split.
    + rewrite size_union by (by apply disjoint_singleton_l).
      by rewrite size_singleton.
    + apply union_least; [|done]. apply singleton_subseteq_l. by apply Hl.
Qed.

Lemma size_links (items : list link_record) :
  (size (list_to_set (omap l_link items) : gset str) ≤ length items)%nat.
Proof.
  induction items as [|item items IH];
    [cbn [omap list_omap length]; by rewrite list_to_set_nil, size_empty|].
  cbn [omap list_omap length]. fold (omap l_link items).
  destruct (l_link item) as [link|]; [|lia].
  rewrite list_to_set_cons, size_union_alt, size_singleton.
  pose proof (subseteq_size
                (list_to_set (omap l_link items) ∖ {[link]} : gset str)
                (list_to_set (omap l_link items))
                (subseteq_difference_l _ _ _ (reflexivity _))).
  lia.
Qed.

Lemma run_count (torrents : list torrent) (skip_existing : bool)
    (existing_urls : gset str) (links : gset str)
    (items : list link_record) :
  ∀ (st : loop_state),
    n_files st.1 = size st.2 → st.2 ⊆ links →
    (∀ item link, item ∈ items → item.(l_link) = Some link → link ∈ links) →
    let st' := fold_left (step_with_skip this (index_torrents torrents)
                            skip_existing existing_urls) items st in
    n_files st'.1 = size st'.2 ∧ st'.2 ⊆ links.
Proof.
  induction items as [|item items IH]; intros st Hn Hs Hl; [done|].
  simpl.
  destruct (step_count torrents skip_existing existing_urls st item links)
    as [Hn' Hs']; [done|done|by intros link; apply Hl; left|].
  apply IH; [done|done|]. intros it link Hin. apply Hl. by right.
Qed.

(** X7.  The groups hold at most one file for each distinct link of the
    unrestricted records, hence at most one for each record.  With
    [skip_existing] set, a record whose link is among the existing ones
    adds no file.  With [skip_existing] unset the existing links do not
    matter: the result is the one of [_create_torrent_groups]. *)
Theorem grouping_counts (torrents : list torrent)
    (unrestricted_data : list link_record) (skip_existing : bool)
    (existing_urls : gset str) :
  (n_files (_create_torrent_groups_with_skip this torrents unrestricted_data
              skip_existing existing_urls)
   ≤ size (list_to_set (omap l_link unrestricted_data) : gset str)
   ≤ length unrestricted_data)%nat
  ∧ (∀ before item link,
       item.(l_link) = Some link → link ∈ existing_urls →
       contributes this torrents true existing_urls before item = 0%nat)
  ∧ _create_torrent_groups_with_skip this torrents unrestricted_data
      false existing_urls
    = _create_torrent_groups this torrents unrestricted_data.
Proof.
  split; [|split].
  - split; [|apply size_links].
    destruct (run_count torrents skip_existing existing_urls
                (list_to_set (omap l_link unrestricted_data))
                unrestricted_data (∅, ∅)) as [Hn Hs]; try done.
    { intros item link Hin Hl. apply elem_of_list_to_set, list_elem_of_omap.
      by exists item. }
    unfold _create_torrent_groups_with_skip. rewrite Hn.
    by apply subseteq_size.
  - intros before item link Hi Hin.
    assert (Hne : existing_urls ≠ ∅)
      by (intros ->; by apply not_elem_of_empty in Hin).
    unfold contributes, _create_torrent_groups_with_skip.
    rewrite fold_left_app. simpl.
    unfold step_with_skip at 1.
    destruct (known_torrent _ item); [|lia].
    rewrite Hi. cbn [from_option andb].
    rewrite bool_decide_eq_false_2 by done.
    rewrite bool_decide_eq_true_2 by done. cbn [negb andb]. lia.
  - reflexivity.
Qed.
End GroupingInvariants.

(** ** Configuring the filter *)

Section Configure.
Context {UD : UnicodeData}.
Import RealDebridProcessor.

Lemma add_extensions_spec (additional : list str) (exts : gset str) (e : str) :
  e ∈ fold_left add_extension additional exts
  ↔ e ∈ exts ∨ ∃ ext, ext ∈ additional ∧ e = added_extension ext.
Proof.
  revert exts. induction additional as [|a l IH]; intros exts; simpl.
  - split; [by left|]. intros [H|(ext & H%elem_of_nil & _)]; done.
  - rewrite IH. unfold add_extension at 1.
    rewrite elem_of_union, elem_of_singleton. split.
    + intros [[->|H]|(ext & Hin & He)].
      * right. exists a. split; [by left|done].
      * by left.
      * right. exists ext. split; [by right|done].
    + intros [H|(ext & [->|Hin]%elem_of_cons & He)].
      * left. by right.
      * left. by left.
      * right. by exists ext.
Qed.

(** X8.  What [configure_filtering] changes.  The minimal size is
    replaced when one is given; the MIME types stay; the extensions
    afterwards are the ones before and the added ones, in lower case and
    with a leading dot, none is removed; what was taken for a video or
    for a subtitle still is.  A file accepted before is accepted
    afterwards unless it is now taken for a video below the minimum now
    in force, and a named file with an added video extension that
    reaches that minimum is accepted.  An empty extension is added as the
    empty extension. *)
Theorem configure_filtering_extends (this : self) (min_video_size : option Z)
    (additional_video_exts additional_subtitle_exts : option (list str)) :
  let this' := configure_filtering this min_video_size
                 additional_video_exts additional_subtitle_exts in
  this'.(min_video_size_mb) = default this.(min_video_size_mb) min_video_size
  ∧ this'.(allowed_mime_types) = this.(allowed_mime_types)
  ∧ (∀ e, e ∈ this'.(allowed_video_extensions)
          ↔ e ∈ this.(allowed_video_extensions)
            ∨ ∃ ext, ext ∈ default [] additional_video_exts
                     ∧ e = added_extension ext)
  ∧ (∀ e, e ∈ this'.(allowed_subtitle_extensions)
          ↔ e ∈ this.(allowed_subtitle_extensions)
            ∨ ∃ ext, ext ∈ default [] additional_subtitle_exts
                     ∧ e = added_extension ext)
  ∧ (∀ name mime_type,
       (is_video this name mime_type = true →
        is_video this' name mime_type = true)
       ∧ (is_subtitle this name mime_type = true →
          is_subtitle this' name mime_type = true))
  ∧ (∀ name size mime_type,
       (should_process_file this name size mime_type).(process) = true →
       (is_video this' name mime_type = true →
        (0 < this'.(min_video_size_mb))%Z →
        (this'.(min_video_size_mb) * 1024 * 1024 ≤ size)%Z) →
       (should_process_file this' name size mime_type).(process) = true)
  ∧ (∀ ext name size,
       ext ∈ default [] additional_video_exts →
       name ≠ [] → file_ext name = added_extension ext →
       (this'.(min_video_size_mb) * 1024 * 1024 ≤ size)%Z →
       (should_process_file this' name size []).(process) = true)
  ∧ added_extension [] = [].
Proof.
  intros this'. split; [done|]. split; [done|].
  split; [intros e; apply add_extensions_spec|].
  split; [intros e; apply add_extensions_spec|].
  assert (Hmono : ∀ name mime_type,
            (is_video this name mime_type = true →
             is_video this' name mime_type = true)
            ∧ (is_subtitle this name mime_type = true →
               is_subtitle this' name mime_type = true)).
  2:{ split; [exact Hmono|]. split; [|split; [|done]].
      - intros name size mime_type Hp Hsize.
        apply process_iff in Hp as (Hn & Hvs & _). apply process_iff.
        split; [done|]. split.
        + destruct Hvs as [V|S]; [left|right]; by apply Hmono.
        + intros (V & M & Hlt). specialize (Hsize V M). lia.
      - intros ext name size Hin Hn He Hsize. apply process_iff.
        assert (Hv : is_video this' name [] = true).
        { unfold is_video. apply orb_true_iff. left. apply bool_decide_eq_true.
          apply add_extensions_spec. right. by exists ext. }
        split; [done|]. split; [by left|]. intros (_ & _ & Hlt). lia. }
  - intros name mime_type. unfold is_video, is_subtitle. split.
    + intros [H|H]%orb_true_iff; apply orb_true_iff; [left|by right].
      apply bool_decide_eq_true. apply bool_decide_eq_true in H.
      apply add_extensions_spec. by left.
    + intros [H|H]%orb_true_iff; apply orb_true_iff; [left|by right].
      apply bool_decide_eq_true. apply bool_decide_eq_true in H.
      apply add_extensions_spec. by left.
Qed.
End Configure.

(** ** Cleaning the cache *)

Section StringOrder.

Lemma lt_trans (a b c : str) :
  Py.lt a b = true → Py.lt b c = true → Py.lt a c = true.
Proof.
  revert b c. induction a as [|x a IH]; intros [|y b] [|z c]; simpl;
    try done.
  intros [H1|[H1 H1']%andb_true_iff]%orb_true_iff
         [H2|[H2 H2']%andb_true_iff]%orb_true_iff;
    apply orb_true_iff;
    repeat match goal with
           | H : (_ <? _) = true |- _ => apply N.ltb_lt in H
           | H : (_ =? _) = true |- _ => apply N.eqb_eq in H
           end.
  - left. apply N.ltb_lt. lia.
  - left. apply N.ltb_lt. lia.
  - left. apply N.ltb_lt. lia.
  - right. apply andb_true_iff. split; [apply N.eqb_eq; lia|].
    by apply (IH b c).
Qed.

Lemma lt_irrefl (a : str) : Py.lt a a = false.
Proof.
  induction a as [|x a IH]; simpl; [done|].
  rewrite N.ltb_irrefl, N.eqb_refl. done.
Qed.
End StringOrder.

Section Cleanup.
Context {UD : UnicodeData} {PF : Platform}.

(** The entries deleted from a map: one look-up after the loop *)
Lemma delete_all_lookup {A} (ks : list str) (m : gmap str A) (k : str) :
  fold_left (fun m k => delete k m) ks m !! k
  = if bool_decide (k ∈ ks) then None else m !! k.
Proof.
  revert m. induction ks as [|k0 ks IH]; intros m; simpl; [done|].
  rewrite IH. destruct (decide (k = k0)) as [->|Hne].
  - rewrite lookup_delete_eq.
    rewrite (bool_decide_eq_true_2 (k0 ∈ k0 :: ks)) by (by left).
    by destruct (bool_decide _).
  - rewrite lookup_delete_ne by done.
    destruct (decide (k ∈ ks)) as [Hin|Hnin].
    + rewrite !bool_decide_eq_true_2; [done|by right|done].
    + rewrite !bool_decide_eq_false_2; [done| |done].
      intros [?|?]%elem_of_cons; done.
Qed.

Lemma delete_old_lookup {A} (old : A → bool) (m : gmap str A) (k : str) :
  fold_left (fun m k => delete k m)
            (map fst (List.filter (fun kd => old kd.2) (map_to_list m))) m !! k
  = m !! k ≫= (λ e, if old e then None else Some e).
Proof.
  rewrite delete_all_lookup.
  destruct (m !! k) as [e|] eqn:E; simpl.
  - destruct (old e) eqn:Ho.
    + rewrite bool_decide_eq_true_2; [done|].
      apply list_elem_of_In, in_map_iff. exists (k, e). split; [done|].
      apply filter_In. split; [|done].
      by apply list_elem_of_In, elem_of_map_to_list.
    + rewrite bool_decide_eq_false_2; [done|].
      intros ((k' & e') & Hk & [Hin Hold]%filter_In)%list_elem_of_In%in_map_iff.
      simpl in *. subst k'.
      apply list_elem_of_In, elem_of_map_to_list in Hin. congruence.
  - rewrite bool_decide_eq_false_2; [done|].
    intros ((k' & e') & Hk & [Hin Hold]%filter_In)%list_elem_of_In%in_map_iff.
    simpl in *. subst k'.
    apply list_elem_of_In, elem_of_map_to_list in Hin. congruence.
Qed.

Lemma cleanup_files_lookup (self : smart_cache) (cutoff_str k : str) :
  (SmartCache.cleanup_old_cache self cutoff_str).(processed_files) !! k
  = self.(processed_files) !! k
    ≫= (λ e, if Py.lt e.(timestamp) cutoff_str then None else Some e).
Proof.
  apply (delete_old_lookup (λ e, Py.lt e.(timestamp) cutoff_str)).
Qed.

Lemma cleanup_ai_lookup (self : smart_cache) (cutoff_str k : str) :
  (SmartCache.cleanup_old_cache self cutoff_str).(ai_classifications) !! k
  = self.(ai_classifications) !! k
    ≫= (λ e, if Py.lt e.(ai_timestamp) cutoff_str then None else Some e).
Proof.
  apply (delete_old_lookup (λ e, Py.lt e.(ai_timestamp) cutoff_str)).
Qed.

Lemma smart_cache_eq (a b : smart_cache) :
  a.(processed_files) = b.(processed_files) →
  a.(ai_classifications) = b.(ai_classifications) →
  a.(file_hashes) = b.(file_hashes) →
  a.(corrections) = b.(corrections) →
  a.(learning_patterns) = b.(learning_patterns) → a = b.
Proof. destruct a, b; simpl; congruence. Qed.

(** Cleaning with the cut-off [c1] and then with [c2], not before [c1],
    is cleaning with [c2]. *)
Lemma cleanup_twice (self : smart_cache) (c1 c2 : str) :
  c1 = c2 ∨ Py.lt c1 c2 = true →
  SmartCache.cleanup_old_cache (SmartCache.cleanup_old_cache self c1) c2
  = SmartCache.cleanup_old_cache self c2.
Proof.
  intros Hc. apply smart_cache_eq; try done.
  - apply map_eq. intros k. rewrite !cleanup_files_lookup.
    destruct (processed_files self !! k) as [e|]; [|done]. simpl.
    destruct (Py.lt (timestamp e) c1) eqn:E1; simpl; [|done].
    destruct Hc as [->|Hc]; [by rewrite E1|].
    by rewrite (lt_trans _ _ _ E1 Hc).
  - apply map_eq. intros k. rewrite !cleanup_ai_lookup.
    destruct (ai_classifications self !! k) as [e|]; [|done]. simpl.
    destruct (Py.lt (ai_timestamp e) c1) eqn:E1; simpl; [|done].
    destruct Hc as [->|Hc]; [by rewrite E1|].
    by rewrite (lt_trans _ _ _ E1 Hc).
Qed.

(** X9.  [cleanup_old_cache] removes from the processed files and from
    the AI classifications exactly the entries whose time stamp is below
    the cut-off, and keeps the others as they are.  File hashes,
    corrections and learning patterns stay, so [is_file_processed] answers
    as before.  A clean-up with an earlier cut-off before it does not
    change the result, and no count of [get_cache_stats] grows. *)
Theorem cleanup_old_cache_spec (self : smart_cache) (cutoff_str : str) :
  let self' := SmartCache.cleanup_old_cache self cutoff_str in
  (∀ k, self'.(processed_files) !! k
        = self.(processed_files) !! k
          ≫= (λ e, if Py.lt e.(timestamp) cutoff_str then None else Some e))
  ∧ (∀ k, self'.(ai_classifications) !! k
          = self.(ai_classifications) !! k
            ≫= (λ e, if Py.lt e.(ai_timestamp) cutoff_str
                     then None else Some e))
  ∧ self'.(file_hashes) = self.(file_hashes)
  ∧ self'.(corrections) = self.(corrections)
  ∧ self'.(learning_patterns) = self.(learning_patterns)
  ∧ (∀ file_path, SmartCache.is_file_processed self' file_path
                  = SmartCache.is_file_processed self file_path)
  ∧ (∀ earlier, earlier = cutoff_str ∨ Py.lt earlier cutoff_str = true →
       SmartCache.cleanup_old_cache
         (SmartCache.cleanup_old_cache self earlier) cutoff_str = self')
  ∧ (let '(files, ai, hashes, manual, patterns) :=
       SmartCache.get_cache_stats self in
     let '(files', ai', hashes', manual', patterns') :=
       SmartCache.get_cache_stats self' in
     (files' ≤ files)%nat ∧ (ai' ≤ ai)%nat ∧ hashes' = hashes
     ∧ manual' = manual ∧ patterns' = patterns).
Proof.
  intros self'.
  split; [intros k; apply cleanup_files_lookup|].
  split; [intros k; apply cleanup_ai_lookup|].
  split; [done|]. split; [done|]. split; [done|]. split; [done|].
  split; [intros earlier; apply cleanup_twice|].
  unfold SmartCache.get_cache_stats.
  split; [|split; [|done]].
  - apply map_subseteq_size, map_subseteq_spec. intros k e.
    subst self'. rewrite cleanup_files_lookup.
    destruct (processed_files self !! k) as [e0|]; [|done]. simpl.
    by destruct (Py.lt _ _).
  - apply map_subseteq_size, map_subseteq_spec. intros k e.
    subst self'. rewrite cleanup_ai_lookup.
    destruct (ai_classifications self !! k) as [e0|]; [|done]. simpl.
    by destruct (Py.lt _ _).
Qed.
End Cleanup.

(** ** Applying and deleting corrections *)

Section ApplyCorrections.

Lemma mark_lookup (self : smart_cache) (folder_name k : str) :
  (SmartCache.mark_correction_applied self folder_name).(corrections) !! k
  = if decide (k = folder_name) then marked <$> self.(corrections) !! k
    else self.(corrections) !! k.
Proof.
  unfold SmartCache.mark_correction_applied.
  destruct (decide (k = folder_name)) as [->|Hne].
  - destruct (corrections self !! folder_name) as [c|] eqn:E; simpl.
    + by rewrite lookup_insert_eq.
    + by rewrite E.
  - destruct (corrections self !! folder_name) as [c|] eqn:E; simpl; [|done].
    by rewrite lookup_insert_ne.
Qed.

Lemma mark_rest (self : smart_cache) (folder_name : str) :
  let self' := SmartCache.mark_correction_applied self folder_name in
  self'.(processed_files) = self.(processed_files)
  ∧ self'.(ai_classifications) = self.(ai_classifications)
  ∧ self'.(file_hashes) = self.(file_hashes)
  ∧ self'.(learning_patterns) = self.(learning_patterns).
Proof.
  unfold SmartCache.mark_correction_applied.
  by destruct (corrections self !! folder_name).
Qed.

Lemma mark_all_lookup (l : list (str * correction)) (self : smart_cache)
    (k : str) :
  (fold_left (fun self correction =>
                SmartCache.mark_correction_applied self correction.1) l self)
    .(corrections) !! k
  = if bool_decide (k ∈ map fst l) then marked <$> self.(corrections) !! k
    else self.(corrections) !! k.
Proof.
  revert self. induction l as [|[k0 c0] l IH]; intros self; simpl; [done|].
  rewrite IH, mark_lookup. destruct (decide (k = k0)) as [->|Hne].
  - rewrite (bool_decide_eq_true_2 (k0 ∈ k0 :: map fst l)) by (by left).
    destruct (bool_decide _); [|done].
    destruct (corrections self !! k0); done.
  - destruct (decide (k ∈ map fst l)) as [Hin|Hnin].
    + rewrite !bool_decide_eq_true_2; [done|by right|done].
    + rewrite !bool_decide_eq_false_2; [done| |done].
      intros [?|?]%elem_of_cons; done.
Qed.

Lemma mark_all_rest (l : list (str * correction)) (self : smart_cache) :
  let self' := fold_left (fun self correction =>
                            SmartCache.mark_correction_applied self correction.1)
                         l self in
  self'.(processed_files) = self.(processed_files)
  ∧ self'.(ai_classifications) = self.(ai_classifications)
  ∧ self'.(file_hashes) = self.(file_hashes)
  ∧ self'.(learning_patterns) = self.(learning_patterns).
Proof.
  revert self. induction l as [|[k0 c0] l IH]; intros self; simpl; [done|].
  destruct (IH (SmartCache.mark_correction_applied self k0))
    as (-> & -> & -> & ->).
  apply mark_rest.
Qed.

Lemma marked_applied (c : correction) :
  default false c.(applied) = true → marked c = c.
Proof. destruct c as [? ? ? ? [[]|] ?]; simpl; done. Qed.

Lemma apply_lookup (self : smart_cache) (k : str) :
  (ManualCorrectionManager.apply_corrections_to_ai self).(corrections) !! k
  = marked <$> self.(corrections) !! k.
Proof.
  unfold ManualCorrectionManager.apply_corrections_to_ai.
  rewrite mark_all_lookup.
  destruct (decide (k ∈ map fst (SmartCache.get_unapplied_corrections self)))
    as [Hin|Hnin].
  - by rewrite bool_decide_eq_true_2.
  - rewrite bool_decide_eq_false_2 by done.
    destruct (corrections self !! k) as [c|] eqn:E; [|done]. simpl.
    destruct (default false (applied c)) eqn:Ha.
    + by rewrite marked_applied.
    + exfalso. apply Hnin. apply list_elem_of_In, in_map_iff.
      exists (k, c). split; [done|]. apply list_elem_of_In.
      by apply unapplied_spec.
Qed.

(** X10.  After [apply_corrections_to_ai] no correction is unapplied:
    every correction is still there, marked as applied and otherwise
    unchanged; the rest of the cache is untouched.  Running it again
    changes nothing, and [api_apply_corrections] then reports zero
    corrections. *)
Theorem apply_corrections_marks_all (self : smart_cache) :
  let self' := ManualCorrectionManager.apply_corrections_to_ai self in
  SmartCache.get_unapplied_corrections self' = []
  ∧ (∀ k, self'.(corrections) !! k
          = (λ c, {| original := c.(original); correct := c.(correct);
                     reason := c.(reason); c_timestamp := c.(c_timestamp);
                     applied := Some true;
                     correct_tmdb_id := c.(correct_tmdb_id) |})
            <$> self.(corrections) !! k)
  ∧ self'.(processed_files) = self.(processed_files)
  ∧ self'.(ai_classifications) = self.(ai_classifications)
  ∧ self'.(file_hashes) = self.(file_hashes)
  ∧ self'.(learning_patterns) = self.(learning_patterns)
  ∧ ManualCorrectionManager.apply_corrections_to_ai self' = self'
  ∧ WebInterface.api_apply_corrections self'
    = (0%nat, self').
Proof.
  intros self'.
  assert (Hnone : SmartCache.get_unapplied_corrections self' = []).
  { destruct (SmartCache.get_unapplied_corrections self') as [|[k c] l] eqn:E;
      [done|].
    assert (Hin : (k, c) ∈ SmartCache.get_unapplied_corrections self')
      by (rewrite E; by left).
    apply unapplied_spec in Hin as [Hl Ha]. subst self'.
    rewrite apply_lookup in Hl.
    destruct (corrections self !! k); simplify_eq/=. }
  assert (Hid : ManualCorrectionManager.apply_corrections_to_ai self' = self').
  { unfold ManualCorrectionManager.apply_corrections_to_ai at 1.
    by rewrite Hnone. }
  split; [done|]. split; [intros k; apply apply_lookup|].
  destruct (mark_all_rest (SmartCache.get_unapplied_corrections self) self)
    as (H1 & H2 & H3 & H4).
  repeat (split; [done|]).
  unfold WebInterface.api_apply_corrections. by rewrite Hnone, Hid.
Qed.
End ApplyCorrections.

Section DeleteCorrection.

(** X11.  [api_delete_correction] strips the requested folder name and
    answers that the correction was deleted exactly when the stripped name
    is not empty and has a correction; with any other answer the cache is
    unchanged.  After a call with a name that is not empty when stripped,
    the stripped name has no correction and is not listed as unapplied.
    The corrections of all other names stay, in particular those of names
    with white space at an end, which no request can delete; learning
    patterns and processed files stay too. *)
Theorem api_delete_correction_spec (self : smart_cache)
    (requested : option str) :
  let folder_name := Py.strip (default [] requested) in
  let '(answer, self') := WebInterface.api_delete_correction self requested in
  (answer = WebInterface.Correction_deleted
   ↔ folder_name ≠ [] ∧ is_Some (self.(corrections) !! folder_name))
  ∧ (answer ≠ WebInterface.Correction_deleted → self' = self)
  ∧ (folder_name ≠ [] → self'.(corrections) !! folder_name = None)
  ∧ (∀ k, k ≠ folder_name →
          self'.(corrections) !! k = self.(corrections) !! k)
  ∧ (∀ k, Py.strip k ≠ k →
          self'.(corrections) !! k = self.(corrections) !! k)
  ∧ (folder_name ≠ [] →
     ∀ c, (folder_name, c) ∉ SmartCache.get_unapplied_corrections self')
  ∧ self'.(learning_patterns) = self.(learning_patterns)
  ∧ self'.(processed_files) = self.(processed_files).
Proof.
  intros folder_name. unfold WebInterface.api_delete_correction.
  fold folder_name.
  assert (Hstrip : ∀ k, Py.strip k ≠ k → k ≠ folder_name).
  { intros k Hk ->. apply Hk. apply strip_strip. }
  clearbody folder_name.
  destruct folder_name as [|ch folder_name]; cbn [Py.truthy negb].
  { repeat split; try done. by intros [? _]. }
  set (name := ch :: folder_name) in *.
  destruct (decide (is_Some (corrections self !! name))) as [Hs|Hn].
  - rewrite bool_decide_eq_true_2 by done. cbn [corrections learning_patterns
      processed_files].
    split; [done|]. split; [done|].
    split; [intros _; apply lookup_delete_eq|].
    split; [intros k Hk; by apply lookup_delete_ne|].
    split; [intros k Hk; apply lookup_delete_ne; intros E;
            by apply (Hstrip k)|].
    split; [|done]. intros _ c Hin. apply unapplied_spec in Hin as [Hl _].
    cbn in Hl. by rewrite lookup_delete_eq in Hl.
  - rewrite bool_decide_eq_false_2 by done.
    split; [split; [done|by intros [_ ?]]|]. split; [done|].
    split; [intros _; by apply eq_None_not_Some|].
    split; [done|]. split; [done|]. split; [|done]. intros _ c Hin.
    apply unapplied_spec in Hin as [Hl _]. apply Hn. by exists c.
Qed.
End DeleteCorrection.

(** ** Learning and the AI step *)

Section Learning.
Context {UD : UnicodeData} {PF : Platform}.

Lemma pattern_matches_itself (folder_name o c : str) :
  SmartCache._pattern_matches folder_name
    (SmartCache._extract_learning_pattern folder_name o c) = true.
Proof.
  unfold SmartCache._pattern_matches, SmartCache._extract_learning_pattern.
  cbn [extracted_features jav_code has_numbers has_letters].
  destruct (_extract_jav_pattern folder_name) as [p|]; cbn.
  - destruct (Py.truthy p) eqn:Ht; cbn.
    + destruct (split_on_head 45 p) as (q & -> & Hq & _). cbn.
      rewrite (startswith_prefix _ _ Hq). reflexivity.
    + rewrite !bool_decide_eq_true_2 by done. reflexivity.
  - rewrite !bool_decide_eq_true_2 by done. reflexivity.
Qed.

(** X12.  Once a manual correction is recorded for a folder name, the name
    matches a learned pattern; [should_use_ai] then asks for the AI step
    for it, unless the name was classified before or its file was
    processed.  Deleting the correction through [api_delete_correction]
    does not remove the learned pattern. *)
Theorem corrected_name_goes_to_ai (w : world) (folder_name o c why : str)
    (tmdb_id : option str) (path : option str) :
  let w' := SmartCache.add_manual_correction w folder_name o c why tmdb_id in
  SmartCache._matches_manual_correction_pattern w'.(cache) folder_name = true
  ∧ (RealDebridProcessor.opt_truthy
       (SmartCache.get_cached_classification w.(cache) folder_name) = false →
     RealDebridProcessor.opt_truthy path
     && SmartCache.is_file_processed w.(cache) (default [] path) = false →
     SmartCache.should_use_ai w' folder_name path = true)
  ∧ (let '(_, self') :=
       WebInterface.api_delete_correction w'.(cache) (Some folder_name) in
     SmartCache._matches_manual_correction_pattern self' folder_name = true).
Proof.
  intros w'.
  assert (Hm : SmartCache._matches_manual_correction_pattern w'.(cache)
                 folder_name = true).
  { unfold SmartCache._matches_manual_correction_pattern. subst w'.
    unfold SmartCache.add_manual_correction. cbn [SmartCache.now fst snd cache
      learning_patterns].
    rewrite existsb_app. cbn [existsb].
    rewrite pattern_matches_itself. by rewrite orb_true_r. }
  split; [done|]. split.
  - intros Hc Hp. unfold SmartCache.should_use_ai.
    change (SmartCache.is_file_processed (cache w') (default [] path))
      with (SmartCache.is_file_processed (cache w) (default [] path)).
    rewrite Hp.
    change (SmartCache.get_cached_classification (cache w') folder_name)
      with (SmartCache.get_cached_classification (cache w) folder_name).
    by rewrite Hc, Hm.
  - unfold WebInterface.api_delete_correction.
    cbv zeta. destruct (negb (Py.truthy _)); [done|].
    destruct (bool_decide _); done.
Qed.

(** X13.  After [cache_classification] stored a label that is not empty
    for a name, [should_use_ai] refuses the AI step for that name with any
    file path.  Once a file path that is not empty was stored, and as long
    as the file still has the digest it had then, the file counts as
    processed and [should_use_ai] refuses the AI step for any name that
    comes with that path; a file whose digest is by then another one, not
    among the stored ones, does not count as processed.  The later calls
    run under a platform of their own. *)
Theorem classified_not_sent_to_ai (later : Platform) (w : world)
    (name label : str) (path : option str) :
  let w' := SmartCache.cache_classification (PF := PF) w name label path in
  (label ≠ [] →
   ∀ path', SmartCache.should_use_ai (PF := later) w' name path' = false)
  ∧ (∀ p, path = Some p → p ≠ [] →
       (get_file_hash (Platform := later) p
        = get_file_hash (Platform := PF) p →
        SmartCache.is_file_processed (PF := later) w'.(cache) p = true
        ∧ ∀ name',
            SmartCache.should_use_ai (PF := later) w' name' (Some p) = false)
       ∧ (get_file_hash (Platform := later) p
          ≠ get_file_hash (Platform := PF) p →
          w.(cache).(file_hashes) !! get_file_hash (Platform := later) p
          = None →
          SmartCache.is_file_processed (PF := later) w'.(cache) p = false)).
Proof.
  intros w'. split.
  - intros Hl path'. unfold SmartCache.should_use_ai.
    subst w'. rewrite (cache_classification_cached (PF := PF)).
    destruct (_ && _); [done|]. by destruct label.
  - intros p -> Hp.
    assert (Hh : w'.(cache).(file_hashes)
                 = <[get_file_hash (Platform := PF) p :=
                       {| h_folder_name := name; h_classification := label;
                          h_timestamp := clock (Platform := PF)
                                           (S w.(ticks)) |}]>
                     w.(cache).(file_hashes)).
    { subst w'. unfold SmartCache.cache_classification.
      destruct p as [|ch p]; [done|]. reflexivity. }
    split.
    + intros Hsame.
      assert (Hf : SmartCache.is_file_processed (PF := later) w'.(cache) p
                   = true).
      { unfold SmartCache.is_file_processed. rewrite Hh, Hsame.
        apply bool_decide_eq_true. rewrite lookup_insert_eq. by eexists. }
      split; [done|]. intros name'. unfold SmartCache.should_use_ai.
      cbn [RealDebridProcessor.opt_truthy from_option default id].
      rewrite Hf. by destruct p.
    + intros Hother Hnone. unfold SmartCache.is_file_processed.
      rewrite Hh. apply bool_decide_eq_false.
      rewrite lookup_insert_ne by done. rewrite Hnone. by intros [? ?].
Qed.
End Learning.

Section AIClassifierProperties.
Context {UD : UnicodeData}.

(** X14.  Without a client [classify_with_ai] returns the traditional
    label with confidence 0.5 and changes nothing.  With a client: if the
    name has a score afterwards, the answer is that score and every later
    call for the name, whatever the platform answers and whatever the
    traditional label, returns it again without changing the state;
    otherwise the answer is the traditional label with confidence 0.3 and
    the state is unchanged.  Patterns, corrections, the client and the
    scores of other names are never touched. *)
Theorem classify_with_ai_cached (PF1 : Platform) (self : ai_classifier)
    (folder_name o1 : str) :
  (self.(openai_client) = false →
   AIClassifier.classify_with_ai (PF := PF1) self folder_name o1
   = ((o1, 0.5%float), self))
  ∧ (self.(openai_client) = true →
     let '(answer, self') :=
       AIClassifier.classify_with_ai (PF := PF1) self folder_name o1 in
     match self'.(confidence_scores) !! folder_name with
     | Some sc =>
       answer = (sc.(s_classification), sc.(s_confidence))
       ∧ ∀ (PF2 : Platform) (o2 : str),
           AIClassifier.classify_with_ai (PF := PF2) self' folder_name o2
           = (answer, self')
     | None => answer = (o1, 0.3%float) ∧ self' = self
     end
     ∧ self'.(openai_client) = true
     ∧ self'.(jav_patterns) = self.(jav_patterns)
     ∧ self'.(ai_corrections) = self.(ai_corrections)
     ∧ ∀ k, k ≠ folder_name →
            self'.(confidence_scores) !! k = self.(confidence_scores) !! k).
Proof.
  split; intros Hc; unfold AIClassifier.classify_with_ai at 1; rewrite Hc;
    cbn [negb]; [done|].
  assert (Hhit : ∀ (self' : ai_classifier) sc,
             self'.(openai_client) = true →
             self'.(confidence_scores) !! folder_name = Some sc →
             ∀ (PF2 : Platform) (o2 : str),
               AIClassifier.classify_with_ai (PF := PF2) self' folder_name o2
               = ((sc.(s_classification), sc.(s_confidence)), self')).
  { intros self' sc Hc' Hs PF2 o2. unfold AIClassifier.classify_with_ai.
    by rewrite Hc', Hs. }
  assert (Hins : ∀ l c r,
             let self' := AIClassifier._cache_result self folder_name l c r in
             match self'.(confidence_scores) !! folder_name with
             | Some sc =>
               (l, c) = (sc.(s_classification), sc.(s_confidence))
               ∧ ∀ (PF2 : Platform) (o2 : str),
                   AIClassifier.classify_with_ai (PF := PF2) self'
                     folder_name o2 = ((l, c), self')
             | None => (l, c) = (o1, 0.3%float) ∧ self' = self
             end
             ∧ self'.(openai_client) = true
             ∧ self'.(jav_patterns) = self.(jav_patterns)
             ∧ self'.(ai_corrections) = self.(ai_corrections)
             ∧ ∀ k, k ≠ folder_name →
                    self'.(confidence_scores) !! k
                    = self.(confidence_scores) !! k).
  { intros l c r self'.
    assert (Hl : self'.(confidence_scores) !! folder_name
                 = Some {| s_classification := l; s_confidence := c;
                           s_reasoning := r |})
      by apply lookup_insert_eq.
    rewrite Hl. split; [split; [done|]|].
    - intros PF2 o2. by rewrite (Hhit self' _ Hc Hl).
    - repeat split; try done. intros k Hk. by apply lookup_insert_ne. }
  destruct (confidence_scores self !! folder_name) as [sc|] eqn:Hs.
  - rewrite Hs. split; [split; [done|]|done].
    intros PF2 o2. by apply Hhit.
  - destruct (check_if_jav self folder_name) as [jr|];
      [|by rewrite Hs].
    destruct (is_jav jr); [apply Hins|].
    destruct (classify_shows_or_movie self folder_name) as [mr|];
      [apply Hins|by rewrite Hs].
Qed.

(** X15.  [AIClassifier.learn_from_correction] does nothing when the two
    labels are equal.  It never drops a pattern and never stores one
    twice; learning the same correction a second time adds no pattern;
    scores and client stay; and when the labels differ the correction is
    recorded under the folder name. *)
Theorem learn_from_correction_patterns (PF1 PF2 : Platform)
    (self : ai_classifier) (now1 now2 : nat)
    (folder_name correct original : str) :
  let self' := AIClassifier.learn_from_correction (PF := PF1) self now1
                 folder_name correct original in
  (original = correct → self' = self)
  ∧ (NoDup self.(jav_patterns) → NoDup self'.(jav_patterns))
  ∧ (∀ p, p ∈ self.(jav_patterns) → p ∈ self'.(jav_patterns))
  ∧ (AIClassifier.learn_from_correction (PF := PF2) self' now2
       folder_name correct original).(jav_patterns)
    = self'.(jav_patterns)
  ∧ self'.(confidence_scores) = self.(confidence_scores)
  ∧ self'.(openai_client) = self.(openai_client)
  ∧ (original ≠ correct →
     ∃ r, self'.(ai_corrections) !! folder_name = Some r
          ∧ r.(a_original) = original ∧ r.(a_correct) = correct).
Proof.
  intros self'. subst self'. unfold AIClassifier.learn_from_correction.
  destruct (decide (original = correct)) as [->|Hne].
  - unfold str_eqb. rewrite !bool_decide_eq_true_2 by done. cbn [negb].
    unfold str_eqb. rewrite ?bool_decide_eq_true_2 by done. cbn [negb].
    repeat split; try done.
  - unfold str_eqb. rewrite (bool_decide_eq_false_2 (original = correct))
      by done. cbn [negb jav_patterns confidence_scores openai_client
                    ai_corrections].
    split; [done|].
    set (pats := if bool_decide (correct = u "JAV") then _ else _).
    assert (Hp : pats = self.(jav_patterns)
                 ∨ ∃ p, _extract_jav_pattern folder_name = Some p
                        ∧ bool_decide (correct = u "JAV") = true
                        ∧ p ≠ [] ∧ (p ∉ self.(jav_patterns))
                        ∧ pats = self.(jav_patterns) ++ [p]).
    { subst pats. destruct (bool_decide (correct = u "JAV")); [|by left].
      destruct (_extract_jav_pattern folder_name) as [p|]; [|by left].
      destruct (Py.truthy p) eqn:Ht; [|by left].
      destruct (decide (p ∈ jav_patterns self)) as [Hin|Hnin].
      - rewrite bool_decide_eq_true_2 by done. by left.
      - rewrite bool_decide_eq_false_2 by done. right. exists p.
        repeat split; try done. by destruct p. }
    split; [|split; [|split; [|split; [done|split; [done|]]]]].
    + intros Hnd. destruct Hp as [->|(p & _ & _ & _ & Hnin & ->)]; [done|].
      apply NoDup_app. split; [done|]. split; [|apply NoDup_singleton].
      intros x Hx ->%list_elem_of_singleton. done.
    + intros p Hin. destruct Hp as [->|(p' & _ & _ & _ & _ & ->)]; [done|].
      apply elem_of_app. by left.
    + destruct Hp as [Hp|(p & He & Hj & Hpne & Hnin & Hp)]; rewrite Hp.
      * fold pats. by rewrite Hp.
      * rewrite He, Hj.
        assert (Ht : Py.truthy p = true) by (by destruct p).
        rewrite Ht. rewrite bool_decide_eq_true_2; [done|].
        apply elem_of_app. right. by left.
    + intros _. eexists. rewrite lookup_insert_eq. done.
Qed.
End AIClassifierProperties.

(** ** Completeness of the search *)

Section RegexSearch.
Context {UD : UnicodeData}.

Lemma search_from_complete (ignorecase : bool) (r : Re.regex) (g : nat)
    (suf : str) :
  ∀ pre pos prev,
    is_Some (Re.match_here ignorecase r g (prev_of prev pre) suf) →
    is_Some (Re.search_from ignorecase r g pos prev (pre ++ suf)).
Proof.
  induction pre as [|c pre IH]; intros pos prev H.
  - cbn [app]. unfold prev_of in H. cbn in H.
    destruct suf as [|d suf]; cbn [Re.search_from];
      destruct H as [[[p s'] caps] ->]; by eexists.
  - cbn [app Re.search_from].
    destruct (Re.match_here ignorecase r g prev (c :: pre ++ suf))
      as [[[p s'] caps]|]; [by eexists|].
    apply IH. unfold prev_of in *. rewrite last_cons in H.
    by destruct (last pre).
Qed.

Lemma matches_complete (pattern : str) (ignorecase : bool) (r : Re.regex)
    (g : nat) (pre suf : str) :
  Re.compile pattern = Some (r, g) →
  is_Some (Re.match_here ignorecase r g (prev_of None pre) suf) →
  Re.matches pattern (pre ++ suf) ignorecase = true.
Proof.
  intros Hc H. unfold Re.matches, Re.search. rewrite Hc. cbn.
  apply bool_decide_eq_true. by apply search_from_complete.
Qed.

Lemma mt_cat {A} (ignorecase : bool) (a b : Re.regex) (prev : option N)
    (s : str) (caps : list (option str))
    (k : option N → str → list (option str) → option A) :
  Re.mt ignorecase (Re.Cat a b) prev s caps k
  = Re.mt ignorecase a prev s caps
      (fun prev' s' caps' => Re.mt ignorecase b prev' s' caps' k).
Proof. reflexivity. Qed.

Lemma mt_lit {A} (ignorecase : bool) (c t : N) (prev : option N)
    (s : str) (caps : list (option str))
    (k : option N → str → list (option str) → option A) :
  Re.lit_match ignorecase c t = true →
  Re.mt ignorecase (Re.Lit c) prev (t :: s) caps k = k (Some t) s caps.
Proof. intros H. cbn [Re.mt]. by rewrite H. Qed.

(** A repetition that may be empty matches where what follows it does. *)
Lemma mt_repeat_skip {A} (ignorecase : bool) (hi : option nat) (a : Re.regex)
    (prev : option N) (s : str) (caps : list (option str))
    (k : option N → str → list (option str) → option A) :
  is_Some (k prev s caps) →
  is_Some (Re.mt ignorecase (Re.Repeat 0 hi a) prev s caps k).
Proof.
  intros H. cbn [Re.mt]. destruct (length s) as [|fuel]; cbn; [done|].
  match goal with |- is_Some (match ?m with _ => _ end) => destruct m end;
    [by eexists|done].
Qed.

(** An optional character, taken *)
Lemma mt_optional_taken {A} (ignorecase neg : bool) (items : list Re.item)
    (prev : option N) (t : N) (s : str) (caps : list (option str))
    (k : option N → str → list (option str) → option A) :
  Re.class_match ignorecase neg items t = true →
  is_Some (k (Some t) s caps) →
  is_Some (Re.mt ignorecase (Re.Repeat 0 (Some 1%nat) (Re.Class neg items))
             prev (t :: s) caps k).
Proof.
  intros Hm H. cbn [Re.mt length]. rewrite Hm.
  rewrite (proj2 (Nat.ltb_lt _ _) (Nat.lt_succ_diag_r (length s))).
  destruct H as [x Hx].
  destruct (length s) as [|fuel]; cbn; rewrite Hx; by eexists.
Qed.

(** Under [re.IGNORECASE] a Basic Latin character of a pattern matches the
    characters of which it is the lower case. *)
Lemma lit_match_lower (c t : N) :
  c < 128 → Py.ascii_lower t = c → Re.lit_match true c t = true.
Proof.
  intros Hc Ht.
  assert (Hta : t < 128 ∧ Py.ascii_isupper c = false
                ∧ (t = c ∨ (Py.ascii_islower c = true))).
  { unfold Py.ascii_lower in Ht. unfold Py.ascii_isupper, Py.ascii_islower in *.
    destruct (N.leb_spec 65 t), (N.leb_spec t 90); cbn in Ht; subst c;
      destruct (N.leb_spec 65 (t + 32)), (N.leb_spec (t + 32) 90);
      destruct (N.leb_spec 97 (t + 32)), (N.leb_spec (t + 32) 122);
      destruct (N.leb_spec 65 t), (N.leb_spec t 90);
      cbn; repeat split; try lia; try (by left); try (by right). }
  destruct Hta as (Hlt & Hup & Hcase).
  assert (Hlc : Py.tolower c = c).
  { unfold Py.tolower, Py.is_ascii. rewrite (proj2 (N.ltb_lt c 128) Hc).
    unfold Py.ascii_lower. by rewrite Hup. }
  assert (Hlt' : Py.tolower t = c).
  { unfold Py.tolower, Py.is_ascii. by rewrite (proj2 (N.ltb_lt t 128) Hlt). }
  unfold Re.lit_match. cbn [andb].
  destruct (Re.iscased c) eqn:Hcased.
  - unfold Re.in_fold. rewrite Hlt', Hlc, N.eqb_refl. done.
  - destruct Hcase as [->|Hlow]; [apply N.eqb_refl|].
    exfalso. unfold Re.iscased in Hcased. rewrite Hlc, N.eqb_refl in Hcased.
    cbn in Hcased. apply negb_false_iff, N.eqb_eq in Hcased.
    unfold Py.toupper, Py.is_ascii in Hcased.
    rewrite (proj2 (N.ltb_lt c 128) Hc) in Hcased.
    unfold Py.ascii_upper in Hcased. rewrite Hlow in Hcased.
    unfold Py.ascii_islower in Hlow.
    apply andb_true_iff in Hlow as [H1%N.leb_le H2]. lia.
Qed.
End RegexSearch.

(** ** Names the rules decide *)

Section Installers.
Context {UD : UnicodeData} {PF : Platform}.

Lemma suffix_literal_matches (pattern : str) (a b c d : N) (stem ext : str) :
  Re.compile pattern
  = Some (Re.Cat (Re.Repeat 0 None Re.Dot)
            (Re.Cat (Re.Lit a)
               (Re.Cat (Re.Lit b) (Re.Cat (Re.Lit c)
                                     (Re.Cat (Re.Lit d) Re.AtEnd)))), 0%nat) →
  a < 128 → b < 128 → c < 128 → d < 128 →
  map Py.ascii_lower ext = [a; b; c; d] →
  Re.matches pattern (stem ++ ext) true = true.
Proof.
  intros Hc Ha Hb Hcc Hd Hext.
  destruct ext as [|t1 [|t2 [|t3 [|t4 [|t5 ext]]]]]; try discriminate.
  injection Hext as H1 H2 H3 H4.
  apply (matches_complete _ _ _ _ _ _ Hc).
  unfold Re.match_here. rewrite mt_cat.
  apply mt_repeat_skip.
  rewrite mt_cat, (mt_lit _ _ _ _ _ _ _ (lit_match_lower _ _ Ha H1)).
  rewrite mt_cat, (mt_lit _ _ _ _ _ _ _ (lit_match_lower _ _ Hb H2)).
  rewrite mt_cat, (mt_lit _ _ _ _ _ _ _ (lit_match_lower _ _ Hcc H3)).
  rewrite mt_cat, (mt_lit _ _ _ _ _ _ _ (lit_match_lower _ _ Hd H4)).
  cbn. by eexists.
Qed.

(** X16.  A name that ends in .exe or .msi, in any mix of capitals, is
    spam for [is_spam_or_ad]; [classify_folder] returns SKIP for it and
    caches that, when no label is cached for the name. *)
Theorem installers_are_skipped (w : world) (stem ext : str)
    (path : option str) :
  map Py.ascii_lower ext = u ".exe" ∨ map Py.ascii_lower ext = u ".msi" →
  Detectors.is_spam_or_ad (stem ++ ext) = true
  ∧ (RealDebridProcessor.opt_truthy
       (SmartCache.get_cached_classification w.(cache) (stem ++ ext)) = false →
     Classifier.classify_folder w (stem ++ ext) path
     = (Return (u "SKIP"),
        SmartCache.cache_classification w (stem ++ ext) (u "SKIP") path)).
Proof.
  intros Hext.
  assert (Hs : Detectors.is_spam_or_ad (stem ++ ext) = true).
  { unfold Detectors.is_spam_or_ad. apply existsb_exists.
    destruct Hext as [Hext|Hext].
    - exists (u ".*\.exe$"). split.
      + apply list_elem_of_In. do 10 apply list_elem_of_further.
        apply list_elem_of_here.
      + apply (suffix_literal_matches _ 46 101 120 101);
          first [done|by vm_compute].
    - exists (u ".*\.msi$"). split.
      + apply list_elem_of_In. do 11 apply list_elem_of_further.
        apply list_elem_of_here.
      + apply (suffix_literal_matches _ 46 109 115 105);
          first [done|by vm_compute]. }
  split; [done|]. intros Hmiss.
  by rewrite (classify_miss _ _ _ Hmiss), Hs.
Qed.
End Installers.

Section CodeShapes.
Context {UD : UnicodeData} {PF : Platform}.

Lemma compile_fc2 :
  Re.compile (u "fc2[-_]?ppv")
  = Some (Re.Cat (Re.Lit 102)
            (Re.Cat (Re.Lit 99)
               (Re.Cat (Re.Lit 50)
                  (Re.Cat
                     (Re.Repeat 0 (Some 1%nat)
                        (Re.Class false [Re.IChar 45; Re.IChar 95]))
                     (Re.Cat (Re.Lit 112)
                             (Re.Cat (Re.Lit 112) (Re.Lit 118)))))), 0%nat).
Proof. by vm_compute. Qed.

Lemma ascii_lower_fixed (t c : N) :
  Py.ascii_lower t = c → Py.ascii_islower c = false → t = c.
Proof.
  unfold Py.ascii_lower, Py.ascii_isupper, Py.ascii_islower.
  destruct (N.leb_spec 65 t), (N.leb_spec t 90); cbn; intros <-; try done.
  destruct (N.leb_spec 97 (t + 32)), (N.leb_spec (t + 32) 122); cbn;
    intros; (done || lia).
Qed.

Lemma fc2_matches (pre mid post : str) :
  map Py.ascii_lower mid ∈ map u ["fc2ppv"; "fc2-ppv"; "fc2_ppv"]%string →
  Re.matches (u "fc2[-_]?ppv") (pre ++ mid ++ post) true = true.
Proof.
  intros Hmid. apply (matches_complete _ _ _ _ _ _ compile_fc2).
  unfold Re.match_here.
  assert (Hk : ∀ p1 t5 t6 t7 (caps : list (option str)),
             Py.ascii_lower t5 = 112 → Py.ascii_lower t6 = 112 →
             Py.ascii_lower t7 = 118 →
             is_Some (Re.mt true
                        (Re.Cat (Re.Lit 112) (Re.Cat (Re.Lit 112) (Re.Lit 118)))
                        p1 (t5 :: t6 :: t7 :: post) caps
                        (λ prev' s' caps', Some (prev', s', caps')))).
  { intros p1 t5 t6 t7 caps H5 H6 H7.
    rewrite mt_cat, (mt_lit _ _ _ _ _ _ _ (lit_match_lower 112 _ eq_refl H5)).
    rewrite mt_cat, (mt_lit _ _ _ _ _ _ _ (lit_match_lower 112 _ eq_refl H6)).
    rewrite (mt_lit _ _ _ _ _ _ _ (lit_match_lower 118 _ eq_refl H7)).
    by eexists. }
  apply list_elem_of_In in Hmid. cbn [map In] in Hmid.
  destruct Hmid as [Hmid|[Hmid|[Hmid|[]]]]; vm_compute in Hmid.
  - destruct mid as [|t1 [|t2 [|t3 [|t5 [|t6 [|t7 [|t8 mid]]]]]]];
      try discriminate.
    injection Hmid as H1 H2 H3 H5 H6 H7. cbn [app].
    rewrite mt_cat, (mt_lit _ _ _ _ _ _ _ (lit_match_lower 102 _ eq_refl (eq_sym H1))).
    rewrite mt_cat, (mt_lit _ _ _ _ _ _ _ (lit_match_lower 99 _ eq_refl (eq_sym H2))).
    rewrite mt_cat, (mt_lit _ _ _ _ _ _ _ (lit_match_lower 50 _ eq_refl (eq_sym H3))).
    rewrite mt_cat. apply mt_repeat_skip. by apply Hk.
  - destruct mid as [|t1 [|t2 [|t3 [|t4 [|t5 [|t6 [|t7 [|t8 mid]]]]]]]];
      try discriminate.
    injection Hmid as H1 H2 H3 H4 H5 H6 H7. cbn [app].
    apply eq_sym, ascii_lower_fixed in H4 as ->; [|done].
    rewrite mt_cat, (mt_lit _ _ _ _ _ _ _ (lit_match_lower 102 _ eq_refl (eq_sym H1))).
    rewrite mt_cat, (mt_lit _ _ _ _ _ _ _ (lit_match_lower 99 _ eq_refl (eq_sym H2))).
    rewrite mt_cat, (mt_lit _ _ _ _ _ _ _ (lit_match_lower 50 _ eq_refl (eq_sym H3))).
    rewrite mt_cat. apply mt_optional_taken; [by vm_compute|]. by apply Hk.
  - destruct mid as [|t1 [|t2 [|t3 [|t4 [|t5 [|t6 [|t7 [|t8 mid]]]]]]]];
      try discriminate.
    injection Hmid as H1 H2 H3 H4 H5 H6 H7. cbn [app].
    apply eq_sym, ascii_lower_fixed in H4 as ->; [|done].
    rewrite mt_cat, (mt_lit _ _ _ _ _ _ _ (lit_match_lower 102 _ eq_refl (eq_sym H1))).
    rewrite mt_cat, (mt_lit _ _ _ _ _ _ _ (lit_match_lower 99 _ eq_refl (eq_sym H2))).
    rewrite mt_cat, (mt_lit _ _ _ _ _ _ _ (lit_match_lower 50 _ eq_refl (eq_sym H3))).
    rewrite mt_cat. apply mt_optional_taken; [by vm_compute|]. by apply Hk.
Qed.

Lemma ascii_upper_ascii (t c : N) :
  Py.ascii_upper t = c → c < 128 → Py.is_ascii t = true.
Proof.
  unfold Py.ascii_upper, Py.ascii_islower, Py.is_ascii.
  intros H Hc. apply N.ltb_lt.
  destruct (N.leb_spec 97 t), (N.leb_spec t 122); cbn in H; lia.
Qed.

Lemma upper_ascii (head : str) :
  Forall (λ c, c < 128) (map Py.ascii_upper head) →
  Py.upper head = map Py.ascii_upper head.
Proof.
  induction head as [|t head IH]; [done|].
  intros [Ht Hh]%Forall_cons. unfold Py.upper in *. cbn [flat_map map].
  rewrite (ascii_upper_ascii t _ eq_refl Ht), IH by done. done.
Qed.

Lemma prefixes_ascii (prefix : str) :
  in_JAV_PREFIXES prefix = true → Forall (λ c, c < 128) prefix.
Proof.
  intros (p & Hin & ->%bool_decide_eq_true)%existsb_exists.
  assert (H : forallb (forallb (λ c, c <? 128)) JAV_PREFIXES = true)
    by (by vm_compute).
  rewrite forallb_forall in H. apply H in Hin.
  rewrite forallb_forall in Hin. apply Forall_forall.
  intros c Hc%list_elem_of_In. by apply N.ltb_lt, Hin.
Qed.

Lemma prefix_matches (head rest prefix : str) (sep : N) :
  in_JAV_PREFIXES prefix = true →
  map Py.ascii_upper head = prefix →
  sep ∈ u "-_ " →
  existsb (JavDetector.prefix_hit (Py.upper (head ++ sep :: rest)))
          JAV_PREFIXES = true.
Proof.
  intros Hp Hh Hsep. apply existsb_exists. exists prefix. split.
  { apply existsb_exists in Hp as (p & Hin & ->%bool_decide_eq_true). done. }
  assert (Hu : Py.upper (head ++ sep :: rest)
               = prefix ++ sep :: Py.upper rest).
  { unfold Py.upper at 1. rewrite flat_map_app. fold (Py.upper head).
    rewrite upper_ascii by (rewrite Hh; by apply prefixes_ascii).
    rewrite Hh. f_equal. cbn [flat_map]. fold (Py.upper rest).
    apply list_elem_of_In in Hsep. vm_compute in Hsep.
    destruct Hsep as [<-|[<-|[<-|[]]]]; reflexivity. }
  rewrite Hu. unfold JavDetector.prefix_hit.
  apply list_elem_of_In in Hsep. vm_compute in Hsep.
  destruct Hsep as [<-|[<-|[<-|[]]]].
  - rewrite (startswith_prefix _ (prefix ++ u "-")); [done|].
    exists (Py.upper rest). by rewrite <- app_assoc.
  - rewrite (startswith_prefix _ (prefix ++ u "_")); [by rewrite orb_true_r|].
    exists (Py.upper rest). by rewrite <- app_assoc.
  - rewrite (startswith_prefix _ (prefix ++ u " "));
      [by rewrite !orb_true_r|].
    exists (Py.upper rest). by rewrite <- app_assoc.
Qed.

(** X17.  A name that holds fc2ppv, fc2-ppv or fc2_ppv in any mix of
    capitals, or that starts with a prefix of [JAV_PREFIXES] in any mix of
    capitals followed by a dash, an underscore or a space, is accepted by
    [is_jav_prefix]; [classify_folder] returns JAV for it and caches that,
    when no label is cached and the name is not spam. *)
Theorem code_shapes_are_jav (w : world) (name : str) (path : option str) :
  (∃ pre mid post,
     name = pre ++ mid ++ post
     ∧ map Py.ascii_lower mid
       ∈ map u ["fc2ppv"; "fc2-ppv"; "fc2_ppv"]%string)
  ∨ (∃ head sep rest,
       name = head ++ sep :: rest
       ∧ in_JAV_PREFIXES (map Py.ascii_upper head) = true
       ∧ sep ∈ u "-_ ") →
  JavDetector.is_jav_prefix name = true
  ∧ (RealDebridProcessor.opt_truthy
       (SmartCache.get_cached_classification w.(cache) name) = false →
     Detectors.is_spam_or_ad name = false →
     Classifier.classify_folder w name path
     = (Return (u "JAV"),
        SmartCache.cache_classification w name (u "JAV") path)).
Proof.
  intros H.
  assert (Hj : JavDetector.is_jav_prefix name = true).
  { unfold JavDetector.is_jav_prefix.
    destruct H as [(pre & mid & post & -> & Hmid)
                  |(head & sep & rest & -> & Hp & Hsep)].
    - rewrite (fc2_matches _ _ _ Hmid). by rewrite orb_true_r.
    - rewrite (prefix_matches head rest _ sep Hp eq_refl Hsep).
      by rewrite orb_true_r. }
  split; [done|]. intros Hmiss Hspam.
  by rewrite (classify_miss _ _ _ Hmiss), Hspam, Hj.
Qed.

(** X18.  Without a client and with no cached label or AI result for the
    name, a label [classify_folder] returns is the one of the traditional
    order: SKIP for spam, else JAV for a code, else Shows for a show, else
    Movie; and the state of the AI classifier is left as it was. *)
Theorem no_client_keeps_traditional (w : world) (name : str)
    (path : option str) (label : str) (w' : world) :
  w.(ai).(openai_client) = false →
  w.(cache).(ai_classifications) !! name = None →
  RealDebridProcessor.opt_truthy
    (SmartCache.get_cached_classification w.(cache) name) = false →
  Classifier.classify_folder w name path = (Return label, w') →
  label = (if Detectors.is_spam_or_ad name then u "SKIP"
           else if JavDetector.is_jav_prefix name then u "JAV"
           else if Detectors.is_tv_show name then u "Shows"
           else u "Movie")
  ∧ w'.(ai) = w.(ai).
Proof.
  intros Hc Hai Hmiss. rewrite (classify_miss _ _ _ Hmiss).
  assert (Hcc : ∀ w0 l, (SmartCache.cache_classification w0 name l path).(ai)
                        = w0.(ai)).
  { intros w0 l. unfold SmartCache.cache_classification. cbn.
    destruct path as [p|]; [destruct (Py.truthy p)|]; reflexivity. }
  generalize (u "SKIP") (u "JAV") (u "Shows") (u "Movie").
  intros skip jav shows movie.
  destruct (Detectors.is_spam_or_ad name);
    [intros [= <- <-]; by rewrite Hcc|].
  destruct (JavDetector.is_jav_prefix name);
    [intros [= <- <-]; by rewrite Hcc|].
  destruct (Detectors.is_tv_show name);
    [intros [= <- <-]; by rewrite Hcc|].
  destruct (SmartCache.should_use_ai w name path);
    [|intros [= <- <-]; by rewrite Hcc].
  unfold Classifier.consult_ai, SmartCache.get_cached_ai_classification.
  rewrite Hai. cbn [fmap option_fmap option_map].
  unfold AIClassifier.classify_with_ai. rewrite Hc. cbn [negb fst snd].
  destruct AIClassifier.get_confidence_threshold as [thr|e]; [|done].
  destruct (PrimFloat.leb thr 0.5); intros [= <- <-]; by rewrite Hcc.
Qed.
End CodeShapes.

(** ** Extracted codes *)

Section ExtractCode.
Context {UD : UnicodeData}.
Import JavDetector.

Lemma first_result_some {A B} (f : A → option B) (l : list A) (y : B) :
  first_result f l = Some y → ∃ x, x ∈ l ∧ f x = Some y.
Proof.
  induction l as [|x l IH]; simpl; [done|].
  destruct (f x) as [y'|] eqn:E.
  - intros [= <-]. exists x. split; [by left|done].
  - intros (x' & Hin & Hx)%IH. exists x'. split; [by right|done].
Qed.

Lemma coded_fc2 (number : str) : coded (u "FC2-PPV-" ++ number).
Proof. exists (u "FC2-PPV"), number. split; [reflexivity|by right]. Qed.

Lemma code_of_match_coded (name pattern : str) (m : Re.rmatch) (code : str) :
  code_of_match name pattern m = Some code → coded code.
Proof.
  unfold code_of_match.
  destruct (Py.contains (Py.lower pattern) (u "fc2")).
  { intros [= <-]. apply coded_fc2. }
  destruct (2 <=? length (Re.m_groups m))%nat.
  - match goal with |- context [let '(_, _) := ?x in _] =>
      destruct x as [prefix number] end.
    destruct (Py.truthy prefix && in_JAV_PREFIXES (Py.upper prefix)) eqn:E;
      [|done].
    apply andb_true_iff in E as [_ E]. intros [= <-].
    exists (Py.upper prefix), number. split; [reflexivity|by left].
  - destruct (length (Re.m_groups m) =? 1)%nat; [|done].
    destruct (Re.search _ _ true) as [pm|]; [|done].
    destruct (in_JAV_PREFIXES _) eqn:E; [|done]. intros [= <-].
    exists (Py.upper (group (Re.m_groups pm) 0)), (group (Re.m_groups m) 0).
    split; [reflexivity|by left].
Qed.

Lemma code_of_prefix_coded (name prefix code : str) :
  in_JAV_PREFIXES prefix = true →
  code_of_prefix name prefix = Some code → coded code.
Proof.
  intros Hp. unfold code_of_prefix.
  match goal with |- match ?d with _ => _ end = _ → _ =>
    destruct d as [c|] eqn:E end.
  - intros [= <-].
    match type of E with (if ?b then _ else _) = _ => destruct b end; [|done].
    match type of E with match ?x with _ => _ end = _ =>
      destruct x as [cm|] end; [|done].
    injection E as <-. exists prefix, (group (Re.m_groups cm) 0).
    split; [reflexivity|by left].
  - clear E. destruct (Re.search _ name true) as [wm|]; [|done].
    intros [= <-]. exists prefix, (group (Re.m_groups wm) 0).
    split; [reflexivity|by left].
Qed.

(** X19.  Every code [extract_jav_code] returns is a prefix, a dash and
    the rest, the prefix being one of [JAV_PREFIXES] or FC2-PPV (the
    fallback loop runs over members of [JAV_PREFIXES]).  Moreover every
    match of an FC2 pattern of the list has exactly one group, the one
    the code is built from. *)
Theorem extract_jav_code_prefix (iteration : list str) (name : str) :
  ((∀ prefix, prefix ∈ iteration → in_JAV_PREFIXES prefix = true) →
   ∀ code, extract_jav_code iteration name = Some code →
     ∃ prefix number,
       code = prefix ++ u "-" ++ number
       ∧ (in_JAV_PREFIXES prefix = true ∨ prefix = u "FC2-PPV"))
  ∧ (∀ pattern m,
       pattern ∈ code_patterns →
       Py.contains (Py.lower pattern) (u "fc2") = true →
       Re.search pattern name true = Some m →
       length (Re.m_groups m) = 1%nat).
Proof.
  split.
  - intros Hit code. unfold extract_jav_code.
    destruct (first_result (code_of_pattern name) code_patterns)
      as [c|] eqn:E1.
    { intros [= <-]. apply first_result_some in E1 as (pattern & _ & H).
      unfold code_of_pattern in H.
      destruct (Re.search pattern name true) as [m|]; [|done].
      by apply code_of_match_coded in H. }
    destruct (first_result (code_of_prefix name) iteration) as [c|] eqn:E2.
    { intros [= <-]. apply first_result_some in E2 as (prefix & Hin & H).
      apply code_of_prefix_coded in H; [done|by apply Hit]. }
    destruct (Re.search _ name true) as [m|]; [|done].
    intros [= <-]. apply coded_fc2.
  - intros pattern m Hin Hfc Hs.
    assert (H : forallb
                  (λ p, implb (Py.contains (Py.lower p) (u "fc2"))
                          (bool_decide (snd <$> Re.compile p = Some 1%nat)))
                  code_patterns = true) by (by vm_compute).
    rewrite forallb_forall in H. apply list_elem_of_In, H in Hin.
    rewrite Hfc in Hin. cbn [implb] in Hin.
    apply bool_decide_eq_true in Hin.
    destruct (Re.compile pattern) as [[r g]|] eqn:Hc; [|done].
    injection Hin as ->. exact (search_groups _ _ _ _ _ _ Hc Hs).
Qed.
End ExtractCode.

(** ** Outcomes of a metadata correction *)

Section CorrectionOutcomes.
Context {UD : UnicodeData} {PF : Platform}.
Import CorrectionProcessor.



End CorrectionOutcomes.

(** ** More runs *)

Section MoreRuns.
Import Sample.
#[local] Existing Instance basic_latin.

(** An installer, its extension in capitals *)
Lemma installers_are_skipped_witness :
  map Py.ascii_lower (u ".EXE") = u ".exe"
  ∧ Detectors.is_spam_or_ad (u "Setup" ++ u ".EXE") = true
  ∧ Classifier.classify_folder (PF := sure) (fresh false)
      (u "Setup" ++ u ".EXE") None
    = (Return (u "SKIP"),
       SmartCache.cache_classification (PF := sure) (fresh false)
         (u "Setup" ++ u ".EXE") (u "SKIP") None).
Proof.
  assert (He : map Py.ascii_lower (u ".EXE") = u ".exe")
    by (vm_compute; reflexivity).
  destruct (installers_are_skipped (PF := sure) (fresh false) (u "Setup")
              (u ".EXE") None (or_introl He)) as [Hs Hc].
  split; [exact He|]. split; [exact Hs|].
  apply Hc. vm_compute; reflexivity.
Defined.

(** A name that holds fc2_PPV, and one that starts with a prefix of the
    list and a space *)
Lemma code_shapes_are_jav_witness :
  JavDetector.is_jav_prefix (u "my." ++ u "Fc2_PPV" ++ u ".clip") = true
  ∧ Classifier.classify_folder (PF := sure) (fresh false)
      (u "my." ++ u "Fc2_PPV" ++ u ".clip") None
    = (Return (u "JAV"),
       SmartCache.cache_classification (PF := sure) (fresh false)
         (u "my." ++ u "Fc2_PPV" ++ u ".clip") (u "JAV") None)
  ∧ JavDetector.is_jav_prefix (u "sone" ++ 32%N :: u "the film") = true.
Proof.
  assert (H1 : ∃ pre mid post,
             u "my." ++ u "Fc2_PPV" ++ u ".clip" = pre ++ mid ++ post
             ∧ map Py.ascii_lower mid
               ∈ map u ["fc2ppv"; "fc2-ppv"; "fc2_ppv"]%string).
  { exists (u "my."), (u "Fc2_PPV"), (u ".clip"). split; [reflexivity|].
    do 2 apply list_elem_of_further. vm_compute. apply list_elem_of_here. }
  assert (H2 : ∃ head sep rest,
             u "sone" ++ 32%N :: u "the film" = head ++ sep :: rest
             ∧ in_JAV_PREFIXES (map Py.ascii_upper head) = true
             ∧ sep ∈ u "-_ ").
  { exists (u "sone"), 32%N, (u "the film"). split; [reflexivity|].
    split; [vm_compute; reflexivity|].
    do 2 apply list_elem_of_further. vm_compute. apply list_elem_of_here. }
  destruct (code_shapes_are_jav (PF := sure) (fresh false) _ None
              (or_introl H1)) as [Hj Hc].
  destruct (code_shapes_are_jav (PF := sure) (fresh false) _ None
              (or_intror H2)) as [Hj2 _].
  split; [exact Hj|]. split; [|exact Hj2].
  apply Hc; vm_compute; reflexivity.
Defined.

(** Without a client, a name that [should_use_ai] would send to the
    remote model stays a Movie. *)
Lemma no_client_keeps_traditional_witness :
  AIClassifier.should_use_ai (ai (fresh true)) (u "XYZW-123") = true
  ∧ (Classifier.classify_folder (PF := sure) (fresh false) (u "XYZW-123")
       None).1 = Return (u "Movie")
  ∧ (Classifier.classify_folder (PF := sure) (fresh false) (u "XYZW-123")
       None).2.(ai) = (fresh false).(ai).
Proof.
  split; [vm_compute; reflexivity|].
  assert (Hr : Classifier.classify_folder (PF := sure) (fresh false)
                 (u "XYZW-123") None
               = (Return (u "Movie"),
                  (Classifier.classify_folder (PF := sure) (fresh false)
                     (u "XYZW-123") None).2))
    by (vm_compute; reflexivity).
  destruct (no_client_keeps_traditional (PF := sure) (fresh false)
              (u "XYZW-123") None (u "Movie") _ eq_refl eq_refl eq_refl Hr)
    as [_ Ha].
  split; [by rewrite Hr|exact Ha].
Defined.

(** The code of a name on the list and of an FC2 name; the order of the
    fallback loop is here the one of the source text. *)
Lemma extract_jav_code_prefix_witness :
  JavDetector.extract_jav_code JAV_PREFIXES (u "169bbs.com@sone-564_[4K]")
  = Some (u "SONE-564")
  ∧ ∃ prefix number,
      u "SONE-564" = prefix ++ u "-" ++ number
      ∧ (in_JAV_PREFIXES prefix = true ∨ prefix = u "FC2-PPV").
Proof.
  assert (He : JavDetector.extract_jav_code JAV_PREFIXES
                 (u "169bbs.com@sone-564_[4K]") = Some (u "SONE-564"))
    by (vm_compute; reflexivity).
  split; [exact He|].
  refine (proj1 (extract_jav_code_prefix JAV_PREFIXES
                   (u "169bbs.com@sone-564_[4K]")) _ _ He).
  intros prefix Hin. apply existsb_exists. exists prefix.
  split; [by apply list_elem_of_In|by apply bool_decide_eq_true].
Defined.

Example extract_jav_code_examples :
  map (fun name => JavDetector.extract_jav_code JAV_PREFIXES (u name))
      [ "SONE-564"; "fc2-ppv-4652840-HD"; "hhd800.com@START-296";
        "DASS-616ch"; "XYZW-123"; "Interstellar.2014.2160p" ]%string
  = [ Some (u "SONE-564"); Some (u "FC2-PPV-4652840");
      Some (u "START-296"); Some (u "DASS-616"); None; None ].
Proof. by vm_compute. Qed.

(** The group of the sample torrent *)
Lemma grouping_invariants_witness :
  ∃ g, RealDebridProcessor._create_torrent_groups_with_skip
         RealDebridProcessor.init one_torrent
         [ record "https://rd/L1" "T1" "Heat.1995.mkv" 4000000000;
           record "https://rd/L2" "T1" "Heat.1995.srt" 20000 ]
         false ∅ !! u "Heat.1995.1080p" = Some g
       ∧ length g.(RealDebridProcessor.files) = 2%nat
       ∧ g.(RealDebridProcessor.folder_name) = u "Heat.1995.1080p"
       ∧ g.(RealDebridProcessor.torrent_info) ∈ one_torrent.
Proof.
  eexists. split; [vm_compute; reflexivity|].
  split; [reflexivity|].
  match goal with |- _ ∧ RealDebridProcessor.torrent_info ?g ∈ _ =>
    pose proof (grouping_invariants RealDebridProcessor.init one_torrent
                  [ record "https://rd/L1" "T1" "Heat.1995.mkv" 4000000000;
                    record "https://rd/L2" "T1" "Heat.1995.srt" 20000 ]
                  false ∅ (u "Heat.1995.1080p") g) as H end.
  destruct H as (Hf & _ & _ & _ & Ht); [vm_compute; reflexivity|].
  split; [exact Hf|exact Ht].
Defined.

(** Adding the extension ts, without its dot and in capitals *)
Example configure_filtering_run :
  let this' := RealDebridProcessor.configure_filtering
                 RealDebridProcessor.init (Some 100%Z)
                 (Some [u "TS"; u ".m2ts"]) None in
  map (fun '(name, size) =>
         (RealDebridProcessor.should_process_file this' (u name) size [])
           .(RealDebridProcessor.process))
      [ ("Heat.1995.ts", 104857600%Z); ("Heat.1995.ts", 104857599%Z);
        ("Heat.1995.M2TS", 104857600%Z); ("Heat.1995.mkv", 104857600%Z);
        ("Heat.1995.srt", 0%Z) ]%string
  = [ true; false; true; true; true ]
  ∧ (RealDebridProcessor.should_process_file RealDebridProcessor.init
       (u "Heat.1995.ts") 4000000000 []).(RealDebridProcessor.process)
    = false.
Proof. split; by vm_compute. Qed.

(** A cache with an entry of an earlier day, cleaned *)
Example cleanup_old_cache_run :
  let w := SmartCache.cache_classification (PF := sure)
             (cached (u "Old.Film") (u "Movie") None)
             (u "Heat.1995") (u "Movie") (Some (u "/x/Heat.strm")) in
  let self' := SmartCache.cleanup_old_cache w.(cache)
                 (u "2025-01-01") in
  SmartCache.get_cache_stats w.(cache) = (2, 0, 1, 0, 0)%nat
  ∧ SmartCache.get_cache_stats self' = (1, 0, 1, 0, 0)%nat
  ∧ SmartCache.get_cached_classification self' (u "Old.Film") = None
  ∧ SmartCache.get_cached_classification self' (u "Heat.1995")
    = Some (u "Movie").
Proof. repeat split; by vm_compute. Qed.

(** Deleting through the web interface: the name of the request is
    stripped first. *)
Example api_delete_correction_run :
  let spaced := SmartCache.add_manual_correction (PF := sure) (fresh false)
                  (u " Heat ") (u "Movie") (u "Shows") [] None in
  let plain := SmartCache.add_manual_correction (PF := sure) (fresh false)
                 (u "Heat") (u "Movie") (u "Shows") [] None in
  (WebInterface.api_delete_correction spaced.(cache) (Some (u " Heat "))).1
  = WebInterface.Correction_not_found
  ∧ (WebInterface.api_delete_correction plain.(cache) (Some (u " Heat "))).1
    = WebInterface.Correction_deleted
  ∧ (WebInterface.api_delete_correction plain.(cache) (Some (u "  "))).1
    = WebInterface.Folder_name_is_required
  ∧ (WebInterface.api_delete_correction plain.(cache) None).1
    = WebInterface.Folder_name_is_required.
Proof. repeat split; by vm_compute. Qed.

Example sanitizers_run :
  map (fun name => RealDebridProcessor.sanitize_folder_name
                     RealDebridProcessor.init (u name))
      [ "Heat: The <Movie>.mkv"; "a. ."; "..."; EmptyString ]%string
  = map u [ "Heat_ The _Movie_"; "a."; "Unknown"; "Unknown" ]%string
  ∧ map (fun url => RealDebridProcessor.extract_filename_from_url (u url))
      [ "https://host/d/ID/My%2520Film.mkv?x=1#t"; "https://host/d/ID/";
        "https://host/file.mkv"; EmptyString ]%string
    = map u [ "My Film.mkv"; "unknown"; "unknown"; "unknown" ]%string
  ∧ clean_filename (u "Heat: Part 2 / <Cut>?") = u "Heat - Part 2 - (Cut)".
Proof. repeat split; by vm_compute. Qed.
End MoreRuns.

(** ** Repetitions of a class *)

Section RepeatOfClass.
Context {UD : UnicodeData}.
Variable ignorecase : bool.

Lemma prev_of_cons (prev : option N) (c : N) (l : str) :
  prev_of prev (c :: l) = prev_of (Some c) l.
Proof. unfold prev_of. rewrite last_cons. by destruct (last l). Qed.

Lemma prev_of_app (prev : option N) (l1 l2 : str) :
  prev_of prev (l1 ++ l2) = prev_of (prev_of prev l1) l2.
Proof.
  revert prev. induction l1 as [|c l1 IH]; intros prev; [done|].
  cbn [app]. by rewrite !prev_of_cons, IH.
Qed.

Lemma mt_repeat_loop {A : Type} (lo : nat) (hi : option nat) (a : Re.regex)
    (prev : option N) (s : str) (caps : list (option str))
    (k : option N → str → list (option str) → option A) :
  Re.mt ignorecase (Re.Repeat lo hi a) prev s caps k
  = loop_of ignorecase lo hi a k (length s) 0%nat prev s caps.
Proof. reflexivity. Qed.

Section Loop.
Context {A : Type}.
Variables (neg : bool) (items : list Re.item) (lo : nat) (hi : option nat).
Variable k : option N → str → list (option str) → option A.

(** One turn of the loop of a repeated class, written out *)
Lemma loop_class_unfold (fuel cnt : nat) (prev : option N) (s : str)
    (caps : list (option str)) :
  loop_of ignorecase lo hi (Re.Class neg items) k (S fuel) cnt prev s caps
  = match
      (if from_option (fun h => (cnt <? h)%nat) true hi then
         match s with
         | t :: s' =>
           if Re.class_match ignorecase neg items t
           then loop_of ignorecase lo hi (Re.Class neg items) k
                        fuel (S cnt) (Some t) s' caps
           else None
         | [] => None
         end
       else None)
    with
    | Some x => Some x
    | None => if (lo <=? cnt)%nat then k prev s caps else None
    end.
Proof.
  cbn [loop_of Re.mt].
  destruct (from_option _ true hi); [|reflexivity].
  destruct s as [|t s']; [reflexivity|].
  destruct (Re.class_match ignorecase neg items t); [|reflexivity].
  replace (length s' <? length (t :: s'))%nat with true; [reflexivity|].
  symmetry. apply Nat.ltb_lt. cbn [length]. lia.
Qed.

Lemma loop_class_zero (cnt : nat) (prev : option N) (s : str)
    (caps : list (option str)) :
  loop_of ignorecase lo hi (Re.Class neg items) k 0 cnt prev s caps
  = if (lo <=? cnt)%nat then k prev s caps else None.
Proof. reflexivity. Qed.

Opaque loop_of.

(** The longest repetition comes first: when the class matches all of
    [ds] and no longer run can be taken, and what follows accepts the
    rest, the result is the one for [ds]. *)
Lemma loop_class_greedy (rest : str) (caps : list (option str)) (x : A) :
  ∀ (ds : str) (fuel cnt : nat) (prev : option N),
    Forall (λ t, Re.class_match ignorecase neg items t = true) ds →
    (length (ds ++ rest) ≤ fuel)%nat →
    (lo ≤ cnt + length ds)%nat →
    (∀ h, hi = Some h → (cnt + length ds ≤ h)%nat) →
    (∀ t, head rest = Some t →
          Re.class_match ignorecase neg items t = false)
    ∨ hi = Some (cnt + length ds)%nat →
    k (prev_of prev ds) rest caps = Some x →
    loop_of ignorecase lo hi (Re.Class neg items) k fuel cnt prev
            (ds ++ rest) caps = Some x.
Proof.
  induction ds as [|d ds IH]; intros fuel cnt prev Hds Hfuel Hlo Hhi Hend Hk.
  - cbn [app length] in *. rewrite Nat.add_0_r in *.
    assert (Hstop : (if (lo <=? cnt)%nat then k prev rest caps else None)
                    = Some x).
    { rewrite (proj2 (Nat.leb_le _ _) Hlo). exact Hk. }
    destruct fuel as [|fuel]; [by rewrite loop_class_zero|].
    rewrite loop_class_unfold.
    destruct Hend as [Hend| ->].
    + destruct (from_option _ true hi); [|done].
      destruct rest as [|t rest]; [done|].
      by rewrite (Hend t eq_refl).
    + cbn [from_option]. by rewrite Nat.ltb_irrefl.
  - apply Forall_cons in Hds as [Hd Hds]. cbn [app length] in *.
    destruct fuel as [|fuel]; [lia|].
    rewrite loop_class_unfold.
    assert (Hc : from_option (λ h, (cnt <? h)%nat) true hi = true).
    { destruct hi as [h|]; [|done]. cbn. apply Nat.ltb_lt.
      specialize (Hhi h eq_refl). lia. }
    rewrite Hc, Hd.
    rewrite (IH fuel (S cnt) (Some d)); [done|done|lia|lia| | |].
    + intros h Hh. specialize (Hhi h Hh). lia.
    + destruct Hend as [Hend| ->]; [by left|right]. f_equal. lia.
    + by rewrite <- (prev_of_cons prev).
Qed.


(** When what follows accepts whatever it is given, the loop ends after
    some run the class matches, whenever a run long enough exists. *)
Lemma loop_class_total (caps : list (option str)) :
  (∀ prev s, is_Some (k prev s caps)) →
  ∀ (fuel cnt : nat) (prev : option N) (s : str),
    (length s ≤ fuel)%nat →
    (∃ ds rest,
       s = ds ++ rest
       ∧ Forall (λ t, Re.class_match ignorecase neg items t = true) ds
       ∧ (lo ≤ cnt + length ds)%nat
       ∧ ∀ h, hi = Some h → (cnt + length ds ≤ h)%nat) →
    ∃ ds' rest',
      s = ds' ++ rest'
      ∧ loop_of ignorecase lo hi (Re.Class neg items) k fuel cnt prev s caps
        = k (prev_of prev ds') rest' caps.
Proof.
  intros Htotal.
  induction fuel as [|fuel IH]; intros cnt prev s Hfuel
    (ds & rest & Hs & Hds & Hlo & Hhi).
  - destruct s; [|cbn in Hfuel; lia].
    destruct ds; [|done]. cbn [length] in Hlo. rewrite Nat.add_0_r in Hlo.
    exists [], []. split; [done|]. rewrite loop_class_zero.
    by rewrite (proj2 (Nat.leb_le _ _) Hlo).
  - rewrite loop_class_unfold.
    destruct ds as [|d ds].
    + cbn [length app] in *. rewrite Nat.add_0_r in Hlo. subst rest.
      rewrite (proj2 (Nat.leb_le _ _) Hlo).
      destruct (from_option _ true hi) eqn:Hc;
        [|exists [], s; by split].
      destruct s as [|t s]; [exists [], []; by split|].
      destruct (Re.class_match ignorecase neg items t) eqn:Ht;
        [|exists [], (t :: s); by split].
      destruct (IH (S cnt) (Some t) s) as (ds' & rest' & -> & E).
      { cbn in Hfuel. lia. }
      { exists [], s. repeat split; [done|cbn; lia|].
        intros h Hh. rewrite Hh in Hc. cbn in Hc.
        apply Nat.ltb_lt in Hc. cbn. lia. }
      rewrite E. destruct (Htotal (prev_of (Some t) ds') rest') as [y Hy].
      rewrite Hy. exists (t :: ds'), rest'. split; [done|].
      by rewrite prev_of_cons.
    + apply Forall_cons in Hds as [Hd Hds]. cbn [app length] in *.
      subst s.
      assert (Hc : from_option (λ h, (cnt <? h)%nat) true hi = true).
      { destruct hi as [h|]; [|done]. cbn. apply Nat.ltb_lt.
        specialize (Hhi h eq_refl). lia. }
      rewrite Hc, Hd.
      destruct (IH (S cnt) (Some d) (ds ++ rest)) as (ds' & rest' & Hs & E).
      { cbn in Hfuel. lia. }
      { exists ds, rest. repeat split; [done|lia|].
        intros h Hh. specialize (Hhi h Hh). lia. }
      rewrite E. destruct (Htotal (prev_of (Some d) ds') rest') as [y Hy].
      rewrite Hy. exists (d :: ds'), rest'. split; [by rewrite Hs|].
      by rewrite prev_of_cons.
Qed.

Transparent loop_of.
End Loop.
End RepeatOfClass.

(** ** The leftmost match *)

Section Leftmost.
Context {UD : UnicodeData}.
Variable ignorecase : bool.


End Leftmost.


(** ** Classes on Basic Latin *)

Section Classes.
Context {UD : UnicodeData}.

Lemma nrange_elem (n : nat) :
  ∀ lo t, lo ≤ t → t < lo + N.of_nat n → In t (Re.nrange lo n).
Proof.
  induction n as [|n IH]; intros lo t H1 H2; [lia|].
  cbn [Re.nrange In]. destruct (N.eq_dec lo t) as [->|Hne]; [by left|].
  right. apply IH; lia.
Qed.

(** A fact of the Basic Latin characters, checked on each of them *)
Lemma basic_latin_cases (P : N → bool) :
  forallb P (Re.nrange 0 128) = true → ∀ t, t < 128 → P t = true.
Proof.
  intros H t Ht. rewrite forallb_forall in H. apply H.
  apply nrange_elem; lia.
Qed.



(** [\d] *)
Lemma class_digit (ignorecase : bool) (t : N) :
  Re.class_match ignorecase false [Re.IDigit] t = Py.isdecimal t.
Proof.
  unfold Re.class_match. cbn [existsb Re.item_cased Re.item_has].
  rewrite andb_false_r. cbn [xorb]. by rewrite orb_false_r.
Qed.

Lemma isdecimal_digit (t : N) :
  Py.ascii_isdigit t = true → Py.isdecimal t = true.
Proof.
  intros H. unfold Py.isdecimal, Py.is_ascii.
  replace (t <? 128) with true; [done|].
  symmetry. apply N.ltb_lt. unfold Py.ascii_isdigit in H.
  apply andb_true_iff in H as [_ H%N.leb_le]. lia.
Qed.

Lemma is_word_digit (t : N) : Py.ascii_isdigit t = true → Re.is_word t = true.
Proof.
  intros H. unfold Re.is_word, Py.isalnum.
  by rewrite (isdecimal_digit t H), orb_true_r.
Qed.

Lemma isdecimal_word (t : N) : Py.isdecimal t = true → Re.is_word t = true.
Proof.
  intros H. unfold Re.is_word, Py.isalnum. by rewrite H, orb_true_r.
Qed.

(** Under [re.IGNORECASE] a Basic Latin character of a pattern matches
    the characters that differ from it in case only. *)
Lemma lit_match_fold (c t : N) :
  c < 128 → Py.ascii_lower t = Py.ascii_lower c →
  Re.lit_match true c t = true.
Proof.
  intros Hc Ht.
  assert (Hlt : t < 128).
  { unfold Py.ascii_lower, Py.ascii_isupper in Ht.
    destruct (N.leb_spec 65 t), (N.leb_spec t 90),
             (N.leb_spec 65 c), (N.leb_spec c 90); cbn in Ht; lia. }
  revert Ht.
  apply (basic_latin_cases
           (λ c, forallb (λ t, implb (Py.ascii_lower t =? Py.ascii_lower c)
                                     (Re.lit_match true c t))
                         (Re.nrange 0 128))) in Hc; [|by vm_compute].
  rewrite forallb_forall in Hc.
  specialize (Hc t (nrange_elem 128 0 t (N.le_0_l t) Hlt)).
  intros Ht. rewrite Ht, N.eqb_refl in Hc. exact Hc.
Qed.
End Classes.

(** ** Episode markers *)

Section EpisodeMarkers.
Context {UD : UnicodeData} {PF : Platform}.

Lemma compile_episode :
  Re.compile (u "S\d+E\d+")
  = Some (Re.Cat (Re.Lit 83)
            (Re.Cat (Re.Repeat 1 None (Re.Class false [Re.IDigit]))
               (Re.Cat (Re.Lit 69)
                  (Re.Repeat 1 None (Re.Class false [Re.IDigit])))),
          0%nat).
Proof. by vm_compute. Qed.

Lemma compile_compact :
  Re.compile (u "\b\d{1,2}x\d{1,2}\b")
  = Some (Re.Cat Re.Boundary
            (Re.Cat (Re.Repeat 1 (Some 2%nat) (Re.Class false [Re.IDigit]))
               (Re.Cat (Re.Lit 120)
                  (Re.Cat
                     (Re.Repeat 1 (Some 2%nat) (Re.Class false [Re.IDigit]))
                     Re.Boundary))),
          0%nat).
Proof. by vm_compute. Qed.

Lemma digits_class (ignorecase : bool) (ds : str) :
  Forall (λ c, Py.ascii_isdigit c = true) ds →
  Forall (λ t, Re.class_match ignorecase false [Re.IDigit] t = true) ds.
Proof.
  intros Hds. apply (Forall_impl _ _ _ Hds). intros t H.
  rewrite class_digit. by apply isdecimal_digit.
Qed.

Lemma not_word_not_digit (ignorecase : bool) (o : option N) :
  (∀ c, o = Some c → Re.is_word c = false) →
  ∀ t, o = Some t → Re.class_match ignorecase false [Re.IDigit] t = false.
Proof.
  intros H t Ht. rewrite class_digit. apply not_true_is_false. intros Hd.
  apply isdecimal_word in Hd. by rewrite (H t Ht) in Hd.
Qed.

(** The character before what follows a run that is not empty is the last
    of the run. *)
Lemma prev_of_last (prev : option N) (ds : str) :
  ds ≠ [] → ∃ d, prev_of prev ds = Some d ∧ d ∈ ds.
Proof.
  intros Hne. unfold prev_of.
  destruct (last ds) as [d|] eqn:E.
  - exists d. split; [done|]. by apply last_Some_elem_of.
  - by apply last_None in E.
Qed.

Lemma mt_boundary {A : Type} (ignorecase : bool) (prev : option N) (s : str)
    (caps : list (option str))
    (k : option N → str → list (option str) → option A) :
  Re.at_boundary prev s = true →
  Re.mt ignorecase Re.Boundary prev s caps k = k prev s caps.
Proof. intros H. cbn [Re.mt]. by rewrite H. Qed.

Lemma episode_marker_matches (pre season episode post : str) (s e : N) :
  s ∈ u "sS" → e ∈ u "eE" → season ≠ [] → episode ≠ [] →
  Forall (λ c, Py.ascii_isdigit c = true) season →
  Forall (λ c, Py.ascii_isdigit c = true) episode →
  Detectors.episode_marker (pre ++ s :: season ++ e :: episode ++ post)
  = true.
Proof.
  intros Hs He Hn1 Hn2 Hd1 Hd2. unfold Detectors.episode_marker.
  apply (matches_complete _ _ _ _ pre _ compile_episode).
  unfold Re.match_here. cbn [replicate].
  assert (Hls : Re.lit_match true 83 s = true).
  { apply list_elem_of_In in Hs. vm_compute in Hs.
    destruct Hs as [<-|[<-|[]]]; by vm_compute. }
  assert (Hle : Re.lit_match true 69 e = true
                ∧ Re.class_match true false [Re.IDigit] e = false).
  { apply list_elem_of_In in He. vm_compute in He.
    destruct He as [<-|[<-|[]]]; by vm_compute. }
  destruct Hle as [Hle Hce].
  rewrite mt_cat, (mt_lit _ _ _ _ _ _ _ Hls), mt_cat, mt_repeat_loop.
  destruct (loop_class_total true false [Re.IDigit] 1 None
              (λ prev' s' caps, Some (prev', s', caps)) []
              (λ prev s, ltac:(by eexists))
              (length (episode ++ post)) 0%nat (Some e) (episode ++ post))
    as (ds' & rest' & Hsplit & E); [done| |].
  { exists episode, post. split; [done|]. split; [by apply digits_class|].
    split; [|done]. destruct episode; [done|]. cbn [length]. lia. }
  erewrite loop_class_greedy; [by eexists|by apply digits_class|done| |done| |].
  - destruct season; [done|]. cbn [length]. lia.
  - left. by intros t [= <-].
  - rewrite mt_cat, (mt_lit _ _ _ _ _ _ _ Hle), mt_repeat_loop. exact E.
Qed.

Lemma compact_marker_matches (pre season episode post : str) (x : N) :
  x ∈ u "xX" →
  (1 ≤ length season ≤ 2)%nat → (1 ≤ length episode ≤ 2)%nat →
  Forall (λ c, Py.ascii_isdigit c = true) season →
  Forall (λ c, Py.ascii_isdigit c = true) episode →
  (∀ c, last pre = Some c → Re.is_word c = false) →
  (∀ c, head post = Some c → Re.is_word c = false) →
  Detectors.compact_marker (pre ++ season ++ x :: episode ++ post) = true.
Proof.
  intros Hx Hl1 Hl2 Hd1 Hd2 Hpre Hpost. unfold Detectors.compact_marker.
  apply (matches_complete _ _ _ _ pre _ compile_compact).
  unfold Re.match_here. cbn [replicate].
  assert (Hlx : Re.lit_match true 120 x = true
                ∧ Re.class_match true false [Re.IDigit] x = false).
  { apply list_elem_of_In in Hx. vm_compute in Hx.
    destruct Hx as [<-|[<-|[]]]; by vm_compute. }
  destruct Hlx as [Hlx Hcx].
  assert (Hb1 : Re.at_boundary (prev_of None pre)
                  (season ++ x :: episode ++ post) = true).
  { unfold Re.at_boundary.
    assert (H1 : from_option Re.is_word false (prev_of None pre) = false).
    { unfold prev_of. destruct (last pre) as [c|] eqn:E; [|done].
      cbn. by apply Hpre. }
    rewrite H1. destruct season as [|d season]; [cbn in Hl1; lia|].
    apply Forall_cons in Hd1 as [Hd _]. cbn. by apply is_word_digit. }
  destruct (prev_of_last (Some x) episode) as (d & Hd & Hin).
  { intros ->. cbn in Hl2. lia. }
  assert (Hb2 : Re.at_boundary (prev_of (Some x) episode) post = true).
  { unfold Re.at_boundary. rewrite Hd. cbn [from_option].
    rewrite Forall_forall in Hd2. rewrite (is_word_digit d (Hd2 d Hin)).
    destruct post as [|c post]; [done|]. cbn. by rewrite (Hpost c eq_refl). }
  rewrite mt_cat, (mt_boundary _ _ _ _ _ Hb1), mt_cat, mt_repeat_loop.
  erewrite loop_class_greedy;
    [by eexists|by apply digits_class|done|cbn; lia| | |].
  - intros h [= <-]. cbn. lia.
  - left. by intros t [= <-].
  - rewrite mt_cat, (mt_lit _ _ _ _ _ _ _ Hlx), mt_cat, mt_repeat_loop.
    erewrite loop_class_greedy;
      [reflexivity|by apply digits_class|done|cbn; lia| | |].
    + intros h [= <-]. cbn. lia.
    + left. by apply not_word_not_digit.
    + by rewrite (mt_boundary _ _ _ _ _ Hb2).
Qed.

(** C3, as amended.  A name that holds an S01E01-style marker (the letter
    S, digits, the letter E, digits, the letters in either case), or a
    5x09-style marker (one or two digits, the letter x in either case,
    one or two digits) with no word character, that is no letter, digit
    or underscore, right before or right after it, is a show for
    [is_tv_show]; [classify_folder] returns Shows for it, and caches
    that, when the cache holds no label for the name and neither the spam
    filter nor the code detector matches it. *)
Theorem episode_marker_is_show (w : world) (name : str) (path : option str) :
  (∃ pre s season e episode post,
     name = pre ++ s :: season ++ e :: episode ++ post
     ∧ s ∈ u "sS" ∧ e ∈ u "eE"
     ∧ season ≠ [] ∧ episode ≠ []
     ∧ Forall (λ c, Py.ascii_isdigit c = true) (season ++ episode))
  ∨ (∃ pre season x episode post,
       name = pre ++ season ++ x :: episode ++ post
       ∧ x ∈ u "xX"
       ∧ (1 ≤ length season ≤ 2)%nat ∧ (1 ≤ length episode ≤ 2)%nat
       ∧ Forall (λ c, Py.ascii_isdigit c = true) (season ++ episode)
       ∧ (∀ c, last pre = Some c → Re.is_word c = false)
       ∧ (∀ c, head post = Some c → Re.is_word c = false)) →
  Detectors.is_tv_show name = true
  ∧ (RealDebridProcessor.opt_truthy
       (SmartCache.get_cached_classification w.(cache) name) = false →
     Detectors.is_spam_or_ad name = false →
     JavDetector.is_jav_prefix name = false →
     Classifier.classify_folder w name path
     = (Return (u "Shows"),
        SmartCache.cache_classification w name (u "Shows") path)).
Proof.
  intros Hm.
  assert (Htv : Detectors.is_tv_show name = true).
  { unfold Detectors.is_tv_show.
    destruct Hm as [(pre & s & season & e & episode & post & -> & Hs & He
                     & Hn1 & Hn2 & [Hd1 Hd2]%Forall_app)
                   |(pre & season & x & episode & post & -> & Hx & Hl1 & Hl2
                     & [Hd1 Hd2]%Forall_app & Hpre & Hpost)].
    - by rewrite episode_marker_matches.
    - rewrite compact_marker_matches by done. by rewrite orb_true_r. }
  split; [done|]. intros Hmiss Hspam Hjav.
  by rewrite (classify_miss _ _ _ Hmiss), Hspam, Hjav, Htv.
Qed.
End EpisodeMarkers.

(** ** Codes the first pattern finds *)

Section CodePattern.
Context {UD : UnicodeData}.









End CodePattern.

Section WhitelistedCodes.
Context {UD : UnicodeData} {PF : Platform}.




End WhitelistedCodes.

(** ** Runs of the detectors *)

Section DetectorRuns.
Import Sample.
#[local] Existing Instance basic_latin.


(** A whitelisted code further to the right is not looked for: the first
    pattern finds HD-1080, whose prefix is not on the list, and no other
    pattern and no fallback applies. *)
Example leftmost_match_only :
  JavDetector.group
    (from_option Re.m_groups []
       (Re.search (u "([A-Z0-9]{2,6})[-_](\d{3,5})") (u "HD-1080 SONE-564")
                  true)) 0
  = u "HD"
  ∧ JavDetector.is_jav_prefix (u "HD-1080 SONE-564") = false
  ∧ (Classifier.classify_folder (PF := sure) (fresh false)
       (u "HD-1080 SONE-564") None).1 = Return (u "Movie").
Proof. repeat split; by vm_compute. Qed.

(** A name with an episode marker and one with a compact marker between
    dots, on a fresh world *)
Lemma episode_marker_is_show_witness :
  Detectors.is_tv_show (u "Breaking.Bad.S01E01.1080p") = true
  ∧ Classifier.classify_folder (PF := sure) (fresh false)
      (u "Breaking.Bad.S01E01.1080p") None
    = (Return (u "Shows"),
       SmartCache.cache_classification (PF := sure) (fresh false)
         (u "Breaking.Bad.S01E01.1080p") (u "Shows") None)
  ∧ Detectors.is_tv_show (u "Show.5x09.720p") = true
  ∧ Classifier.classify_folder (PF := sure) (fresh false)
      (u "Show.5x09.720p") None
    = (Return (u "Shows"),
       SmartCache.cache_classification (PF := sure) (fresh false)
         (u "Show.5x09.720p") (u "Shows") None).
Proof.
  assert (H1 : ∃ pre s season e episode post,
             u "Breaking.Bad.S01E01.1080p"
             = pre ++ s :: season ++ e :: episode ++ post
             ∧ s ∈ u "sS" ∧ e ∈ u "eE"
             ∧ season ≠ [] ∧ episode ≠ []
             ∧ Forall (λ c, Py.ascii_isdigit c = true) (season ++ episode)).
  { exists (u "Breaking.Bad."), 83, (u "01"), 69, (u "01"), (u ".1080p").
    split; [vm_compute; reflexivity|].
    split; [vm_compute; apply list_elem_of_further, list_elem_of_here|].
    split; [vm_compute; apply list_elem_of_further, list_elem_of_here|].
    split; [by vm_compute|]. split; [by vm_compute|].
    vm_compute. repeat constructor. }
  assert (H2 : ∃ pre season x episode post,
             u "Show.5x09.720p" = pre ++ season ++ x :: episode ++ post
             ∧ x ∈ u "xX"
             ∧ (1 ≤ length season ≤ 2)%nat ∧ (1 ≤ length episode ≤ 2)%nat
             ∧ Forall (λ c, Py.ascii_isdigit c = true) (season ++ episode)
             ∧ (∀ c, last pre = Some c → Re.is_word c = false)
             ∧ (∀ c, head post = Some c → Re.is_word c = false)).
  { exists (u "Show."), (u "5"), 120, (u "09"), (u ".720p").
    split; [vm_compute; reflexivity|].
    split; [vm_compute; apply list_elem_of_here|].
    split; [vm_compute; lia|]. split; [vm_compute; lia|].
    split; [vm_compute; repeat constructor|].
    split; intros c Hc; vm_compute in Hc; injection Hc as <-;
      vm_compute; reflexivity. }
  destruct (episode_marker_is_show (PF := sure) (fresh false) _ None
              (or_introl H1)) as [Ht1 Hr1].
  destruct (episode_marker_is_show (PF := sure) (fresh false) _ None
              (or_intror H2)) as [Ht2 Hr2].
  split; [exact Ht1|]. split; [apply Hr1; vm_compute; reflexivity|].
  split; [exact Ht2|]. apply Hr2; vm_compute; reflexivity.
Defined.

(** Between underscores the compact marker has no word boundary: the name
    is no show, and is classified Movie. *)
Example compact_marker_needs_boundary :
  Detectors.is_tv_show (u "Show_5x09_720p") = false
  ∧ (Classifier.classify_folder (PF := sure) (fresh false)
       (u "Show_5x09_720p") None).1 = Return (u "Movie").
Proof. split; by vm_compute. Qed.

(** [configure_filtering] can narrow the filter: a subtitle extension
    added as a video extension puts the size test on subtitle files, and
    a higher minimum rejects videos accepted before. *)
Example configure_filtering_narrows :
  let as_video := RealDebridProcessor.configure_filtering
                    RealDebridProcessor.init None (Some [u "srt"]) None in
  let higher := RealDebridProcessor.configure_filtering
                  RealDebridProcessor.init (Some 1000%Z) None None in
  map (fun this =>
         (RealDebridProcessor.should_process_file this (u "Heat.1995.srt")
            20000 []).(RealDebridProcessor.process))
      [RealDebridProcessor.init; as_video]
  = [true; false]
  ∧ map (fun this =>
           (RealDebridProcessor.should_process_file this (u "Heat.1995.mkv")
              419430400 []).(RealDebridProcessor.process))
        [RealDebridProcessor.init; higher]
    = [true; false].
Proof. split; by vm_compute. Qed.
End DetectorRuns.
